(** * Report generator and order notifier: a shallow embedding

    The two refactored programs of the repository,
    [Solucion/gestor_documentos.py] (reports) and
    [Solucion/tienda_online/tienda_online.py] (order notifications), are
    translated class by class.  Python values are a small universe of
    JSON-like data, exceptions are an error type, and every effect of the
    programs (reading the clock, writing to the console, mutating an object)
    is explicit state passing. *)

From Stdlib Require Import ZArith String Ascii List Bool Lia DecimalString.
From Corelib Require Import PrimFloat SpecFloat FloatOps.
From stdpp Require Import base gmap strings list.
Import ListNotations.

Set Warnings "-inexact-float,-register-all".
Local Open Scope Z_scope.

(** ** Python run time: values, exceptions, built-ins *)
Module Py.

(** The exceptions the programs and the built-ins they call can raise.  All
    are subclasses of [Exception], so [except Exception] catches each. *)
Inductive exn : Type :=
| KeyError (key : string)
| ValueError (msg : string)
| TypeError (msg : string)
| OverflowError (msg : string)
| AssertionError.

(** Values a payload is made of: mappings and sequences of primitive
    values.  A [dict] keeps its keys in insertion order; payload keys are
    strings.  A [str] is the [string] of its UTF-8 encoding: a character is
    a lead byte followed by its continuation bytes, and [len], slicing and
    iteration count characters, not bytes. *)
Inductive pyval : Type :=
| VNone
| VBool (b : bool)
| VInt (z : Z)
| VFloat (f : float)
| VStr (s : string)
| VList (l : list pyval)
| VDict (d : list (string * pyval)).

Definition dict : Type := list (string * pyval).

(** [repr] of floats and containers is the interpreter's business (shortest
    round-trip digits, quoting); the programs only ever print it. *)
Class Runtime : Type := py_repr : pyval -> string.

Definition result (A : Type) : Type := (exn + A)%type.

Definition rbind {A B : Type} (r : result A) (k : A -> result B) : result B :=
  match r with
  | inl e => inl e
  | inr x => k x
  end.

Notation "'let?' x ':=' r 'in' k" := (rbind r (fun x => k))
  (at level 10, x name, r at level 100, k at level 200).

Definition nl : string := String (ascii_of_nat 10) EmptyString.

(** [s * n] *)
Fixpoint str_repeat (s : string) (n : nat) : string :=
  match n with
  | O => EmptyString
  | S n' => s +:+ str_repeat s n'
  end.

(** A byte [10xxxxxx] continues the character its lead byte started. *)
Definition is_continuation (c : ascii) : bool :=
  match c with
  | Ascii _ _ _ _ _ _ b6 b7 => b7 && negb b6
  end.

(** [len(s)] for a [str]: the number of characters. *)
Fixpoint str_len (s : string) : nat :=
  match s with
  | EmptyString => O
  | String c s' => if is_continuation c then str_len s' else S (str_len s')
  end.

(** [s[:n]] for [n >= 0]: the first [n] characters, each with its
    continuation bytes. *)
Fixpoint str_take (n : nat) (s : string) : string :=
  match s with
  | EmptyString => EmptyString
  | String c s' =>
      if is_continuation c then String c (str_take n s')
      else
        match n with
        | O => EmptyString
        | S n' => String c (str_take n' s')
        end
  end.

(** [s.startswith(p)] *)
Definition startswith (s p : string) : bool := String.prefix p s.

(** [sub in s] for two strings: [sub] occurs in [s] at some position. *)
Fixpoint str_contains (sub s : string) : bool :=
  String.prefix sub s
  || match s with
     | EmptyString => false
     | String _ s' => str_contains sub s'
     end.

(** [str(z)] for an [int] *)
Definition dec (z : Z) : string := NilZero.string_of_int (Z.to_int z).

Definition type_name (v : pyval) : string :=
  match v with
  | VNone => "NoneType"
  | VBool _ => "bool"
  | VInt _ => "int"
  | VFloat _ => "float"
  | VStr _ => "str"
  | VList _ => "list"
  | VDict _ => "dict"
  end.

(** [bool(v)] *)
Definition truthy (v : pyval) : bool :=
  match v with
  | VNone => false
  | VBool b => b
  | VInt z => negb (z =? 0)
  | VFloat f => negb (PrimFloat.eqb f 0%float)
  | VStr s => negb (String.eqb s "")
  | VList l => match l with [] => false | _ => true end
  | VDict d => match d with [] => false | _ => true end
  end.

Fixpoint dict_get (d : dict) (k : string) : option pyval :=
  match d with
  | [] => None
  | (k', v) :: d' => if String.eqb k' k then Some v else dict_get d' k
  end.

(** [d[k] = v]: an existing key keeps its place. *)
Fixpoint dict_set (d : dict) (k : string) (v : pyval) : dict :=
  match d with
  | [] => [(k, v)]
  | (k', v') :: d' =>
      if String.eqb k' k then (k', v) :: d' else (k', v') :: dict_set d' k v
  end.

(** [{**d1, **d2}] *)
Definition dict_update (d1 d2 : dict) : dict :=
  fold_left (fun d kv => dict_set d (fst kv) (snd kv)) d2 d1.

(** [v[k]] for a string key [k] *)
Definition getitem (v : pyval) (k : string) : result pyval :=
  match v with
  | VDict d =>
      match dict_get d k with
      | Some x => inr x
      | None => inl (KeyError k)
      end
  | VStr _ => inl (TypeError "string indices must be integers, not 'str'")
  | VList _ => inl (TypeError "list indices must be integers or slices, not str")
  | _ => inl (TypeError ("'" +:+ type_name v +:+ "' object is not subscriptable"))
  end.

(** The continuation bytes a string starts with. *)
Fixpoint continuation (s : string) : string :=
  match s with
  | EmptyString => EmptyString
  | String c s' =>
      if is_continuation c then String c (continuation s') else EmptyString
  end.

(** The characters of a [str], each a [str] of length one. *)
Fixpoint chars (s : string) : list pyval :=
  match s with
  | EmptyString => []
  | String c s' =>
      if is_continuation c then chars s'
      else VStr (String c (continuation s')) :: chars s'
  end.

(** The items [for x in v] runs over. *)
Definition iter (v : pyval) : result (list pyval) :=
  match v with
  | VList l => inr l
  | VDict d => inr (map (fun kv => VStr (fst kv)) d)
  | VStr s => inr (chars s)
  | _ => inl (TypeError ("'" +:+ type_name v +:+ "' object is not iterable"))
  end.

(** [len(v)] *)
Definition len (v : pyval) : result Z :=
  match v with
  | VList l => inr (Z.of_nat (length l))
  | VDict d => inr (Z.of_nat (length d))
  | VStr s => inr (Z.of_nat (str_len s))
  | _ => inl (TypeError ("object of type '" +:+ type_name v +:+ "' has no len()"))
  end.

(** *** Numbers *)

(** [float(z)]: the nearest double, ties to even; too large an [int] is an
    [OverflowError]. *)
Definition float_of_Z (z : Z) : result float :=
  match binary_normalize prec emax z 0 false with
  | S754_infinity _ => inl (OverflowError "int too large to convert to float")
  | sf => inr (SF2Prim sf)
  end.

Inductive num : Type :=
| NInt (z : Z)
| NFloat (f : float).

(** [bool] is a subclass of [int]. *)
Definition as_num (v : pyval) : option num :=
  match v with
  | VBool b => Some (NInt (if b then 1 else 0))
  | VInt z => Some (NInt z)
  | VFloat f => Some (NFloat f)
  | _ => None
  end.

Definition of_num (n : num) : pyval :=
  match n with
  | NInt z => VInt z
  | NFloat f => VFloat f
  end.

Definition arith (opZ : Z -> Z -> Z) (opF : float -> float -> float)
    (a b : num) : result num :=
  match a, b with
  | NInt x, NInt y => inr (NInt (opZ x y))
  | NInt x, NFloat g => let? f := float_of_Z x in inr (NFloat (opF f g))
  | NFloat f, NInt y => let? g := float_of_Z y in inr (NFloat (opF f g))
  | NFloat f, NFloat g => inr (NFloat (opF f g))
  end.

Definition binop (sym : string) (opZ : Z -> Z -> Z)
    (opF : float -> float -> float) (a b : pyval) : result pyval :=
  match as_num a, as_num b with
  | Some x, Some y => let? r := arith opZ opF x y in inr (of_num r)
  | _, _ =>
      inl (TypeError ("unsupported operand type(s) for " +:+ sym +:+ ": '"
                      +:+ type_name a +:+ "' and '" +:+ type_name b +:+ "'"))
  end.

(** [a + b] and [a - b] on the numbers (the programs add and subtract
    nothing else that succeeds from a numeric left operand). *)
Definition add : pyval -> pyval -> result pyval := binop "+" Z.add PrimFloat.add.

(** [sum(f(x) for x in items)]: the built-in starts from the [int] 0 and
    adds from left to right, evaluating [f] on an item just before adding
    it. *)
Fixpoint sum_from (f : pyval -> result pyval) (acc : pyval)
    (items : list pyval) : result pyval :=
  match items with
  | [] => inr acc
  | x :: rest =>
      let? v := f x in
      let? acc' := add acc v in
      sum_from f acc' rest
  end.

Definition sum (f : pyval -> result pyval) (items : list pyval) : result pyval :=
  sum_from f (VInt 0) items.

Definition sub : pyval -> pyval -> result pyval := binop "-" Z.sub PrimFloat.sub.

(** The integer nearest to [a * 2^e], ties to even ([a >= 0]). *)
Definition round_half_even (a e : Z) : Z :=
  if 0 <=? e then a * 2 ^ e
  else
    let d := 2 ^ (- e) in
    let q := a / d in
    let r := a mod d in
    if 2 * r <? d then q
    else if d <? 2 * r then q + 1
    else if Z.even q then q else q + 1.

Definition pad2 (z : Z) : string :=
  if z <? 10 then "0" +:+ dec z else dec z.

(** [f"{x:.2f}"] for a [float]: the exact binary value, correctly rounded
    to two decimals. *)
Definition float_format_2f (x : float) : string :=
  match Prim2SF x with
  | S754_nan => "nan"
  | S754_infinity s => if s then "-inf" else "inf"
  | S754_zero s => if s then "-0.00" else "0.00"
  | S754_finite s m e =>
      let n := round_half_even (Z.pos m * 100) e in
      (if s then "-" else "") +:+ dec (n / 100) +:+ "." +:+ pad2 (n mod 100)
  end.

(** [f"{v:.2f}"]: an [int] (or [bool]) is converted to [float] first. *)
Definition format_2f (v : pyval) : result string :=
  match v with
  | VStr _ => inl (ValueError "Unknown format code 'f' for object of type 'str'")
  | _ =>
      match as_num v with
      | Some (NFloat f) => inr (float_format_2f f)
      | Some (NInt z) => let? f := float_of_Z z in inr (float_format_2f f)
      | None =>
          inl (TypeError ("unsupported format string passed to "
                          +:+ type_name v +:+ ".__format__"))
      end
  end.

(** [str(v)], as [f"{v}"] renders a value. *)
Definition str `{Runtime} (v : pyval) : string :=
  match v with
  | VNone => "None"
  | VBool b => if b then "True" else "False"
  | VInt z => dec z
  | VStr s => s
  | VFloat _ | VList _ | VDict _ => py_repr v
  end.

(** [str(e)] for a caught exception: the message, and for a [KeyError]
    the [repr] of the key. *)
Definition exn_str `{Runtime} (e : exn) : string :=
  match e with
  | KeyError k => py_repr (VStr k)
  | ValueError m | TypeError m | OverflowError m => m
  | AssertionError => ""
  end.

(** *** Dictionaries keyed by arbitrary values

    Keys must be hashable; two keys are the same when they compare equal
    ([1 == 1.0 == True]).  Values carry no object identity, so a NaN key,
    which equals nothing, is always a new key. *)
Definition hashable (v : pyval) : bool :=
  match v with
  | VList _ | VDict _ => false
  | _ => true
  end.

(** [float(z) == f] without rounding: [f] is finite and its exact value
    is [z]. *)
Definition float_eq_Z (f : float) (z : Z) : bool :=
  match Prim2SF f with
  | S754_zero _ => z =? 0
  | S754_finite s m e =>
      let a := if s then Z.neg m else Z.pos m in
      if 0 <=? e then a * 2 ^ e =? z else a =? z * 2 ^ (- e)
  | _ => false
  end.

Definition num_eqb (a b : num) : bool :=
  match a, b with
  | NInt x, NInt y => x =? y
  | NInt x, NFloat g => float_eq_Z g x
  | NFloat f, NInt y => float_eq_Z f y
  | NFloat f, NFloat g => PrimFloat.eqb f g
  end.

(** [a == b] on hashable values *)
Definition key_eqb (a b : pyval) : bool :=
  match a, b with
  | VNone, VNone => true
  | VStr s, VStr t => String.eqb s t
  | _, _ =>
      match as_num a, as_num b with
      | Some x, Some y => num_eqb x y
      | _, _ => false
      end
  end.

(** [x is not None] *)
Definition not_none {A : Type} (x : option A) : bool :=
  match x with
  | Some _ => true
  | None => false
  end.

Definition vdict (V : Type) : Type := list (pyval * V).

Fixpoint vdict_get {V : Type} (d : vdict V) (k : pyval) : option V :=
  match d with
  | [] => None
  | (k', v) :: d' => if key_eqb k' k then Some v else vdict_get d' k
  end.

Fixpoint vdict_set {V : Type} (d : vdict V) (k : pyval) (v : V) : vdict V :=
  match d with
  | [] => [(k, v)]
  | (k', v') :: d' =>
      if key_eqb k' k then (k', v) :: d' else (k', v') :: vdict_set d' k v
  end.

Definition unhashable (v : pyval) : exn :=
  TypeError ("unhashable type: '" +:+ type_name v +:+ "'").

(** *** The world: the clock and the console *)

Record datetime : Type := mk_datetime {
  year : Z; month : Z; day : Z; hour : Z; minute : Z; second : Z
}.

Definition pad4 (z : Z) : string :=
  if z <? 10 then "000" +:+ dec z
  else if z <? 100 then "00" +:+ dec z
  else if z <? 1000 then "0" +:+ dec z
  else dec z.

Definition directive (c : ascii) (d : datetime) : string :=
  if Ascii.eqb c "Y" then pad4 (year d)
  else if Ascii.eqb c "m" then pad2 (month d)
  else if Ascii.eqb c "d" then pad2 (day d)
  else if Ascii.eqb c "H" then pad2 (hour d)
  else if Ascii.eqb c "M" then pad2 (minute d)
  else if Ascii.eqb c "S" then pad2 (second d)
  else String "%" (String c EmptyString).

(** [d.strftime(fmt)] for the directives the programs use. *)
Fixpoint strftime (fmt : string) (d : datetime) : string :=
  match fmt with
  | EmptyString => EmptyString
  | String c rest =>
      if Ascii.eqb c "%" then
        match rest with
        | String c' rest' => directive c' d +:+ strftime rest' d
        | EmptyString => String c EmptyString
        end
      else String c (strftime rest d)
  end.

(** [time_at n] is what the [n]-th call of [datetime.now()] returns;
    [stdout] holds the arguments of the [print] calls, oldest first. *)
Record World : Type := mk_World {
  time_at : nat -> datetime;
  reads : nat;
  stdout : list string
}.

(** A computation that may raise and that leaves its effects on the world
    behind also when it raises. *)
Definition M (A : Type) : Type := World -> result A * World.

Definition ret {A : Type} (x : A) : M A := fun w => (inr x, w).

Definition raise {A : Type} (e : exn) : M A := fun w => (inl e, w).

Definition bind {A B : Type} (c : M A) (k : A -> M B) : M B :=
  fun w =>
    match c w with
    | (inl e, w') => (inl e, w')
    | (inr x, w') => k x w'
    end.

Definition lift {A : Type} (r : result A) : M A := fun w => (r, w).

(** [try: c except Exception as e: h(e)] *)
Definition try_except {A : Type} (c : M A) (h : exn -> M A) : M A :=
  fun w =>
    match c w with
    | (inl e, w') => h e w'
    | (inr x, w') => (inr x, w')
    end.

(** [datetime.now()] *)
Definition now : M datetime :=
  fun w => (inr (time_at w (reads w)),
            mk_World (time_at w) (S (reads w)) (stdout w)).

Definition print (s : string) : M unit :=
  fun w => (inr tt, mk_World (time_at w) (reads w) (stdout w ++ [s])).

Notation "x <- c ;; k" := (bind c (fun x => k))
  (at level 100, c at next level, right associativity).
Notation "c ;; k" := (bind c (fun _ => k))
  (at level 100, right associativity).

End Py.

(** ** [Solucion/gestor_documentos.py] *)
Module Reports.
Import Py.

(** *** [class Report] *)
Module Report.

Record t : Type := mk {
  content : string;
  type : string;
  format : string;
  timestamp : datetime;
  metadata : dict
}.

(** [Report(content, report_type, format_type, metadata)] *)
Definition init (content report_type format_type : string)
    (metadata : option dict) : M t :=
  timestamp <- now ;;
  ret (mk content report_type format_type timestamp
         (match metadata with
          | Some d => if truthy (VDict d) then d else []
          | None => []
          end)).

Definition get_content (self : t) : string := content self.

Definition get_metadata (self : t) : dict :=
  dict_update
    [("type", VStr (type self));
     ("format", VStr (format self));
     ("timestamp", VStr (strftime "%Y-%m-%d %H:%M:%S" (timestamp self)))]
    (metadata self).

(** [report.content = formatted_content] *)
Definition set_content (self : t) (c : string) : t :=
  mk c (type self) (format self) (timestamp self) (metadata self).

End Report.

(** *** The strategy interfaces

    An instance is the record of its truth value and of its methods.  The
    classes of the program define neither [__bool__] nor [__len__], so
    their instances are truthy; a class written later and registered may
    answer [False], and then fails a test such as [if not generator] as
    [None] does. *)
Module IFormatStrategy.
Record t : Type := mk { __bool__ : bool; format : string -> M string }.
End IFormatStrategy.

Module IDeliveryStrategy.
Record t : Type := mk { __bool__ : bool; deliver : string -> dict -> M bool }.
End IDeliveryStrategy.

Module IReportGenerator.
Record t : Type := mk {
  __bool__ : bool;
  generate_report : pyval -> M Report.t
}.
End IReportGenerator.

(** The banner every generator starts its content with. *)
Definition banner (title timestamp : string) : string :=
  str_repeat "=" 60 +:+ nl
  +:+ title +:+ nl
  +:+ str_repeat "=" 60 +:+ nl
  +:+ "Fecha de generación: " +:+ timestamp +:+ nl +:+ nl.

(** *** [class SalesReportGenerator] *)
Module SalesReportGenerator.

Definition _calculate_totals (sales : pyval) : result pyval :=
  let? items := iter sales in
  sum (fun item => getitem item "amount") items.

(** One turn of the loop of [_format_sales_detail]. *)
Definition detail_line `{Runtime} (sale : pyval) : result string :=
  let? product := getitem sale "product" in
  let? amount := getitem sale "amount" in
  let? amount_2f := format_2f amount in
  inr ("  • Producto: " +:+ str product +:+ " - $" +:+ amount_2f +:+ nl).

Fixpoint detail_loop `{Runtime} (detail : string) (sales : list pyval)
    : result string :=
  match sales with
  | [] => inr detail
  | sale :: rest =>
      let? line := detail_line sale in
      detail_loop (detail +:+ line) rest
  end.

Definition _format_sales_detail `{Runtime} (sales : pyval) : result string :=
  let detail := "Detalle de ventas:" +:+ nl in
  let detail := detail +:+ str_repeat "-" 60 +:+ nl in
  let? items := iter sales in
  detail_loop detail items.

Definition generate_report `{Runtime} (data : pyval) : M Report.t :=
  t <- now ;;
  let timestamp := strftime "%Y-%m-%d %H:%M:%S" t in
  let content := banner "           REPORTE DE VENTAS" timestamp in
  sales <- lift (getitem data "sales") ;;
  total_sales <- lift (_calculate_totals sales) ;;
  total_2f <- lift (format_2f total_sales) ;;
  let content := content +:+ "Total de ventas: $" +:+ total_2f +:+ nl in
  sales <- lift (getitem data "sales") ;;
  n <- lift (len sales) ;;
  let content := content +:+ "Número de transacciones: " +:+ dec n +:+ nl in
  period <- lift (getitem data "period") ;;
  let content := content +:+ "Periodo: " +:+ str period +:+ nl +:+ nl in
  sales <- lift (getitem data "sales") ;;
  detail <- lift (_format_sales_detail sales) ;;
  let content := content +:+ detail in
  period <- lift (getitem data "period") ;;
  Report.init content "sales" "raw" (Some [("period", period)]).

Definition new `{Runtime} : IReportGenerator.t :=
  IReportGenerator.mk true generate_report.

End SalesReportGenerator.

(** *** [class InventoryReportGenerator] *)
Module InventoryReportGenerator.

Definition _calculate_totals (items : pyval) : result pyval :=
  let? its := iter items in
  sum (fun item => getitem item "quantity") its.

Fixpoint group_loop (categories : vdict (list pyval)) (items : list pyval)
    : result (vdict (list pyval)) :=
  match items with
  | [] => inr categories
  | item :: rest =>
      let? cat := getitem item "category" in
      if hashable cat then
        let categories :=
          match vdict_get categories cat with
          | None => vdict_set categories cat []
          | Some _ => categories
          end in
        let members := default [] (vdict_get categories cat) in
        group_loop (vdict_set categories cat (members ++ [item])) rest
      else inl (unhashable cat)
  end.

Definition _group_by_category (items : pyval)
    : result (vdict (list pyval)) :=
  let? its := iter items in
  group_loop [] its.

(** One turn of the loop that lists the inventory. *)
Definition item_line `{Runtime} (item : pyval) : result string :=
  let? name := getitem item "name" in
  let? category := getitem item "category" in
  let? quantity := getitem item "quantity" in
  inr ("  • " +:+ str name +:+ " (" +:+ str category +:+ "): "
       +:+ str quantity +:+ " unidades" +:+ nl).

Fixpoint item_loop `{Runtime} (content : string) (items : list pyval)
    : result string :=
  match items with
  | [] => inr content
  | item :: rest =>
      let? line := item_line item in
      item_loop (content +:+ line) rest
  end.

Definition generate_report `{Runtime} (data : pyval) : M Report.t :=
  t <- now ;;
  let timestamp := strftime "%Y-%m-%d %H:%M:%S" t in
  let content := banner "           REPORTE DE INVENTARIO" timestamp in
  items <- lift (getitem data "items") ;;
  total_items <- lift (_calculate_totals items) ;;
  items <- lift (getitem data "items") ;;
  categories <- lift (_group_by_category items) ;;
  let content := content +:+ "Total de productos: " +:+ str total_items +:+ nl in
  let content :=
    content +:+ "Categorías: " +:+ dec (Z.of_nat (length categories))
    +:+ nl +:+ nl in
  let content := content +:+ "Inventario actual:" +:+ nl in
  let content := content +:+ str_repeat "-" 60 +:+ nl in
  items <- lift (getitem data "items") ;;
  its <- lift (iter items) ;;
  content <- lift (item_loop content its) ;;
  Report.init content "inventory" "raw" (Some [("total_items", total_items)]).

Definition new `{Runtime} : IReportGenerator.t :=
  IReportGenerator.mk true generate_report.

End InventoryReportGenerator.

(** *** [class FinancialReportGenerator] *)
Module FinancialReportGenerator.

Definition _calculate_balance (income expenses : pyval) : result pyval :=
  sub income expenses.

Definition generate_report (data : pyval) : M Report.t :=
  t <- now ;;
  let timestamp := strftime "%Y-%m-%d %H:%M:%S" t in
  let content := banner "           REPORTE FINANCIERO" timestamp in
  income <- lift (getitem data "income") ;;
  expenses <- lift (getitem data "expenses") ;;
  balance <- lift (_calculate_balance income expenses) ;;
  income <- lift (getitem data "income") ;;
  income_2f <- lift (format_2f income) ;;
  let content := content +:+ "Ingresos: $" +:+ income_2f +:+ nl in
  expenses <- lift (getitem data "expenses") ;;
  expenses_2f <- lift (format_2f expenses) ;;
  let content := content +:+ "Gastos: $" +:+ expenses_2f +:+ nl in
  balance_2f <- lift (format_2f balance) ;;
  let content := content +:+ "Balance: $" +:+ balance_2f +:+ nl in
  Report.init content "financial" "raw" (Some [("balance", balance)]).

Definition new : IReportGenerator.t :=
  IReportGenerator.mk true generate_report.

End FinancialReportGenerator.

(** *** Format strategies *)
Module PDFFormatter.

Definition format (content : string) : M string :=
  print "📄 Generando reporte en formato PDF..." ;;
  ret ("[PDF FORMAT]" +:+ nl +:+ content +:+ nl +:+ "[END PDF]").

Definition new : IFormatStrategy.t := IFormatStrategy.mk true format.

End PDFFormatter.

Module ExcelFormatter.

Definition format (content : string) : M string :=
  print "📊 Generando reporte en formato Excel..." ;;
  ret ("[EXCEL FORMAT]" +:+ nl +:+ content +:+ nl +:+ "[END EXCEL]").

Definition new : IFormatStrategy.t := IFormatStrategy.mk true format.

End ExcelFormatter.

Module HTMLFormatter.

Definition format (content : string) : M string :=
  print "🌐 Generando reporte en formato HTML..." ;;
  ret ("<html><body><pre>" +:+ content +:+ "</pre></body></html>").

Definition new : IFormatStrategy.t := IFormatStrategy.mk true format.

End HTMLFormatter.

(** *** Delivery strategies *)
Module EmailDelivery.

Record t : Type := mk { smtp_config : dict }.

(** [smtp_config or {'recipient': 'admin@company.com'}] *)
Definition init (smtp_config : option dict) : t :=
  mk (match smtp_config with
      | Some d => if truthy (VDict d) then d
                  else [("recipient", VStr "admin@company.com")]
      | None => [("recipient", VStr "admin@company.com")]
      end).

Definition deliver `{Runtime} (self : t) (report : string) (metadata : dict)
    : M bool :=
  print "📧 Enviando reporte por email..." ;;
  recipient <- lift (getitem (VDict (smtp_config self)) "recipient") ;;
  print ("   Destinatario: " +:+ str recipient) ;;
  ret true.

Definition new `{Runtime} (smtp_config : option dict) : IDeliveryStrategy.t :=
  IDeliveryStrategy.mk true (deliver (init smtp_config)).

End EmailDelivery.

Module DownloadDelivery.

Record t : Type := mk { download_path : string }.

Definition init (download_path : string) : t := mk download_path.

Definition deliver `{Runtime} (self : t) (report : string) (metadata : dict)
    : M bool :=
  type <- lift (getitem (VDict metadata) "type") ;;
  t <- now ;;
  format <- lift (getitem (VDict metadata) "format") ;;
  let filename :=
    "report_" +:+ str type +:+ "_" +:+ strftime "%Y%m%d_%H%M%S" t
    +:+ "." +:+ str format in
  print ("💾 Reporte disponible para descarga: " +:+ filename) ;;
  print ("   Ubicación: " +:+ download_path self +:+ "/" +:+ filename) ;;
  ret true.

Definition new `{Runtime} : IDeliveryStrategy.t :=
  IDeliveryStrategy.mk true (deliver (init "./reports")).

End DownloadDelivery.

Module CloudDelivery.

Record t : Type := mk { cloud_config : dict }.

(** [cloud_config or {'base_url': 'https://cloud.company.com'}] *)
Definition init (cloud_config : option dict) : t :=
  mk (match cloud_config with
      | Some d => if truthy (VDict d) then d
                  else [("base_url", VStr "https://cloud.company.com")]
      | None => [("base_url", VStr "https://cloud.company.com")]
      end).

Definition deliver `{Runtime} (self : t) (report : string) (metadata : dict)
    : M bool :=
  print "☁️  Subiendo reporte a la nube..." ;;
  base_url <- lift (getitem (VDict (cloud_config self)) "base_url") ;;
  type <- lift (getitem (VDict metadata) "type") ;;
  print ("   URL: " +:+ str base_url +:+ "/reports/" +:+ str type) ;;
  ret true.

Definition new `{Runtime} (cloud_config : option dict) : IDeliveryStrategy.t :=
  IDeliveryStrategy.mk true (deliver (init cloud_config)).

End CloudDelivery.

(** *** [class ReportFactory] *)
Module ReportFactory.

Record t : Type := mk { _generators : gmap string IReportGenerator.t }.

Definition init `{Runtime} : t :=
  mk (<["financial" := FinancialReportGenerator.new]>
      (<["inventory" := InventoryReportGenerator.new]>
       (<["sales" := SalesReportGenerator.new]> ∅))).

(** [self._generators.get(report_type)] followed by [if not generator]:
    an absent tag and a falsy generator are rejected alike. *)
Definition create_generator (self : t) (report_type : string)
    : result IReportGenerator.t :=
  match _generators self !! report_type with
  | None => inl (ValueError ("Tipo de reporte no soportado: " +:+ report_type))
  | Some generator =>
      if negb (IReportGenerator.__bool__ generator) then
        inl (ValueError ("Tipo de reporte no soportado: " +:+ report_type))
      else inr generator
  end.

Definition register_generator (self : t) (report_type : string)
    (generator : IReportGenerator.t) : t :=
  mk (<[report_type := generator]> (_generators self)).

End ReportFactory.

(** *** [class ReportBuilder] *)
Module ReportBuilder.

Record t : Type := mk {
  _generator : option IReportGenerator.t;
  _formatter : option IFormatStrategy.t;
  _delivery : option IDeliveryStrategy.t;
  _data : option pyval
}.

Definition init : t := mk None None None None.

Definition set_generator (self : t) (generator : IReportGenerator.t) : t :=
  mk (Some generator) (_formatter self) (_delivery self) (_data self).

Definition set_formatter (self : t) (formatter : IFormatStrategy.t) : t :=
  mk (_generator self) (Some formatter) (_delivery self) (_data self).

Definition set_delivery (self : t) (delivery : IDeliveryStrategy.t) : t :=
  mk (_generator self) (_formatter self) (Some delivery) (_data self).

Definition set_data (self : t) (data : pyval) : t :=
  mk (_generator self) (_formatter self) (_delivery self) (Some data).

(** [all([self._generator, self._formatter, self._delivery, self._data])]:
    a component is falsy when it is [None], a strategy also when its
    class says so, the data also when it is an empty [dict] (or any other
    falsy value). *)
Definition all_components (self : t) : bool :=
  match _generator self with
  | Some generator => IReportGenerator.__bool__ generator
  | None => false
  end
  && match _formatter self with
     | Some formatter => IFormatStrategy.__bool__ formatter
     | None => false
     end
  && match _delivery self with
     | Some delivery => IDeliveryStrategy.__bool__ delivery
     | None => false
     end
  && match _data self with
     | Some data => truthy data
     | None => false
     end.

Definition build (self : t) : M Report.t :=
  if negb (all_components self) then
    raise (ValueError "Faltan componentes para construir el reporte")
  else
    match _generator self, _formatter self, _delivery self, _data self with
    | Some generator, Some formatter, Some delivery, Some data =>
        report <- IReportGenerator.generate_report generator data ;;
        formatted_content <-
          IFormatStrategy.format formatter (Report.get_content report) ;;
        IDeliveryStrategy.deliver delivery formatted_content
          (Report.get_metadata report) ;;
        let report := Report.set_content report formatted_content in
        print (nl +:+ "✅ Reporte generado exitosamente" +:+ nl) ;;
        print formatted_content ;;
        print (nl +:+ str_repeat "=" 60 +:+ nl) ;;
        ret report
    | _, _, _, _ => raise AssertionError
    end.

End ReportBuilder.

(** *** [class ReportSystem] *)
Module ReportSystem.

Record t : Type := mk {
  factory : ReportFactory.t;
  builder : ReportBuilder.t;
  report_history : list dict;
  _format_strategies : gmap string IFormatStrategy.t;
  _delivery_strategies : gmap string IDeliveryStrategy.t
}.

Definition init `{Runtime} : t :=
  mk ReportFactory.init ReportBuilder.init []
     (<["html" := HTMLFormatter.new]>
      (<["excel" := ExcelFormatter.new]>
       (<["pdf" := PDFFormatter.new]> ∅)))
     (<["cloud" := CloudDelivery.new None]>
      (<["download" := DownloadDelivery.new]>
       (<["email" := EmailDelivery.new None]> ∅))).

(** What passes the test [if not x] on the result of a [dict.get]:
    neither [None] nor a falsy object. *)
Definition usable {A : Type} (truth : A -> bool) (x : option A) : option A :=
  match x with
  | Some a => if truth a then Some a else None
  | None => None
  end.

Definition with_builder (self : t) (b : ReportBuilder.t) : t :=
  mk (factory self) b (report_history self)
     (_format_strategies self) (_delivery_strategies self).

Definition _log_report (self : t) (report : Report.t) : t :=
  mk (factory self) (builder self)
     (report_history self ++
        [[("type", VStr (Report.type report));
          ("format", VStr (Report.format report));
          ("timestamp",
            VStr (strftime "%Y-%m-%d %H:%M:%S" (Report.timestamp report)));
          ("metadata", VDict (Report.metadata report))]])
     (_format_strategies self) (_delivery_strategies self).

(** The result, the system afterwards, the world afterwards.  A raised
    exception leaves the changes made so far in place. *)
Definition generate_report (self : t) (report_type : string) (data : pyval)
    (output_format delivery_method : string) (w : World)
    : result Report.t * t * World :=
  match ReportFactory.create_generator (factory self) report_type with
  | inl e => (inl e, self, w)
  | inr generator =>
      let formatter := _format_strategies self !! output_format in
      let delivery := _delivery_strategies self !! delivery_method in
      match usable IFormatStrategy.__bool__ formatter with
      | None =>
          (inl (ValueError ("Formato no soportado: " +:+ output_format)), self, w)
      | Some formatter =>
          match usable IDeliveryStrategy.__bool__ delivery with
          | None =>
              (inl (ValueError ("Método de entrega no soportado: "
                                +:+ delivery_method)), self, w)
          | Some delivery =>
              let b :=
                ReportBuilder.set_data
                  (ReportBuilder.set_delivery
                     (ReportBuilder.set_formatter
                        (ReportBuilder.set_generator (builder self) generator)
                        formatter)
                     delivery)
                  data in
              let self := with_builder self b in
              match ReportBuilder.build b w with
              | (inl e, w') => (inl e, self, w')
              | (inr report, w') => (inr report, _log_report self report, w')
              end
          end
      end
  end.

Definition get_report_history (self : t) : list dict := report_history self.

End ReportSystem.

End Reports.

(** ** [Solucion/tienda_online/tienda_online.py] *)
Module Shop.
Import Py.

(** *** [class Customer]

    A contact field is [None] when the customer has none. *)
Module Customer.

Record t : Type := mk {
  name : string;
  email : option string;
  phone : option string;
  device_id : option string;
  notification_preferences : list string
}.

(** [preferences or ['email']] *)
Definition init (name : string) (email phone device_id : option string)
    (preferences : option (list string)) : t :=
  mk name email phone device_id
     (match preferences with
      | Some (c :: cs) => c :: cs
      | _ => ["email"]
      end).

(** [contact_map.get(channel)] *)
Definition get_contact_info (self : t) (channel : string) : option string :=
  if String.eqb channel "email" then email self
  else if String.eqb channel "sms" then phone self
  else if String.eqb channel "push" then device_id self
  else None.

Definition prefers_channel (self : t) (channel : string) : bool :=
  existsb (String.eqb channel) (notification_preferences self).

End Customer.

(** *** [class Order] *)
Module Order.

Record t : Type := mk {
  order_id : string;
  customer : Customer.t;
  total : float;
  items : list pyval;
  timestamp : datetime
}.

(** [items or []] *)
Definition init (order_id : string) (customer : Customer.t) (total : float)
    (items : option (list pyval)) : M t :=
  timestamp <- now ;;
  ret (mk order_id customer total (default [] items) timestamp).

Definition get_order_id (self : t) : string := order_id self.
Definition get_total (self : t) : float := total self.
Definition get_customer (self : t) : Customer.t := customer self.

End Order.

(** *** [class Notification]

    [error] exists only once [mark_as_failed] has set it. *)
Module Notification.

Record t : Type := mk {
  notification_id : string;
  type : string;
  recipient : string;
  message : string;
  order_id : string;
  timestamp : datetime;
  status : string;
  error : option string
}.

Definition init (notification_type recipient message order_id : string)
    : M t :=
  t1 <- now ;;
  let notification_id := "NOTIF-" +:+ strftime "%Y%m%d%H%M%S" t1 in
  timestamp <- now ;;
  ret (mk notification_id notification_type recipient message order_id
          timestamp "pending" None).

Definition mark_as_sent (self : t) : t :=
  mk (notification_id self) (type self) (recipient self) (message self)
     (order_id self) (timestamp self) "sent" (error self).

Definition mark_as_failed (self : t) (err : string) : t :=
  mk (notification_id self) (type self) (recipient self) (message self)
     (order_id self) (timestamp self) "failed" (Some err).

End Notification.

(** *** [class INotificationStrategy]

    [send] mutates the notification it is given: it returns its answer and
    the notification afterwards.  The record also holds the truth value of
    the instance, [True] for the classes of the program. *)
Module INotificationStrategy.
Record t : Type := mk {
  __bool__ : bool;
  send : Notification.t -> M (bool * Notification.t)
}.
End INotificationStrategy.

(** *** [class EmailNotifier] *)
Module EmailNotifier.

Definition _format_html_email (message : string) : string :=
  "<html><body><p>" +:+ message +:+ "</p></body></html>".

Definition send `{Runtime} (notification : Notification.t)
    : M (bool * Notification.t) :=
  try_except
    (let html_email := _format_html_email (Notification.message notification) in
     print ("📧 EMAIL enviado a " +:+ Notification.recipient notification) ;;
     print ("   Asunto: Confirmación de Pedido #"
            +:+ Notification.order_id notification) ;;
     print ("   Mensaje: " +:+ Notification.message notification +:+ nl) ;;
     ret (true, Notification.mark_as_sent notification))
    (fun e => ret (false, Notification.mark_as_failed notification (exn_str e))).

Definition new `{Runtime} : INotificationStrategy.t :=
  INotificationStrategy.mk true send.

End EmailNotifier.

(** *** [class SMSNotifier] *)
Module SMSNotifier.

(** [bool(phone and len(phone) > 10)] *)
Definition _validate_phone (phone : string) : bool :=
  truthy (VStr phone) && (10 <? Z.of_nat (str_len phone)).

(** [message[:160]] *)
Definition _format_sms (message : string) : string := str_take 160 message.

Definition send `{Runtime} (notification : Notification.t)
    : M (bool * Notification.t) :=
  try_except
    (if negb (_validate_phone (Notification.recipient notification)) then
       raise (ValueError "Número de teléfono inválido")
     else
       let formatted_sms := _format_sms (Notification.message notification) in
       print ("📱 SMS enviado a " +:+ Notification.recipient notification) ;;
       print ("   Mensaje: " +:+ formatted_sms +:+ nl) ;;
       ret (true, Notification.mark_as_sent notification))
    (fun e => ret (false, Notification.mark_as_failed notification (exn_str e))).

Definition new `{Runtime} : INotificationStrategy.t :=
  INotificationStrategy.mk true send.

End SMSNotifier.

(** *** [class PushNotifier] *)
Module PushNotifier.

(** [bool(device_id and device_id.startswith('DEVICE-'))] *)
Definition _validate_device (device_id : string) : bool :=
  truthy (VStr device_id) && startswith device_id "DEVICE-".

Definition _format_push (message : string) : dict :=
  [("notification",
    VDict [("title", VStr "Pedido Confirmado");
           ("body", VStr message);
           ("sound", VStr "default")])].

Definition send `{Runtime} (notification : Notification.t)
    : M (bool * Notification.t) :=
  try_except
    (if negb (_validate_device (Notification.recipient notification)) then
       raise (ValueError "Device ID inválido")
     else
       let push_payload := _format_push (Notification.message notification) in
       print ("🔔 PUSH enviada al dispositivo "
              +:+ Notification.recipient notification) ;;
       print ("   Mensaje: " +:+ Notification.message notification +:+ nl) ;;
       ret (true, Notification.mark_as_sent notification))
    (fun e => ret (false, Notification.mark_as_failed notification (exn_str e))).

Definition new `{Runtime} : INotificationStrategy.t :=
  INotificationStrategy.mk true send.

End PushNotifier.

(** *** [class NotificationFactory] *)
Module NotificationFactory.

Record t : Type := mk { _notifiers : gmap string INotificationStrategy.t }.

Definition init `{Runtime} : t :=
  mk (<["push" := PushNotifier.new]>
      (<["sms" := SMSNotifier.new]>
       (<["email" := EmailNotifier.new]> ∅))).

Definition create_notifier (self : t) (notification_type : string)
    : result INotificationStrategy.t :=
  match _notifiers self !! notification_type with
  | None =>
      inl (ValueError ("Tipo de notificación no soportado: "
                       +:+ notification_type))
  | Some notifier =>
      if negb (INotificationStrategy.__bool__ notifier) then
        inl (ValueError ("Tipo de notificación no soportado: "
                         +:+ notification_type))
      else inr notifier
  end.

Definition register_notifier (self : t) (notification_type : string)
    (notifier : INotificationStrategy.t) : t :=
  mk (<[notification_type := notifier]> (_notifiers self)).

End NotificationFactory.

(** *** [class MessageBuilder] *)
Module MessageBuilder.

Record t : Type := mk {
  _order : option Order.t;
  _customer : option Customer.t;
  _channel : option string
}.

Definition init : t := mk None None None.

Definition set_order (self : t) (order : Order.t) : t :=
  mk (Some order) (_customer self) (_channel self).

Definition set_customer (self : t) (customer : Customer.t) : t :=
  mk (_order self) (Some customer) (_channel self).

Definition set_channel (self : t) (channel : string) : t :=
  mk (_order self) (_customer self) (Some channel).

(** [all([self._order, self._customer, self._channel])]: an order and a
    customer are falsy only when [None], a channel also when empty. *)
Definition all_components (self : t) : bool :=
  not_none (_order self)
  && not_none (_customer self)
  && match _channel self with
     | Some channel => truthy (VStr channel)
     | None => false
     end.

(** [templates.get(self._channel, "Pedido confirmado")] *)
Definition _apply_template (self : t) : result string :=
  match _customer self, _order self, _channel self with
  | Some customer, Some order, Some channel =>
      let total_2f := float_format_2f (Order.total order) in
      let email :=
        "Estimado " +:+ Customer.name customer +:+ ", su pedido "
        +:+ "#" +:+ Order.order_id order +:+ " por $" +:+ total_2f +:+ " "
        +:+ "ha sido confirmado. Gracias por su compra." in
      let sms :=
        "Pedido #" +:+ Order.order_id order +:+ " confirmado. "
        +:+ "Total: $" +:+ total_2f +:+ ". Gracias!" in
      let push :=
        "¡Pedido confirmado! #" +:+ Order.order_id order +:+ " - "
        +:+ "$" +:+ total_2f in
      inr (if String.eqb channel "email" then email
           else if String.eqb channel "sms" then sms
           else if String.eqb channel "push" then push
           else "Pedido confirmado")
  | _, _, _ => inl AssertionError
  end.

Definition _personalize (self : t) (message : string) : string := message.

Definition build (self : t) : result string :=
  if negb (all_components self) then
    inl (ValueError "Faltan datos para construir el mensaje")
  else
    let? message := _apply_template self in
    inr (_personalize self message).

End MessageBuilder.

(** *** [class NotificationRepository] *)
Module NotificationRepository.

Record t : Type := mk { _storage : list Notification.t }.

Definition init : t := mk [].

Definition save (self : t) (notification : Notification.t) : t :=
  mk (_storage self ++ [notification]).

Definition find_by_order (self : t) (order_id : string) : list Notification.t :=
  filter (fun n => String.eqb (Notification.order_id n) order_id = true)
         (_storage self).

(** [[n for n in self._storage if customer_email in n.recipient]] *)
Definition find_by_customer (self : t) (customer_email : string)
    : list Notification.t :=
  filter (fun n => str_contains customer_email (Notification.recipient n) = true)
         (_storage self).

End NotificationRepository.

(** *** [class NotificationManager] *)
Module NotificationManager.

Record t : Type := mk {
  factory : NotificationFactory.t;
  message_builder : MessageBuilder.t;
  repository : NotificationRepository.t
}.

Definition init `{Runtime} : t :=
  mk NotificationFactory.init MessageBuilder.init NotificationRepository.init.

Definition with_message_builder (self : t) (b : MessageBuilder.t) : t :=
  mk (factory self) b (repository self).

Definition with_repository (self : t) (r : NotificationRepository.t) : t :=
  mk (factory self) (message_builder self) r.

(** The result, the manager afterwards, the world afterwards. *)
Definition _create_notification (self : t) (order : Order.t)
    (channel : string) (w : World) : result Notification.t * t * World :=
  let b :=
    MessageBuilder.set_channel
      (MessageBuilder.set_customer
         (MessageBuilder.set_order (message_builder self) order)
         (Order.customer order))
      channel in
  let self := with_message_builder self b in
  match MessageBuilder.build b with
  | inl e => (inl e, self, w)
  | inr message =>
      match Customer.get_contact_info (Order.customer order) channel with
      | None =>
          (inl (ValueError ("No se encontró información de contacto para el canal "
                            +:+ channel)), self, w)
      | Some recipient =>
          match Notification.init channel recipient message
                  (Order.order_id order) w with
          | (r, w') => (r, self, w')
          end
      end
  end.

(** The body of the [try] inside the loop of [send_notifications]. *)
Definition attempt (self : t) (order : Order.t) (channel : string)
    (w : World) : result unit * t * World :=
  match _create_notification self order channel w with
  | (inl e, self, w) => (inl e, self, w)
  | (inr notification, self, w) =>
      match NotificationFactory.create_notifier (factory self) channel with
      | inl e => (inl e, self, w)
      | inr notifier =>
          match INotificationStrategy.send notifier notification w with
          | (inl e, w) => (inl e, self, w)
          | (inr (success, notification), w) =>
              let self :=
                with_repository self
                  (NotificationRepository.save (repository self) notification) in
              if negb success then
                match print ("⚠️  Falló el envío por " +:+ channel) w with
                | (r, w) => (r, self, w)
                end
              else (inr tt, self, w)
          end
      end
  end.

(** One turn of the loop: the [try] with its [except Exception]. *)
Definition notify `{Runtime} (self : t) (order : Order.t) (channel : string)
    (w : World) : t * World :=
  match attempt self order channel w with
  | (inr _, self, w) => (self, w)
  | (inl e, self, w) =>
      match print ("❌ Error al enviar por " +:+ channel +:+ ": "
                   +:+ exn_str e +:+ nl) w with
      | (_, w) => (self, w)
      end
  end.

Fixpoint notify_all `{Runtime} (self : t) (order : Order.t)
    (channels : list string) (w : World) : t * World :=
  match channels with
  | [] => (self, w)
  | channel :: rest =>
      match notify self order channel w with
      | (self, w) => notify_all self order rest w
      end
  end.

Definition header (order : Order.t) : M unit :=
  print (nl +:+ str_repeat "=" 50) ;;
  print ("Procesando pedido #" +:+ Order.order_id order) ;;
  print ("Cliente: " +:+ Customer.name (Order.customer order)) ;;
  print ("Total: $" +:+ float_format_2f (Order.total order)) ;;
  print (str_repeat "=" 50 +:+ nl).

Definition send_notifications `{Runtime} (self : t) (order : Order.t)
    (channels : list string) (w : World) : t * World :=
  match header order w with
  | (_, w) => notify_all self order channels w
  end.

End NotificationManager.

End Shop.

(** ** [Originales/gestor_documentos.py]

    The script the report generator was refactored from: one method builds
    the content, wraps it, announces the delivery and logs the request. *)
Module Original.
Import Py.

Module ReportSystem.

Record t : Type := mk { reports_generated : list dict }.

Definition init : t := mk [].

(** The four lines every branch starts the content with. *)
Definition heading (report_content title timestamp : string) : string :=
  let report_content := report_content +:+ (str_repeat "=" 60 +:+ nl) in
  let report_content := report_content +:+ (title +:+ nl) in
  let report_content := report_content +:+ (str_repeat "=" 60 +:+ nl) in
  report_content +:+ ("Fecha de generación: " +:+ timestamp +:+ nl +:+ nl).

(** [for sale in data['sales']] *)
Fixpoint sales_loop `{Runtime} (report_content : string) (sales : list pyval)
    : result string :=
  match sales with
  | [] => inr report_content
  | sale :: rest =>
      let? product := getitem sale "product" in
      let? amount := getitem sale "amount" in
      let? amount_2f := format_2f amount in
      sales_loop
        (report_content
         +:+ ("  • Producto: " +:+ str product +:+ " - $" +:+ amount_2f +:+ nl))
        rest
  end.

(** The branch [report_type == 'sales']. *)
Definition sales_branch `{Runtime} (report_content timestamp : string)
    (data : pyval) : result string :=
  let report_content :=
    heading report_content "           REPORTE DE VENTAS" timestamp in
  let? sales := getitem data "sales" in
  let? items := iter sales in
  let? total_sales := sum (fun item => getitem item "amount") items in
  let? total_2f := format_2f total_sales in
  let report_content :=
    report_content +:+ ("Total de ventas: $" +:+ total_2f +:+ nl) in
  let? sales := getitem data "sales" in
  let? n := len sales in
  let report_content :=
    report_content +:+ ("Número de transacciones: " +:+ dec n +:+ nl) in
  let? period := getitem data "period" in
  let report_content :=
    report_content +:+ ("Periodo: " +:+ str period +:+ nl +:+ nl) in
  let report_content := report_content +:+ ("Detalle de ventas:" +:+ nl) in
  let report_content := report_content +:+ (str_repeat "-" 60 +:+ nl) in
  let? sales := getitem data "sales" in
  let? items := iter sales in
  sales_loop report_content items.

(** [set(item['category'] for item in items)]: the elements seen so far,
    a new one added when it equals none of them. *)
Fixpoint category_set (seen : vdict unit) (items : list pyval)
    : result (vdict unit) :=
  match items with
  | [] => inr seen
  | item :: rest =>
      let? cat := getitem item "category" in
      if hashable cat then category_set (vdict_set seen cat tt) rest
      else inl (unhashable cat)
  end.

(** [for item in data['items']] *)
Fixpoint items_loop `{Runtime} (report_content : string) (items : list pyval)
    : result string :=
  match items with
  | [] => inr report_content
  | item :: rest =>
      let? name := getitem item "name" in
      let? category := getitem item "category" in
      let? quantity := getitem item "quantity" in
      items_loop
        (report_content
         +:+ ("  • " +:+ str name +:+ " (" +:+ str category +:+ "): "
              +:+ str quantity +:+ " unidades" +:+ nl))
        rest
  end.

(** The branch [report_type == 'inventory']. *)
Definition inventory_branch `{Runtime} (report_content timestamp : string)
    (data : pyval) : result string :=
  let report_content :=
    heading report_content "           REPORTE DE INVENTARIO" timestamp in
  let? items := getitem data "items" in
  let? its := iter items in
  let? total_items := sum (fun item => getitem item "quantity") its in
  let report_content :=
    report_content +:+ ("Total de productos: " +:+ str total_items +:+ nl) in
  let? items := getitem data "items" in
  let? its := iter items in
  let? categories := category_set [] its in
  let report_content :=
    report_content
    +:+ ("Categorías: " +:+ dec (Z.of_nat (length categories)) +:+ nl +:+ nl) in
  let report_content := report_content +:+ ("Inventario actual:" +:+ nl) in
  let report_content := report_content +:+ (str_repeat "-" 60 +:+ nl) in
  let? items := getitem data "items" in
  let? its := iter items in
  items_loop report_content its.

(** The branch [report_type == 'financial']. *)
Definition financial_branch (report_content timestamp : string)
    (data : pyval) : result string :=
  let report_content :=
    heading report_content "           REPORTE FINANCIERO" timestamp in
  let? income := getitem data "income" in
  let? income_2f := format_2f income in
  let report_content :=
    report_content +:+ ("Ingresos: $" +:+ income_2f +:+ nl) in
  let? expenses := getitem data "expenses" in
  let? expenses_2f := format_2f expenses in
  let report_content :=
    report_content +:+ ("Gastos: $" +:+ expenses_2f +:+ nl) in
  let? income := getitem data "income" in
  let? expenses := getitem data "expenses" in
  let? balance := sub income expenses in
  let? balance_2f := format_2f balance in
  inr (report_content +:+ ("Balance: $" +:+ balance_2f +:+ nl)).

(** The first [if]/[elif] chain: a type that is none of the three leaves
    the content empty. *)
Definition content `{Runtime} (report_type timestamp : string) (data : pyval)
    : result string :=
  let report_content := "" in
  if String.eqb report_type "sales" then
    sales_branch report_content timestamp data
  else if String.eqb report_type "inventory" then
    inventory_branch report_content timestamp data
  else if String.eqb report_type "financial" then
    financial_branch report_content timestamp data
  else inr report_content.

(** The second chain: a format that is none of the three gives the empty
    text. *)
Definition wrap (output_format report_content : string) : M string :=
  if String.eqb output_format "pdf" then
    print "📄 Generando reporte en formato PDF..." ;;
    ret ("[PDF FORMAT]" +:+ nl +:+ report_content +:+ nl +:+ "[END PDF]")
  else if String.eqb output_format "excel" then
    print "📊 Generando reporte en formato Excel..." ;;
    ret ("[EXCEL FORMAT]" +:+ nl +:+ report_content +:+ nl +:+ "[END EXCEL]")
  else if String.eqb output_format "html" then
    print "🌐 Generando reporte en formato HTML..." ;;
    ret ("<html><body><pre>" +:+ report_content +:+ "</pre></body></html>")
  else ret "".

(** The third chain. *)
Definition announce (report_type output_format delivery_method : string)
    : M unit :=
  if String.eqb delivery_method "email" then
    print "📧 Enviando reporte por email..." ;;
    print "   Destinatario: admin@company.com"
  else if String.eqb delivery_method "download" then
    t <- now ;;
    let filename :=
      "report_" +:+ report_type +:+ "_" +:+ strftime "%Y%m%d_%H%M%S" t
      +:+ "." +:+ output_format in
    print ("💾 Reporte disponible para descarga: " +:+ filename)
  else if String.eqb delivery_method "cloud" then
    print "☁️  Subiendo reporte a la nube..." ;;
    print ("   URL: https://cloud.company.com/reports/" +:+ report_type)
  else ret tt.

(** The method up to the point where it logs the request. *)
Definition prepare `{Runtime} (report_type : string) (data : pyval)
    (output_format delivery_method : string) : M (string * string) :=
  t <- now ;;
  let timestamp := strftime "%Y-%m-%d %H:%M:%S" t in
  report_content <- lift (content report_type timestamp data) ;;
  formatted_report <- wrap output_format report_content ;;
  announce report_type output_format delivery_method ;;
  ret (timestamp, formatted_report).

(** The result, the system afterwards, the world afterwards. *)
Definition generate_report `{Runtime} (self : t) (report_type : string)
    (data : pyval) (output_format delivery_method : string) (w : World)
    : result string * t * World :=
  match prepare report_type data output_format delivery_method w with
  | (inl e, w') => (inl e, self, w')
  | (inr (timestamp, formatted_report), w') =>
      let self :=
        mk (reports_generated self ++
              [[("type", VStr report_type);
                ("format", VStr output_format);
                ("delivery", VStr delivery_method);
                ("timestamp", VStr timestamp)]]) in
      match (print (nl +:+ "✅ Reporte generado exitosamente" +:+ nl) ;;
             print formatted_report ;;
             print (nl +:+ str_repeat "=" 60 +:+ nl)) w' with
      | (_, w'') => (inr formatted_report, self, w'')
      end
  end.

Definition get_report_history (self : t) : list dict := reports_generated self.

End ReportSystem.

End Original.

(** ** Properties *)
Import Py Reports Shop.

(** *** Worlds, error classes and the data of the examples *)

(** The world after more [print] calls, and after one more reading of the
    clock. *)
Definition printed (w : World) (lines : list string) : World :=
  mk_World (time_at w) (reads w) (stdout w ++ lines).

Definition ticked (w : World) : World :=
  mk_World (time_at w) (S (reads w)) (stdout w).

Definition missing_components : exn :=
  ValueError "Faltan componentes para construir el reporte".

Definition missing_message_data : exn :=
  ValueError "Faltan datos para construir el mensaje".

(** The program rejects an input on purpose with a [ValueError] and with
    nothing else; every other exception comes out of a built-in or an
    [assert]. *)
Definition is_validation_error (e : exn) : bool :=
  match e with
  | ValueError _ => true
  | _ => false
  end.

(** The errors [create_generator], [generate_report] and [create_notifier]
    raise for a tag that is not registered. *)
Definition is_unknown_tag_error (e : exn) : bool :=
  match e with
  | ValueError msg =>
      String.prefix "Tipo de reporte no soportado: " msg
      || String.prefix "Formato no soportado: " msg
      || String.prefix "Método de entrega no soportado: " msg
      || String.prefix "Tipo de notificación no soportado: " msg
  | _ => false
  end.

(** Whether the three tags of a request resolve: each is registered, and
    what is registered is truthy. *)
Definition resolves (sys : ReportSystem.t)
    (report_type output_format delivery_method : string) : bool :=
  match ReportFactory.create_generator (ReportSystem.factory sys) report_type with
  | inr _ => true
  | inl _ => false
  end
  && not_none (ReportSystem.usable IFormatStrategy.__bool__
                 (ReportSystem._format_strategies sys !! output_format))
  && not_none (ReportSystem.usable IDeliveryStrategy.__bool__
                 (ReportSystem._delivery_strategies sys !! delivery_method)).

(** The channels [Customer.get_contact_info] knows. *)
Definition default_channel (channel : string) : bool :=
  String.eqb channel "email" || String.eqb channel "sms"
  || String.eqb channel "push".

(** A run time for the closed examples, none of which renders a float or a
    container: it quotes a string and names the type of anything else. *)
Definition quoting_runtime : Runtime :=
  fun v =>
    match v with
    | VStr s => "'" +:+ s +:+ "'"
    | _ => "<" +:+ type_name v +:+ ">"
    end.

Definition clock0 (n : nat) : datetime :=
  mk_datetime 2024 1 15 10 30 (Z.of_nat n).

Definition world0 : World := mk_World clock0 0 [].

(** [order1] of the script's [__main__], with a phone of ten characters. *)
Definition ana : Customer.t :=
  Customer.init "Ana García" (Some "ana.garcia@email.com")
    (Some "6001234567") (Some "DEVICE-ABC-123") None.

Definition order1 : Order.t :=
  Order.mk "ORD-001" ana 150.50 [] (clock0 0).

(** A generator and a notifier whose classes answer [False] to [bool]. *)
Definition falsy_generator : IReportGenerator.t :=
  IReportGenerator.mk false FinancialReportGenerator.generate_report.

Definition falsy_notifier : INotificationStrategy.t :=
  INotificationStrategy.mk false (EmailNotifier.send (H := quoting_runtime)).

(** The notification [_create_notification] makes in the world [w]. *)
Definition pending (channel recipient message order_id : string) (w : World)
    : Notification.t :=
  Notification.mk
    ("NOTIF-" +:+ strftime "%Y%m%d%H%M%S" (time_at w (reads w)))
    channel recipient message order_id (time_at w (S (reads w)))
    "pending" None.

(** The message builder once [_create_notification] has called its three
    setters. *)
Definition builder_for (order : Order.t) (channel : string) : MessageBuilder.t :=
  MessageBuilder.mk (Some order) (Some (Order.customer order)) (Some channel).

(** A sale as [SalesReportGenerator] reads it: a product and a [float]
    amount, whatever else the item holds. *)
Definition is_sale (sale product : pyval) (amount : float) : Prop :=
  getitem sale "product" = inr product
  /\ getitem sale "amount" = inr (VFloat amount).

(** The sum of the amounts, added from left to right as [sum] does. *)
Definition float_sum (amounts : list float) : float :=
  fold_left PrimFloat.add amounts 0%float.

Definition sale_line `{Runtime} (row : pyval * float) : string :=
  "  • Producto: " +:+ str (fst row) +:+ " - $"
  +:+ float_format_2f (snd row) +:+ nl.

Fixpoint sale_lines `{Runtime} (rows : list (pyval * float)) : string :=
  match rows with
  | [] => ""
  | row :: rest => sale_line row +:+ sale_lines rest
  end.

(** The text of a sales report over the rows (product, amount). *)
Definition sales_content `{Runtime} (timestamp : string)
    (rows : list (pyval * float)) (period : pyval) : string :=
  banner "           REPORTE DE VENTAS" timestamp
  +:+ "Total de ventas: $" +:+ float_format_2f (float_sum (map snd rows)) +:+ nl
  +:+ "Número de transacciones: " +:+ dec (Z.of_nat (length rows)) +:+ nl
  +:+ "Periodo: " +:+ str period +:+ nl +:+ nl
  +:+ "Detalle de ventas:" +:+ nl
  +:+ str_repeat "-" 60 +:+ nl
  +:+ sale_lines rows.

(** An inventory item as [InventoryReportGenerator] reads it, against its
    row (name, category, quantity): the category a string, the quantity
    an [int]. *)
Definition is_item (item : pyval) (row : pyval * string * Z) : Prop :=
  getitem item "name" = inr (fst (fst row))
  /\ getitem item "category" = inr (VStr (snd (fst row)))
  /\ getitem item "quantity" = inr (VInt (snd row)).

Definition Z_sum (zs : list Z) : Z := foldr Z.add 0 zs.

(** The number of distinct strings of a list. *)
Definition distinct (cs : list string) : nat :=
  size (list_to_set cs : gset string).

Definition item_text `{Runtime} (row : pyval * string * Z) : string :=
  "  • " +:+ str (fst (fst row)) +:+ " (" +:+ snd (fst row) +:+ "): "
  +:+ dec (snd row) +:+ " unidades" +:+ nl.

Fixpoint item_lines `{Runtime} (rows : list (pyval * string * Z)) : string :=
  match rows with
  | [] => ""
  | row :: rest => item_text row +:+ item_lines rest
  end.

(** The text of an inventory report over the rows. *)
Definition inventory_content `{Runtime} (timestamp : string)
    (rows : list (pyval * string * Z)) : string :=
  banner "           REPORTE DE INVENTARIO" timestamp
  +:+ "Total de productos: " +:+ dec (Z_sum (map snd rows)) +:+ nl
  +:+ "Categorías: "
  +:+ dec (Z.of_nat (distinct (map (fun row => snd (fst row)) rows)))
  +:+ nl +:+ nl
  +:+ "Inventario actual:" +:+ nl
  +:+ str_repeat "-" 60 +:+ nl
  +:+ item_lines rows.

(** The keys of the dictionary of categories once [c] has been seen. *)
Definition add_key (ks : list string) (c : string) : list string :=
  if decide (c ∈ ks) then ks else ks ++ [c].

(** [sales_data] and [inventory_data] of the script's [__main__]. *)
Definition sale_rows : list (pyval * float) :=
  [(VStr "Laptop HP", 899.99%float);
   (VStr "Mouse Logitech", 25.50%float);
   (VStr "Teclado Mecánico", 120.00%float);
   (VStr ("Monitor LG 24" +:+ String (ascii_of_nat 34) EmptyString),
    199.99%float)].

Definition sale_item (row : pyval * float) : pyval :=
  VDict [("product", fst row); ("amount", VFloat (snd row))].

Definition sales_data : pyval :=
  VDict [("period", VStr "Enero 2024");
         ("sales", VList (map sale_item sale_rows))].

Definition inventory_rows : list (pyval * string * Z) :=
  [(VStr "Laptop HP", "Computadoras", 15);
   (VStr "Mouse Logitech", "Accesorios", 50);
   (VStr "Teclado Mecánico", "Accesorios", 30);
   (VStr "Monitor LG", "Pantallas", 20)].

Definition inventory_item (row : pyval * string * Z) : pyval :=
  VDict [("name", fst (fst row));
         ("category", VStr (snd (fst row)));
         ("quantity", VInt (snd row))].

Definition inventory_data : pyval :=
  VDict [("items", VList (map inventory_item inventory_rows))].

(** [financial_data] of the script's [__main__]. *)
Definition financial_data : pyval :=
  VDict [("income", VFloat 50000%float); ("expenses", VFloat 32000%float)].

(** The system once [generate_report] has handed its builder the three
    strategies and the data of a request. *)
Definition configured (sys : ReportSystem.t) (g : IReportGenerator.t)
    (f : IFormatStrategy.t) (d : IDeliveryStrategy.t) (data : pyval)
    : ReportSystem.t :=
  ReportSystem.with_builder sys
    (ReportBuilder.mk (Some g) (Some f) (Some d) (Some data)).

(** The entry [_log_report] appends for a report. *)
Definition history_entry (report : Report.t) : dict :=
  [("type", VStr (Report.type report));
   ("format", VStr (Report.format report));
   ("timestamp",
     VStr (strftime "%Y-%m-%d %H:%M:%S" (Report.timestamp report)));
   ("metadata", VDict (Report.metadata report))].

(** What [ReportBuilder.build] prints once the delivery has returned. *)
Definition success_lines (formatted : string) : list string :=
  [nl +:+ "✅ Reporte generado exitosamente" +:+ nl;
   formatted;
   nl +:+ str_repeat "=" 60 +:+ nl].

(** A delivery strategy that answers [False], one that raises, and a
    system that offers them under the tags [refuse] and [broken]. *)
Definition refusing_delivery : IDeliveryStrategy.t :=
  IDeliveryStrategy.mk true (fun _ _ => ret false).

Definition broken_delivery : IDeliveryStrategy.t :=
  EmailDelivery.new (H := quoting_runtime) (Some [("host", VStr "smtp.company.com")]).

Definition custom_system : ReportSystem.t :=
  ReportSystem.mk (ReportFactory.init (H := quoting_runtime)) ReportBuilder.init []
    (<["html" := HTMLFormatter.new]> ∅)
    (<["broken" := broken_delivery]> (<["refuse" := refusing_delivery]> ∅)).

(** What the built-in generators do to the world and to the report they
    return: nothing is printed, the clock is read once before the payload
    is looked at and once more by the constructor of the report, which
    carries the generator's tag as its type and [raw] as its format. *)
Definition generator_effects (tag : string) (g : IReportGenerator.t) : Prop :=
  forall (data : pyval) (w : World),
    match IReportGenerator.generate_report g data w with
    | (inr r, w') =>
        Report.type r = tag /\ Report.format r = "raw"
        /\ Report.timestamp r = time_at w (S (reads w))
        /\ w' = ticked (ticked w)
    | (inl _, w') => w' = ticked w
    end.

(** Runs one [lift] of a generator and closes the case in which it
    raises. *)
Ltac step_lift :=
  unfold bind at 1; unfold lift at 1; cbv beta iota;
  try match goal with
      | |- let (_, _) := match ?r with inl _ => _ | inr _ => _ end in _ =>
          destruct r; [by cbv beta iota|]
      end.

(** The text of a financial report over a [float] income and a [float]
    expenses. *)
Definition financial_content (timestamp : string) (income expenses : float)
    : string :=
  banner "           REPORTE FINANCIERO" timestamp
  +:+ "Ingresos: $" +:+ float_format_2f income +:+ nl
  +:+ "Gastos: $" +:+ float_format_2f expenses +:+ nl
  +:+ "Balance: $" +:+ float_format_2f (PrimFloat.sub income expenses) +:+ nl.

(** The file name [DownloadDelivery.deliver] makes up. *)
Definition download_name (type stamp format : string) : string :=
  "report_" +:+ type +:+ "_" +:+ stamp +:+ "." +:+ format.

(** The message of the [ValueError] a channel without contact information
    ends with: the builder rejects the empty channel, [_create_notification]
    any other. *)
Definition contact_error (channel : string) : string :=
  if String.eqb channel "" then "Faltan datos para construir el mensaje"
  else "No se encontró información de contacto para el canal " +:+ channel.

(** A customer without a phone, and an order of theirs. *)
Definition no_phone : Customer.t :=
  Customer.init "Ana García" (Some "ana.garcia@email.com") None
    (Some "DEVICE-ABC-123") None.

Definition order_no_phone : Order.t :=
  Order.mk "ORD-001" no_phone 150.50 [] (clock0 0).

(** Whether the built-in notifier of a channel accepts a recipient (a
    phone of more than ten characters, a device id that starts with
    DEVICE-, any e-mail address), and the error it records when it does
    not. *)
Definition accepts (channel recipient : string) : bool :=
  if String.eqb channel "sms" then Nat.ltb 10 (str_len recipient)
  else if String.eqb channel "push" then String.prefix "DEVICE-" recipient
  else true.

Definition rejection (channel : string) : string :=
  if String.eqb channel "sms" then "Número de teléfono inválido"
  else "Device ID inválido".

(** A notification a built-in notifier has dealt with: sent when the
    recipient is accepted, failed with the notifier's error otherwise. *)
Definition settled (n : Notification.t) : Prop :=
  if accepts (Notification.type n) (Notification.recipient n)
  then Notification.status n = "sent" /\ Notification.error n = None
  else Notification.status n = "failed"
       /\ Notification.error n = Some (rejection (Notification.type n)).

(** A notification made for a channel of an order: it carries the id of
    the order, the customer's contact for the channel and the message of
    the channel's template. *)
Definition made_for (order : Order.t) (n : Notification.t) : Prop :=
  Notification.order_id n = Order.order_id order
  /\ Customer.get_contact_info (Order.customer order) (Notification.type n)
     = Some (Notification.recipient n)
  /\ MessageBuilder.build (builder_for order (Notification.type n))
     = inr (Notification.message n).

(** The entry the original script logs for a request that starts in the
    world [w]. *)
Definition original_entry (report_type output_format delivery_method : string)
    (w : World) : dict :=
  [("type", VStr report_type);
   ("format", VStr output_format);
   ("delivery", VStr delivery_method);
   ("timestamp", VStr (strftime "%Y-%m-%d %H:%M:%S" (time_at w (reads w))))].

(** The report types and the output formats the original script has a
    branch for. *)
Definition known_type (report_type : string) : bool :=
  String.eqb report_type "sales" || String.eqb report_type "inventory"
  || String.eqb report_type "financial".

Definition known_format (output_format : string) : bool :=
  String.eqb output_format "pdf" || String.eqb output_format "excel"
  || String.eqb output_format "html".

(** Runs the [print] calls of a goal and puts the console back in the
    shape of [printed]. *)
Ltac run_prints :=
  unfold printed, bind, print, lift, ret; simpl; rewrite <- ?app_assoc.

(** *** The registries *)

Lemma prefix_app (p s : string) : String.prefix p (p +:+ s) = true.
Proof.
  induction p as [|c p IH]; simpl; [by destruct s|].
  destruct (ascii_dec c c); [done|congruence].
Qed.

Lemma unknown_type_error (tag : string) :
  is_unknown_tag_error (ValueError ("Tipo de reporte no soportado: " +:+ tag))
  = true.
Proof. unfold is_unknown_tag_error. by rewrite prefix_app. Qed.

Lemma unknown_format_error (tag : string) :
  is_unknown_tag_error (ValueError ("Formato no soportado: " +:+ tag)) = true.
Proof.
  unfold is_unknown_tag_error.
  by rewrite (prefix_app "Formato no soportado: "), orb_true_r.
Qed.

Lemma unknown_delivery_error (tag : string) :
  is_unknown_tag_error
    (ValueError ("Método de entrega no soportado: " +:+ tag)) = true.
Proof.
  unfold is_unknown_tag_error.
  by rewrite (prefix_app "Método de entrega no soportado: "), orb_true_r.
Qed.

Lemma create_generator_error (f : ReportFactory.t) (tag : string) (e : exn) :
  ReportFactory.create_generator f tag = inl e ->
  e = ValueError ("Tipo de reporte no soportado: " +:+ tag).
Proof.
  unfold ReportFactory.create_generator.
  destruct (ReportFactory._generators f !! tag) as [g|]; [|by intros [= <-]].
  destruct (IReportGenerator.__bool__ g); [done|by intros [= <-]].
Qed.

Lemma create_generator_resolved (f : ReportFactory.t) (tag : string)
    (g : IReportGenerator.t) :
  ReportFactory.create_generator f tag = inr g <->
  ReportFactory._generators f !! tag = Some g
  /\ IReportGenerator.__bool__ g = true.
Proof.
  unfold ReportFactory.create_generator.
  destruct (ReportFactory._generators f !! tag) as [g'|].
  - destruct (IReportGenerator.__bool__ g') eqn:Hb; cbn [negb].
    + split; [by intros [= <-]|by intros [[= <-] _]].
    + split; [done|]. intros [[= <-] Hg]. congruence.
  - split; [done|by intros [? _]].
Qed.

Lemma usable_Some {A : Type} (truth : A -> bool) (x : option A) (a : A) :
  ReportSystem.usable truth x = Some a <-> x = Some a /\ truth a = true.
Proof.
  unfold ReportSystem.usable. destruct x as [a'|].
  - destruct (truth a') eqn:Hb.
    + split; [by intros [= <-]|by intros [[= <-] _]].
    + split; [done|]. intros [[= <-] Ht]. congruence.
  - split; [done|by intros [? _]].
Qed.

Lemma create_generator_registered (f : ReportFactory.t) (tag : string)
    (g : IReportGenerator.t) :
  ReportFactory.create_generator (ReportFactory.register_generator f tag g) tag
  = if IReportGenerator.__bool__ g then inr g
    else inl (ValueError ("Tipo de reporte no soportado: " +:+ tag)).
Proof.
  unfold ReportFactory.create_generator, ReportFactory.register_generator.
  simpl. rewrite lookup_insert_eq. by destruct (IReportGenerator.__bool__ g).
Qed.

Lemma create_generator_other (f : ReportFactory.t) (tag tag' : string)
    (g : IReportGenerator.t) :
  tag ≠ tag' ->
  ReportFactory.create_generator (ReportFactory.register_generator f tag g) tag'
  = ReportFactory.create_generator f tag'.
Proof.
  intros Hne.
  unfold ReportFactory.create_generator, ReportFactory.register_generator.
  simpl. by rewrite lookup_insert_ne.
Qed.

Lemma create_notifier_registered (f : NotificationFactory.t) (tag : string)
    (n : INotificationStrategy.t) :
  NotificationFactory.create_notifier
    (NotificationFactory.register_notifier f tag n) tag
  = if INotificationStrategy.__bool__ n then inr n
    else inl (ValueError ("Tipo de notificación no soportado: " +:+ tag)).
Proof.
  unfold NotificationFactory.create_notifier,
    NotificationFactory.register_notifier.
  simpl. rewrite lookup_insert_eq.
  by destruct (INotificationStrategy.__bool__ n).
Qed.

Lemma create_notifier_other (f : NotificationFactory.t) (tag tag' : string)
    (n : INotificationStrategy.t) :
  tag ≠ tag' ->
  NotificationFactory.create_notifier
    (NotificationFactory.register_notifier f tag n) tag'
  = NotificationFactory.create_notifier f tag'.
Proof.
  intros Hne.
  unfold NotificationFactory.create_notifier,
    NotificationFactory.register_notifier.
  simpl. by rewrite lookup_insert_ne.
Qed.

(** C9, as the code has it.  In both registries the last registration
    under a tag decides what resolving the tag gives, whatever was
    registered under it before: the registered implementation itself when
    it is truthy (as every instance of the program's own classes is), the
    unknown-tag error when it is falsy, because the registries test
    [if not generator] and not [if generator is None].  A registration
    leaves every other tag as it was, and stays visible through later
    registrations of other tags. *)
Theorem registry_last_registration_wins :
  (forall (f : ReportFactory.t) (tag : string) (g g' : IReportGenerator.t),
      (IReportGenerator.__bool__ g = true ->
       ReportFactory.create_generator
         (ReportFactory.register_generator f tag g) tag = inr g)
      /\ (IReportGenerator.__bool__ g' = true ->
          ReportFactory.create_generator
            (ReportFactory.register_generator
               (ReportFactory.register_generator f tag g) tag g') tag = inr g')
      /\ (IReportGenerator.__bool__ g' = false ->
          ReportFactory.create_generator
            (ReportFactory.register_generator
               (ReportFactory.register_generator f tag g) tag g') tag
          = inl (ValueError ("Tipo de reporte no soportado: " +:+ tag)))
      /\ forall (other : string) (h : IReportGenerator.t),
           other ≠ tag ->
           ReportFactory.create_generator
             (ReportFactory.register_generator
                (ReportFactory.register_generator f tag g) other h) tag
           = ReportFactory.create_generator
               (ReportFactory.register_generator f tag g) tag
           /\ ReportFactory.create_generator
                (ReportFactory.register_generator f tag g) other
              = ReportFactory.create_generator f other)
  /\ (forall (f : NotificationFactory.t) (tag : string)
        (n n' : INotificationStrategy.t),
      (INotificationStrategy.__bool__ n = true ->
       NotificationFactory.create_notifier
         (NotificationFactory.register_notifier f tag n) tag = inr n)
      /\ (INotificationStrategy.__bool__ n' = true ->
          NotificationFactory.create_notifier
            (NotificationFactory.register_notifier
               (NotificationFactory.register_notifier f tag n) tag n') tag
          = inr n')
      /\ (INotificationStrategy.__bool__ n' = false ->
          NotificationFactory.create_notifier
            (NotificationFactory.register_notifier
               (NotificationFactory.register_notifier f tag n) tag n') tag
          = inl (ValueError ("Tipo de notificación no soportado: " +:+ tag)))
      /\ forall (other : string) (h : INotificationStrategy.t),
           other ≠ tag ->
           NotificationFactory.create_notifier
             (NotificationFactory.register_notifier
                (NotificationFactory.register_notifier f tag n) other h) tag
           = NotificationFactory.create_notifier
               (NotificationFactory.register_notifier f tag n) tag
           /\ NotificationFactory.create_notifier
                (NotificationFactory.register_notifier f tag n) other
              = NotificationFactory.create_notifier f other).
Proof.
  split.
  - intros f tag g g'. repeat split.
    + intros Hg. by rewrite create_generator_registered, Hg.
    + intros Hg. by rewrite create_generator_registered, Hg.
    + intros Hg. by rewrite create_generator_registered, Hg.
    + by rewrite create_generator_other.
    + by apply create_generator_other.
  - intros f tag n n'. repeat split.
    + intros Hn. by rewrite create_notifier_registered, Hn.
    + intros Hn. by rewrite create_notifier_registered, Hn.
    + intros Hn. by rewrite create_notifier_registered, Hn.
    + by rewrite create_notifier_other.
    + by apply create_notifier_other.
Qed.

(** A generator and a notifier of truthy classes resolve after their
    registration under [custom]. *)
Lemma registry_last_registration_wins_witness :
  ReportFactory.create_generator
    (ReportFactory.register_generator
       (ReportFactory.init (H := quoting_runtime)) "custom"
       FinancialReportGenerator.new) "custom"
  = inr FinancialReportGenerator.new
  /\ NotificationFactory.create_notifier
       (NotificationFactory.register_notifier
          (NotificationFactory.init (H := quoting_runtime)) "custom"
          (EmailNotifier.new (H := quoting_runtime))) "custom"
     = inr (EmailNotifier.new (H := quoting_runtime)).
Proof.
  destruct registry_last_registration_wins as [Hg Hn]. split.
  - apply (Hg (ReportFactory.init (H := quoting_runtime)) "custom"
             FinancialReportGenerator.new FinancialReportGenerator.new).
    reflexivity.
  - apply (Hn (NotificationFactory.init (H := quoting_runtime)) "custom"
             (EmailNotifier.new (H := quoting_runtime))
             (EmailNotifier.new (H := quoting_runtime))).
    reflexivity.
Defined.

(** The claim fails for an implementation whose class is falsy: registered
    under [custom], it is not what resolving [custom] returns; the tag is
    reported as unsupported. *)
Lemma registered_falsy_implementation_is_not_resolved :
  ReportFactory.create_generator
    (ReportFactory.register_generator
       (ReportFactory.init (H := quoting_runtime)) "custom" falsy_generator)
    "custom"
  = inl (ValueError "Tipo de reporte no soportado: custom")
  /\ NotificationFactory.create_notifier
       (NotificationFactory.register_notifier
          (NotificationFactory.init (H := quoting_runtime)) "custom"
          falsy_notifier)
       "custom"
     = inl (ValueError "Tipo de notificación no soportado: custom").
Proof.
  split.
  - by rewrite create_generator_registered.
  - by rewrite create_notifier_registered.
Qed.

(** *** The notifiers *)

Lemma str_len_le_length (s : string) : (str_len s <= String.length s)%nat.
Proof.
  induction s as [|c s IH]; [done|].
  cbn [str_len String.length]. destruct (is_continuation c); lia.
Qed.

Lemma validate_phone_length (phone : string) :
  SMSNotifier._validate_phone phone = true <-> (10 < str_len phone)%nat.
Proof.
  unfold SMSNotifier._validate_phone. rewrite andb_true_iff, Z.ltb_lt.
  split.
  - intros [_ Hlen]. lia.
  - intros Hlen. split; [|lia]. destruct phone; simpl in *; [lia|done].
Qed.

Lemma validate_device_prefix (device_id : string) :
  PushNotifier._validate_device device_id = String.prefix "DEVICE-" device_id.
Proof.
  unfold PushNotifier._validate_device, startswith.
  destruct device_id; reflexivity.
Qed.

(** C5.  [SMSNotifier.send] never raises.  It answers [True] exactly when
    the recipient has more than ten characters, and then the notification
    it leaves has status [sent] (everything else as it was) and two lines
    are printed; otherwise it answers [False], the notification it leaves
    has status [failed] and the invalid-phone message as its error, and
    nothing is printed. *)
Theorem sms_send_succeeds_iff_longer_than_10 `{Runtime}
    (n : Notification.t) (w : World) :
  ((10 < str_len (Notification.recipient n))%nat
   /\ SMSNotifier.send n w
      = (inr (true,
              Notification.mk (Notification.notification_id n)
                (Notification.type n) (Notification.recipient n)
                (Notification.message n) (Notification.order_id n)
                (Notification.timestamp n) "sent" (Notification.error n)),
         printed w
           ["📱 SMS enviado a " +:+ Notification.recipient n;
            "   Mensaje: " +:+ str_take 160 (Notification.message n) +:+ nl]))
  \/ ((str_len (Notification.recipient n) <= 10)%nat
      /\ SMSNotifier.send n w
         = (inr (false,
                 Notification.mk (Notification.notification_id n)
                   (Notification.type n) (Notification.recipient n)
                   (Notification.message n) (Notification.order_id n)
                   (Notification.timestamp n) "failed"
                   (Some "Número de teléfono inválido")),
            w)).
Proof.
  destruct (SMSNotifier._validate_phone (Notification.recipient n)) eqn:Hv.
  - left. split; [by apply validate_phone_length|].
    unfold SMSNotifier.send, try_except. rewrite Hv.
    by run_prints.
  - right. split.
    + destruct (le_lt_dec (str_len (Notification.recipient n)) 10)
        as [|Hlt]; [done|].
      apply validate_phone_length in Hlt. congruence.
    + unfold SMSNotifier.send, try_except. rewrite Hv. reflexivity.
Qed.

(** The boundary: eleven characters are sent, ten are not, also when one
    of the ten takes two bytes. *)
Example sms_boundary :
  fst (SMSNotifier.send (H := quoting_runtime)
         (Notification.mk "N" "sms" "60012345678" "m" "o" (clock0 0)
            "pending" None) world0)
  = inr (true,
         Notification.mk "N" "sms" "60012345678" "m" "o" (clock0 0) "sent" None)
  /\ fst (SMSNotifier.send (H := quoting_runtime)
            (Notification.mk "N" "sms" "6001234567" "m" "o" (clock0 0)
               "pending" None) world0)
     = inr (false,
            Notification.mk "N" "sms" "6001234567" "m" "o" (clock0 0) "failed"
              (Some "Número de teléfono inválido"))
  /\ str_len "ñ600123456" = 10%nat
  /\ fst (SMSNotifier.send (H := quoting_runtime)
            (Notification.mk "N" "sms" "ñ600123456" "m" "o" (clock0 0)
               "pending" None) world0)
     = inr (false,
            Notification.mk "N" "sms" "ñ600123456" "m" "o" (clock0 0) "failed"
              (Some "Número de teléfono inválido")).
Proof. repeat split; reflexivity. Qed.

(** C6.  [PushNotifier.send] never raises.  It answers [False] exactly
    when the recipient does not start with [DEVICE-], and then the
    notification it leaves has status [failed] and the invalid-device
    message as its error, and nothing is printed; otherwise it answers
    [True], the notification it leaves has status [sent] (everything else
    as it was) and two lines are printed. *)
Theorem push_send_fails_iff_no_DEVICE_prefix `{Runtime}
    (n : Notification.t) (w : World) :
  (String.prefix "DEVICE-" (Notification.recipient n) = true
   /\ PushNotifier.send n w
      = (inr (true,
              Notification.mk (Notification.notification_id n)
                (Notification.type n) (Notification.recipient n)
                (Notification.message n) (Notification.order_id n)
                (Notification.timestamp n) "sent" (Notification.error n)),
         printed w
           ["🔔 PUSH enviada al dispositivo " +:+ Notification.recipient n;
            "   Mensaje: " +:+ Notification.message n +:+ nl]))
  \/ (String.prefix "DEVICE-" (Notification.recipient n) = false
      /\ PushNotifier.send n w
         = (inr (false,
                 Notification.mk (Notification.notification_id n)
                   (Notification.type n) (Notification.recipient n)
                   (Notification.message n) (Notification.order_id n)
                   (Notification.timestamp n) "failed"
                   (Some "Device ID inválido")),
            w)).
Proof.
  pose proof (validate_device_prefix (Notification.recipient n)) as Hv.
  destruct (String.prefix "DEVICE-" (Notification.recipient n)); [left|right];
    (split; [done|]); unfold PushNotifier.send, try_except; rewrite Hv.
  - by run_prints.
  - reflexivity.
Qed.

(** *** The builders *)

Lemma report_build_incomplete (b : ReportBuilder.t) (w : World) :
  ReportBuilder.all_components b = false ->
  ReportBuilder.build b w = (inl missing_components, w).
Proof. intros Hc. unfold ReportBuilder.build. by rewrite Hc. Qed.

Lemma message_build_incomplete (b : MessageBuilder.t) :
  MessageBuilder.all_components b = false ->
  MessageBuilder.build b = inl missing_message_data.
Proof. intros Hc. unfold MessageBuilder.build. by rewrite Hc. Qed.

Lemma generate_report_falsy_data (sys : ReportSystem.t)
    (report_type output_format delivery_method : string) (data : pyval)
    (w : World) :
  truthy data = false ->
  exists e sys',
    ReportSystem.generate_report sys report_type data output_format
      delivery_method w = (inl e, sys', w)
    /\ ReportSystem.report_history sys' = ReportSystem.report_history sys
    /\ (resolves sys report_type output_format delivery_method = true ->
        e = missing_components)
    /\ (resolves sys report_type output_format delivery_method = false ->
        is_unknown_tag_error e = true).
Proof.
  intros Hd. unfold ReportSystem.generate_report, resolves.
  destruct (ReportFactory.create_generator (ReportSystem.factory sys)
              report_type) as [e|g] eqn:Hg.
  { eexists _, sys. repeat split; [done|]. intros _.
    apply create_generator_error in Hg as ->. apply unknown_type_error. }
  cbv beta iota zeta.
  destruct (ReportSystem.usable IFormatStrategy.__bool__
              (ReportSystem._format_strategies sys !! output_format))
    as [f|] eqn:Hf.
  2: { eexists _, sys. repeat split; [done|]. intros _.
       apply unknown_format_error. }
  destruct (ReportSystem.usable IDeliveryStrategy.__bool__
              (ReportSystem._delivery_strategies sys !! delivery_method))
    as [d|] eqn:Hdm.
  2: { eexists _, sys. repeat split; [done|]. intros _.
       apply unknown_delivery_error. }
  rewrite report_build_incomplete.
  - eexists _, _. repeat split. done.
  - unfold ReportBuilder.all_components.
    cbn [ReportBuilder.set_data ReportBuilder._data]. rewrite Hd.
    by rewrite ?andb_false_r.
Qed.

(** C10, as the code has it.  [ReportBuilder.build] and
    [MessageBuilder.build] raise their [ValueError] as soon as one
    component is falsy ([None], a strategy whose class is falsy, an empty
    [dict] or another falsy value as data, an empty channel), also right
    after the setter of that component was called, and touch nothing.
    [ReportSystem.generate_report] on the data [{}] always raises, reads
    no clock, prints nothing and leaves the history as it was; the error
    is the builder's 'Faltan componentes para construir el reporte' when
    the three tags of the request resolve, and the unknown-tag error of
    the system or of its factory when one of them does not. *)
Theorem build_rejects_falsy_component :
  (forall (b : ReportBuilder.t) (w : World),
      (ReportBuilder._generator b = None
       \/ (exists g, ReportBuilder._generator b = Some g
                     /\ IReportGenerator.__bool__ g = false)
       \/ ReportBuilder._formatter b = None
       \/ (exists f, ReportBuilder._formatter b = Some f
                     /\ IFormatStrategy.__bool__ f = false)
       \/ ReportBuilder._delivery b = None
       \/ (exists d, ReportBuilder._delivery b = Some d
                     /\ IDeliveryStrategy.__bool__ d = false)
       \/ ReportBuilder._data b = None
       \/ exists data,
            ReportBuilder._data b = Some data /\ truthy data = false) ->
      ReportBuilder.build b w = (inl missing_components, w))
  /\ (forall (b : ReportBuilder.t) (data : pyval) (w : World),
        truthy data = false ->
        ReportBuilder.build (ReportBuilder.set_data b data) w
        = (inl missing_components, w))
  /\ (forall b : MessageBuilder.t,
        (MessageBuilder._order b = None
         \/ MessageBuilder._customer b = None
         \/ MessageBuilder._channel b = None
         \/ MessageBuilder._channel b = Some "") ->
        MessageBuilder.build b = inl missing_message_data)
  /\ (forall b : MessageBuilder.t,
        MessageBuilder.build (MessageBuilder.set_channel b "")
        = inl missing_message_data)
  /\ (forall (sys : ReportSystem.t)
        (report_type output_format delivery_method : string) (w : World),
        exists e sys',
          ReportSystem.generate_report sys report_type (VDict []) output_format
            delivery_method w = (inl e, sys', w)
          /\ ReportSystem.report_history sys' = ReportSystem.report_history sys
          /\ (resolves sys report_type output_format delivery_method = true ->
              e = missing_components)
          /\ (resolves sys report_type output_format delivery_method = false ->
              is_unknown_tag_error e = true)).
Proof.
  split; [|split; [|split; [|split]]].
  - intros b w Hf. apply report_build_incomplete.
    unfold ReportBuilder.all_components.
    destruct Hf as [-> | [(g & -> & ->) | [-> | [(f & -> & ->) | [-> |
                   [(d & -> & ->) | [-> | (data & -> & ->)]]]]]]];
      by rewrite ?andb_false_r.
  - intros b data w Hd. apply report_build_incomplete.
    unfold ReportBuilder.all_components.
    cbn [ReportBuilder.set_data ReportBuilder._data]. rewrite Hd.
    by rewrite ?andb_false_r.
  - intros b Hf. apply message_build_incomplete.
    unfold MessageBuilder.all_components.
    destruct Hf as [-> | [-> | [-> | ->]]]; simpl; by rewrite ?andb_false_r.
  - intros b. apply message_build_incomplete.
    unfold MessageBuilder.all_components. simpl. by rewrite andb_false_r.
  - intros. by apply generate_report_falsy_data.
Qed.

Lemma build_rejects_falsy_component_witness :
  ReportBuilder._data (ReportBuilder.set_data ReportBuilder.init (VDict []))
  = Some (VDict [])
  /\ truthy (VDict []) = false
  /\ ReportBuilder.build
       (ReportBuilder.set_data ReportBuilder.init (VDict [])) world0
     = (inl missing_components, world0).
Proof.
  split; [reflexivity|]. split; [reflexivity|].
  apply (proj1 build_rejects_falsy_component
           (ReportBuilder.set_data ReportBuilder.init (VDict [])) world0).
  do 7 right. exists (VDict []). split; reflexivity.
Defined.

(** The claim fails for a request whose tags do not all resolve: with the
    empty payload and the format [docx] the error is not the builder's
    but the system's 'Formato no soportado'. *)
Lemma empty_payload_with_unknown_format :
  resolves (ReportSystem.init (H := quoting_runtime)) "sales" "docx" "email"
  = false
  /\ fst (fst (ReportSystem.generate_report
                 (ReportSystem.init (H := quoting_runtime))
                 "sales" (VDict []) "docx" "email" world0))
     = inl (ValueError "Formato no soportado: docx")
  /\ ValueError "Formato no soportado: docx" <> missing_components.
Proof. split; [reflexivity|split; [reflexivity|discriminate]]. Qed.

(** The empty payload on the fresh system: the builder's error, and an
    empty history. *)
Example empty_payload_rejected :
  let '(r, sys, w) :=
    ReportSystem.generate_report (ReportSystem.init (H := quoting_runtime))
      "sales" (VDict []) "pdf" "email" world0 in
  r = inl missing_components
  /\ ReportSystem.report_history sys = []
  /\ w = world0.
Proof. vm_compute. repeat split. Qed.

(** *** Payloads with a missing field *)

Lemma getitem_missing (d : dict) (k : string) :
  dict_get d k = None -> getitem (VDict d) k = inl (KeyError k).
Proof. intros Hk. simpl. by rewrite Hk. Qed.

(** C3, as the code has it.  A payload without the field a generator reads
    first produces no report: the generator raises the [KeyError] of that
    field ([sales]; [items]; [income], then [expenses]) once it has read
    the clock.  The program has no validation of its own for this. *)
Theorem missing_field_raises_KeyError `{Runtime} (d : dict) (w : World) :
  (dict_get d "sales" = None ->
   SalesReportGenerator.generate_report (VDict d) w
   = (inl (KeyError "sales"), ticked w))
  /\ (dict_get d "items" = None ->
      InventoryReportGenerator.generate_report (VDict d) w
      = (inl (KeyError "items"), ticked w))
  /\ (dict_get d "income" = None ->
      FinancialReportGenerator.generate_report (VDict d) w
      = (inl (KeyError "income"), ticked w))
  /\ (is_Some (dict_get d "income") -> dict_get d "expenses" = None ->
      FinancialReportGenerator.generate_report (VDict d) w
      = (inl (KeyError "expenses"), ticked w)).
Proof.
  repeat split.
  - intros Hk. unfold SalesReportGenerator.generate_report, bind, now, lift.
    by rewrite (getitem_missing _ _ Hk).
  - intros Hk. unfold InventoryReportGenerator.generate_report, bind, now, lift.
    by rewrite (getitem_missing _ _ Hk).
  - intros Hk. unfold FinancialReportGenerator.generate_report, bind, now, lift.
    by rewrite (getitem_missing _ _ Hk).
  - intros [income Hi] Hk.
    unfold FinancialReportGenerator.generate_report, bind, now, lift.
    rewrite (getitem_missing _ _ Hk). simpl. by rewrite Hi.
Qed.

Lemma missing_field_raises_KeyError_witness :
  dict_get [("income", VFloat 50000%float)] "expenses" = None
  /\ FinancialReportGenerator.generate_report
       (VDict [("income", VFloat 50000%float)]) world0
     = (inl (KeyError "expenses"), ticked world0).
Proof.
  split; [reflexivity|].
  apply (proj2 (proj2 (proj2
           (missing_field_raises_KeyError (H := quoting_runtime)
              [("income", VFloat 50000%float)] world0)))).
  - by eexists.
  - reflexivity.
Defined.

(** C3 fails as stated: a sales payload without [sales] ends in a
    [KeyError], which is no validation error. *)
Lemma sales_payload_without_sales_is_KeyError :
  SalesReportGenerator.generate_report (H := quoting_runtime)
    (VDict [("period", VStr "Enero 2024")]) world0
  = (inl (KeyError "sales"), ticked world0)
  /\ is_validation_error (KeyError "sales") = false.
Proof. split; reflexivity. Qed.

(** *** Tags that are not registered *)

Lemma generate_report_unregistered (sys : ReportSystem.t)
    (report_type output_format delivery_method : string) (data : pyval)
    (w : World) :
  ReportFactory._generators (ReportSystem.factory sys) !! report_type = None
  \/ ReportSystem._format_strategies sys !! output_format = None
  \/ ReportSystem._delivery_strategies sys !! delivery_method = None ->
  exists e,
    ReportSystem.generate_report sys report_type data output_format
      delivery_method w = (inl e, sys, w)
    /\ is_unknown_tag_error e = true.
Proof.
  intros Hu. unfold ReportSystem.generate_report.
  destruct (ReportFactory.create_generator (ReportSystem.factory sys)
              report_type) as [e|g] eqn:Hg.
  { eexists; split; [done|].
    apply create_generator_error in Hg as ->. apply unknown_type_error. }
  apply create_generator_resolved in Hg as [Hg _]. cbv beta iota zeta.
  destruct (ReportSystem.usable IFormatStrategy.__bool__
              (ReportSystem._format_strategies sys !! output_format))
    as [f|] eqn:Hf.
  2: { eexists; split; [done|]. apply unknown_format_error. }
  apply usable_Some in Hf as [Hf _].
  destruct (ReportSystem.usable IDeliveryStrategy.__bool__
              (ReportSystem._delivery_strategies sys !! delivery_method))
    as [d|] eqn:Hd.
  2: { eexists; split; [done|]. apply unknown_delivery_error. }
  apply usable_Some in Hd as [Hd _].
  destruct Hu as [? | [? | ?]]; congruence.
Qed.

Lemma attempt_unregistered (mgr : NotificationManager.t) (order : Order.t)
    (channel : string) (w : World) :
  NotificationFactory._notifiers (NotificationManager.factory mgr) !! channel
  = None ->
  exists msg mgr' w',
    NotificationManager.attempt mgr order channel w
    = (inl (ValueError msg), mgr', w')
    /\ NotificationManager.repository mgr' = NotificationManager.repository mgr
    /\ NotificationManager.factory mgr' = NotificationManager.factory mgr
    /\ stdout w' = stdout w
    /\ (default_channel channel = false ->
        w' = w
        /\ msg = if String.eqb channel ""
                 then "Faltan datos para construir el mensaje"
                 else "No se encontró información de contacto para el canal "
                      +:+ channel).
Proof.
  intros Hu.
  unfold NotificationManager.attempt, NotificationManager._create_notification.
  unfold MessageBuilder.build, MessageBuilder.all_components. simpl.
  destruct (String.eqb channel "") eqn:He; simpl.
  { eexists _, _, _. repeat split. }
  unfold Customer.get_contact_info, default_channel.
  destruct (Customer.get_contact_info (Order.customer order) channel)
    as [recipient|] eqn:Hc; unfold Customer.get_contact_info in Hc; rewrite Hc.
  - unfold Notification.init, bind, now, ret. simpl.
    unfold NotificationFactory.create_notifier. rewrite Hu.
    eexists _, _, _. repeat split; simpl.
    + destruct (String.eqb channel "email"); [done|].
      destruct (String.eqb channel "sms"); [done|].
      destruct (String.eqb channel "push"); done.
    + destruct (String.eqb channel "email"); [done|].
      destruct (String.eqb channel "sms"); [done|].
      destruct (String.eqb channel "push"); done.
  - eexists _, _, _. repeat split.
Qed.

(** The fresh manager registers the three channels a customer has a
    contact for, and no other. *)
Lemma init_registers_default_channels `{Runtime} (channel : string) :
  default_channel channel = false ->
  NotificationFactory._notifiers
    (NotificationManager.factory NotificationManager.init) !! channel = None.
Proof.
  unfold default_channel. rewrite !orb_false_iff, !String.eqb_neq.
  intros [[He Hs] Hp]. simpl.
  rewrite !lookup_insert_ne by done. apply lookup_empty.
Qed.

(** C2, as the code has it.  [ReportSystem.generate_report] with a
    generator, format or delivery tag that is not registered raises the
    unknown-tag [ValueError] and leaves the system, its history and the
    world as they were.  In [send_notifications], the attempt for a channel
    that is not registered raises a [ValueError] which the loop catches and
    prints; the repository and the registry are left as they were.  For a
    channel other than [email], [sms] and [push] that error comes before
    the registry is asked: it is the missing-contact error (the
    missing-data error for the empty channel), raised once the message has
    been built, and no clock is read. *)
Theorem unregistered_tag_rejected `{Runtime} :
  (forall (sys : ReportSystem.t)
     (report_type output_format delivery_method : string) (data : pyval)
     (w : World),
      ReportFactory._generators (ReportSystem.factory sys) !! report_type = None
      \/ ReportSystem._format_strategies sys !! output_format = None
      \/ ReportSystem._delivery_strategies sys !! delivery_method = None ->
      exists e,
        ReportSystem.generate_report sys report_type data output_format
          delivery_method w = (inl e, sys, w)
        /\ is_unknown_tag_error e = true)
  /\ (forall (mgr : NotificationManager.t) (order : Order.t)
        (channel : string) (w : World),
        NotificationFactory._notifiers (NotificationManager.factory mgr)
          !! channel = None ->
        exists msg mgr' w',
          NotificationManager.attempt mgr order channel w
          = (inl (ValueError msg), mgr', w')
          /\ NotificationManager.notify mgr order channel w
             = (mgr',
                printed w'
                  ["❌ Error al enviar por " +:+ channel +:+ ": " +:+ msg
                   +:+ nl])
          /\ NotificationManager.repository mgr'
             = NotificationManager.repository mgr
          /\ NotificationManager.factory mgr' = NotificationManager.factory mgr
          /\ stdout w' = stdout w
          /\ (default_channel channel = false ->
              w' = w
              /\ msg = if String.eqb channel ""
                       then "Faltan datos para construir el mensaje"
                       else "No se encontró información de contacto para el canal "
                            +:+ channel)).
Proof.
  split.
  - intros. by apply generate_report_unregistered.
  - intros mgr order channel w Hu.
    destruct (attempt_unregistered mgr order channel w Hu)
      as (msg & mgr' & w' & Ha & Hrepo & Hfac & Hout & Hdef).
    exists msg, mgr', w'. repeat split; try done.
    + unfold NotificationManager.notify. by rewrite Ha.
    + by apply Hdef.
    + by apply Hdef.
Qed.

Lemma unregistered_tag_rejected_witness :
  ReportSystem._format_strategies (ReportSystem.init (H := quoting_runtime))
    !! "docx" = None
  /\ exists e,
       ReportSystem.generate_report (ReportSystem.init (H := quoting_runtime))
         "sales" sales_data "docx" "email" world0
       = (inl e, ReportSystem.init (H := quoting_runtime), world0)
       /\ is_unknown_tag_error e = true.
Proof.
  split; [reflexivity|].
  apply (proj1 (unregistered_tag_rejected (H := quoting_runtime))).
  right. left. reflexivity.
Defined.

(** C2 fails as stated: [whatsapp] is not registered in the fresh manager,
    and the attempt for it ends in the missing-contact error, which is not
    the unknown-tag error of the registry. *)
Lemma unregistered_channel_fails_on_contact_lookup :
  NotificationFactory._notifiers
    (NotificationManager.factory (NotificationManager.init (H := quoting_runtime)))
    !! "whatsapp" = None
  /\ fst (fst (NotificationManager.attempt
                 (NotificationManager.init (H := quoting_runtime)) order1
                 "whatsapp" world0))
     = inl (ValueError
              "No se encontró información de contacto para el canal whatsapp")
  /\ is_unknown_tag_error
       (ValueError
          "No se encontró información de contacto para el canal whatsapp")
     = false.
Proof.
  split; [|split].
  - by apply init_registers_default_channels.
  - reflexivity.
  - reflexivity.
Qed.

(** *** Fan-out over the channels *)

Lemma email_send `{Runtime} (n : Notification.t) (w : World) :
  EmailNotifier.send n w
  = (inr (true, Notification.mark_as_sent n),
     printed w
       ["📧 EMAIL enviado a " +:+ Notification.recipient n;
        "   Asunto: Confirmación de Pedido #" +:+ Notification.order_id n;
        "   Mensaje: " +:+ Notification.message n +:+ nl]).
Proof.
  unfold EmailNotifier.send, try_except. by run_prints.
Qed.

Lemma sms_send_invalid `{Runtime} (n : Notification.t) (w : World) :
  SMSNotifier._validate_phone (Notification.recipient n) = false ->
  SMSNotifier.send n w
  = (inr (false, Notification.mark_as_failed n "Número de teléfono inválido"),
     w).
Proof. intros Hv. unfold SMSNotifier.send, try_except. by rewrite Hv. Qed.

Lemma push_send_valid `{Runtime} (n : Notification.t) (w : World) :
  PushNotifier._validate_device (Notification.recipient n) = true ->
  PushNotifier.send n w
  = (inr (true, Notification.mark_as_sent n),
     printed w
       ["🔔 PUSH enviada al dispositivo " +:+ Notification.recipient n;
        "   Mensaje: " +:+ Notification.message n +:+ nl]).
Proof.
  intros Hv. unfold PushNotifier.send, try_except. rewrite Hv.
  by run_prints.
Qed.

(** One turn of the loop for a registered channel whose notifier answers:
    the notification is saved as the notifier left it, whatever the
    answer. *)
Lemma notify_delivers `{Runtime} (mgr : NotificationManager.t)
    (order : Order.t) (channel recipient message : string)
    (notifier : INotificationStrategy.t) (success : bool)
    (n' : Notification.t) (w w' : World) :
  MessageBuilder.build (builder_for order channel) = inr message ->
  Customer.get_contact_info (Order.customer order) channel = Some recipient ->
  NotificationFactory._notifiers (NotificationManager.factory mgr) !! channel
  = Some notifier ->
  INotificationStrategy.__bool__ notifier = true ->
  INotificationStrategy.send notifier
    (pending channel recipient message (Order.order_id order) w)
    (ticked (ticked w))
  = (inr (success, n'), w') ->
  NotificationManager.notify mgr order channel w
  = (NotificationManager.mk (NotificationManager.factory mgr)
       (builder_for order channel)
       (NotificationRepository.save (NotificationManager.repository mgr) n'),
     if success then w'
     else printed w' ["⚠️  Falló el envío por " +:+ channel]).
Proof.
  intros Hb Hc Hn Ht Hs.
  unfold NotificationManager.notify, NotificationManager.attempt,
    NotificationManager._create_notification.
  change (MessageBuilder.set_channel _ channel) with (builder_for order channel).
  rewrite Hb, Hc.
  change (Notification.init channel recipient message (Order.order_id order) w)
    with (inr (B := Notification.t) (A := exn)
            (pending channel recipient message (Order.order_id order) w),
          ticked (ticked w)).
  unfold NotificationFactory.create_notifier.
  cbn [NotificationManager.factory NotificationManager.with_message_builder].
  rewrite Hn, Ht. cbn [negb]. rewrite Hs. by destruct success.
Qed.

(** C4.  With the three built-in notifiers registered, an order whose
    customer has an e-mail address, a phone of at most ten characters and
    a device id starting with [DEVICE-], sent over [email], [sms], [push],
    adds exactly three notifications to the repository, in that order:
    the e-mail one sent, the SMS one failed, the push one sent.  The SMS
    failure stops nothing. *)
Theorem fan_out_with_short_phone `{Runtime} (mgr : NotificationManager.t)
    (order : Order.t) (e p d : string) (w : World) :
  NotificationFactory._notifiers (NotificationManager.factory mgr) !! "email"
  = Some EmailNotifier.new ->
  NotificationFactory._notifiers (NotificationManager.factory mgr) !! "sms"
  = Some SMSNotifier.new ->
  NotificationFactory._notifiers (NotificationManager.factory mgr) !! "push"
  = Some PushNotifier.new ->
  Customer.email (Order.customer order) = Some e ->
  Customer.phone (Order.customer order) = Some p ->
  Customer.device_id (Order.customer order) = Some d ->
  (str_len p <= 10)%nat ->
  String.prefix "DEVICE-" d = true ->
  exists (n1 n2 n3 : Notification.t) (mgr' : NotificationManager.t) (w' : World),
    NotificationManager.send_notifications mgr order ["email"; "sms"; "push"] w
    = (mgr', w')
    /\ NotificationRepository._storage (NotificationManager.repository mgr')
       = NotificationRepository._storage (NotificationManager.repository mgr)
         ++ [n1; n2; n3]
    /\ NotificationManager.factory mgr' = NotificationManager.factory mgr
    /\ (Notification.type n1 = "email" /\ Notification.recipient n1 = e
        /\ Notification.status n1 = "sent")
    /\ (Notification.type n2 = "sms" /\ Notification.recipient n2 = p
        /\ Notification.status n2 = "failed"
        /\ Notification.error n2 = Some "Número de teléfono inválido")
    /\ (Notification.type n3 = "push" /\ Notification.recipient n3 = d
        /\ Notification.status n3 = "sent").
Proof.
  intros Hemail Hsms Hpush He Hp Hd Hlen Hpre.
  assert (Hvp : SMSNotifier._validate_phone p = false).
  { destruct (SMSNotifier._validate_phone p) eqn:Hv; [|done].
    apply validate_phone_length in Hv. lia. }
  assert (Hvd : PushNotifier._validate_device d = true).
  { by rewrite validate_device_prefix. }
  unfold NotificationManager.send_notifications.
  destruct (NotificationManager.header order w) as [r0 w0].
  unfold NotificationManager.notify_all.
  erewrite (notify_delivers mgr order "email" e); cycle 1.
  { reflexivity. } { exact He. } { exact Hemail. } { reflexivity. }
  { apply email_send. }
  erewrite (notify_delivers _ order "sms" p); cycle 1.
  { reflexivity. } { exact Hp. } { exact Hsms. } { reflexivity. }
  { by apply sms_send_invalid. }
  erewrite (notify_delivers _ order "push" d); cycle 1.
  { reflexivity. } { exact Hd. } { exact Hpush. } { reflexivity. }
  { by apply push_send_valid. }
  eexists _, _, _, _, _. split; [reflexivity|].
  cbn. rewrite <- !app_assoc. repeat split.
Qed.

Lemma fan_out_with_short_phone_witness :
  (str_len "6001234567" <= 10)%nat
  /\ exists (n1 n2 n3 : Notification.t) (mgr' : NotificationManager.t)
       (w' : World),
       NotificationManager.send_notifications (H := quoting_runtime)
         (NotificationManager.init (H := quoting_runtime)) order1
         ["email"; "sms"; "push"] world0
       = (mgr', w')
       /\ NotificationRepository._storage (NotificationManager.repository mgr')
          = NotificationRepository._storage
              (NotificationManager.repository
                 (NotificationManager.init (H := quoting_runtime)))
            ++ [n1; n2; n3]
       /\ NotificationManager.factory mgr'
          = NotificationManager.factory
              (NotificationManager.init (H := quoting_runtime))
       /\ (Notification.type n1 = "email"
           /\ Notification.recipient n1 = "ana.garcia@email.com"
           /\ Notification.status n1 = "sent")
       /\ (Notification.type n2 = "sms"
           /\ Notification.recipient n2 = "6001234567"
           /\ Notification.status n2 = "failed"
           /\ Notification.error n2 = Some "Número de teléfono inválido")
       /\ (Notification.type n3 = "push"
           /\ Notification.recipient n3 = "DEVICE-ABC-123"
           /\ Notification.status n3 = "sent").
Proof.
  split; [simpl; lia|].
  apply (fan_out_with_short_phone (H := quoting_runtime)
           (NotificationManager.init (H := quoting_runtime)) order1
           "ana.garcia@email.com"
           "6001234567" "DEVICE-ABC-123" world0);
    reflexivity.
Defined.

(** *** Strings *)

Lemma append_assoc (a b c : string) : (a +:+ b) +:+ c = a +:+ b +:+ c.
Proof.
  induction a as [|x a IH]; [done|].
  change (String x ((a +:+ b) +:+ c) = String x (a +:+ b +:+ c)).
  by f_equal.
Qed.

Lemma append_empty_r (a : string) : a +:+ "" = a.
Proof.
  induction a as [|x a IH]; [done|].
  change (String x (a +:+ "") = String x a). by f_equal.
Qed.

(** *** Rounding to two decimals *)

(** [round_half_even a e] is an integer nearest to [a * 2^e]: exact for
    [e >= 0], and otherwise within half a unit. *)
Lemma round_half_even_nearest (a e : Z) :
  0 <= a ->
  (0 <= e -> round_half_even a e = a * 2 ^ e)
  /\ (e < 0 ->
      2 * Z.abs (round_half_even a e * 2 ^ (- e) - a) <= 2 ^ (- e)).
Proof.
  intros Ha. unfold round_half_even. split.
  - intros He. by rewrite (proj2 (Z.leb_le 0 e) He).
  - intros He. rewrite (proj2 (Z.leb_gt 0 e) He).
    assert (Hd : 0 < 2 ^ (- e)) by (apply Z.pow_pos_nonneg; lia).
    pose proof (Z.div_mod a (2 ^ (- e)) ltac:(lia)) as Hdm.
    pose proof (Z.mod_pos_bound a (2 ^ (- e)) Hd) as Hm.
    set (d := 2 ^ (- e)) in *. set (q := a / d) in *. set (r := a mod d) in *.
    cbv zeta.
    destruct (2 * r <? d) eqn:H1; [apply Z.ltb_lt in H1; nia|].
    apply Z.ltb_ge in H1.
    destruct (d <? 2 * r) eqn:H2; [apply Z.ltb_lt in H2; nia|].
    apply Z.ltb_ge in H2.
    destruct (Z.even q); nia.
Qed.

(** *** The sales report *)

Lemma sum_from_floats (sales : list pyval) (rows : list (pyval * float))
    (acc : float) :
  Forall2 (fun sale row => is_sale sale (fst row) (snd row)) sales rows ->
  sum_from (fun item => getitem item "amount") (VFloat acc) sales
  = inr (VFloat (fold_left PrimFloat.add (map snd rows) acc)).
Proof.
  intros Hs. revert acc.
  induction Hs as [|sale row sales rows [_ Ha] _ IH]; intros acc; [done|].
  cbn [sum_from]. rewrite Ha. cbn [rbind].
  change (add (VFloat acc) (VFloat (snd row)))
    with (inr (A := exn) (VFloat (acc + snd row)%float)).
  cbn [rbind]. by rewrite IH.
Qed.

Lemma calculate_totals_floats (sales : list pyval) (rows : list (pyval * float)) :
  Forall2 (fun sale row => is_sale sale (fst row) (snd row)) sales rows ->
  exists total,
    SalesReportGenerator._calculate_totals (VList sales) = inr total
    /\ format_2f total = inr (float_format_2f (float_sum (map snd rows))).
Proof.
  intros Hs. unfold SalesReportGenerator._calculate_totals, sum. cbn [iter rbind].
  destruct Hs as [|sale row sales rows [_ Ha] Hs].
  - exists (VInt 0). split; reflexivity.
  - cbn [sum_from]. rewrite Ha. cbn [rbind].
    change (add (VInt 0) (VFloat (snd row)))
      with (inr (A := exn) (VFloat (0 + snd row)%float)).
    cbn [rbind]. rewrite (sum_from_floats _ _ _ Hs).
    eexists. split; reflexivity.
Qed.

Lemma detail_loop_floats `{Runtime} (sales : list pyval)
    (rows : list (pyval * float)) (detail : string) :
  Forall2 (fun sale row => is_sale sale (fst row) (snd row)) sales rows ->
  SalesReportGenerator.detail_loop detail sales
  = inr (detail +:+ sale_lines rows).
Proof.
  intros Hs. revert detail.
  induction Hs as [|sale row sales rows [Hp Ha] _ IH]; intros detail.
  - simpl. by rewrite append_empty_r.
  - cbn [SalesReportGenerator.detail_loop].
    unfold SalesReportGenerator.detail_line. rewrite Hp, Ha.
    cbn [rbind format_2f as_num]. rewrite IH.
    cbn [sale_lines]. unfold sale_line. by rewrite append_assoc.
Qed.

(** What the generator returns for such a payload, in full. *)
Lemma sales_report_of_rows `{Runtime} (data : pyval) (sales : list pyval)
    (rows : list (pyval * float)) (period : pyval) (w : World) :
  getitem data "sales" = inr (VList sales) ->
  getitem data "period" = inr period ->
  Forall2 (fun sale row => is_sale sale (fst row) (snd row)) sales rows ->
  SalesReportGenerator.generate_report data w
  = (inr (Report.mk
            (sales_content
               (strftime "%Y-%m-%d %H:%M:%S" (time_at w (reads w))) rows period)
            "sales" "raw" (time_at w (S (reads w))) [("period", period)]),
     ticked (ticked w)).
Proof.
  intros Hsales Hperiod Hs.
  destruct (calculate_totals_floats sales rows Hs) as (total & Ht & Hf).
  unfold SalesReportGenerator.generate_report, bind, now, lift.
  rewrite Hsales, Ht, Hf, Hperiod.
  unfold SalesReportGenerator._format_sales_detail. cbn [iter rbind len].
  rewrite (detail_loop_floats _ _ _ Hs).
  rewrite (Forall2_length _ _ _ Hs).
  unfold Report.init, bind, now, ret, ticked, sales_content.
  cbn [truthy reads time_at stdout].
  do 2 f_equal. f_equal.
  rewrite !append_assoc. reflexivity.
Qed.

Lemma sample_sales_rows :
  Forall2 (fun sale row => is_sale sale (fst row) (snd row))
    (map sale_item sale_rows) sale_rows.
Proof. repeat constructor. Qed.

(** C7.  For a sales payload whose items each hold a product and a [float]
    amount, the report states as total the sum of the amounts of all the
    items, added in order, rendered with two decimals, and as number of
    transactions the number of items.  For the empty list the total reads
    0.00. *)
Theorem sales_total_is_sum_of_amounts `{Runtime} (data : pyval)
    (sales : list pyval) (rows : list (pyval * float)) (period : pyval)
    (w : World) :
  getitem data "sales" = inr (VList sales) ->
  getitem data "period" = inr period ->
  Forall2 (fun sale row => is_sale sale (fst row) (snd row)) sales rows ->
  SalesReportGenerator.generate_report data w
  = (inr (Report.mk
            (sales_content
               (strftime "%Y-%m-%d %H:%M:%S" (time_at w (reads w))) rows period)
            "sales" "raw" (time_at w (S (reads w))) [("period", period)]),
     ticked (ticked w))
  /\ float_format_2f (float_sum []) = "0.00".
Proof.
  intros Hsales Hperiod Hs. split.
  - by apply (sales_report_of_rows data sales).
  - reflexivity.
Qed.

Lemma sales_total_is_sum_of_amounts_witness :
  SalesReportGenerator.generate_report (H := quoting_runtime) sales_data world0
  = (inr (Report.mk
            (sales_content (H := quoting_runtime)
               (strftime "%Y-%m-%d %H:%M:%S" (time_at world0 (reads world0)))
               sale_rows (VStr "Enero 2024"))
            "sales" "raw" (time_at world0 (S (reads world0)))
            [("period", VStr "Enero 2024")]),
     ticked (ticked world0))
  /\ float_format_2f (float_sum []) = "0.00".
Proof.
  apply (sales_total_is_sum_of_amounts (H := quoting_runtime) sales_data
           (map sale_item sale_rows) sale_rows (VStr "Enero 2024") world0).
  - reflexivity.
  - reflexivity.
  - exact sample_sales_rows.
Defined.

(** No sale at all: the total reads 0.00 and the count 0. *)
Example empty_sales_report :
  sales_content (H := quoting_runtime) "2024-01-15 10:30:00" []
    (VStr "Enero 2024")
  = banner "           REPORTE DE VENTAS" "2024-01-15 10:30:00"
    +:+ "Total de ventas: $0.00" +:+ nl
    +:+ "Número de transacciones: 0" +:+ nl
    +:+ "Periodo: Enero 2024" +:+ nl +:+ nl
    +:+ "Detalle de ventas:" +:+ nl
    +:+ str_repeat "-" 60 +:+ nl.
Proof. vm_compute. reflexivity. Qed.

(** The total of the sample: four items, 1245.48. *)
Example sample_sales_total :
  float_format_2f (float_sum (map snd sale_rows)) = "1245.48"
  /\ length sale_rows = 4%nat.
Proof. split; reflexivity. Qed.

(** *** The inventory report *)

Lemma sum_from_ints (items : list pyval) (rows : list (pyval * string * Z))
    (acc : Z) :
  Forall2 is_item items rows ->
  sum_from (fun item => getitem item "quantity") (VInt acc) items
  = inr (VInt (acc + Z_sum (map snd rows))).
Proof.
  intros Hs. revert acc.
  induction Hs as [|item row items rows (_ & _ & Hq) _ IH]; intros acc.
  - simpl. by rewrite Z.add_0_r.
  - cbn [sum_from]. rewrite Hq. cbn [rbind].
    change (add (VInt acc) (VInt (snd row)))
      with (inr (A := exn) (VInt (acc + snd row))).
    cbn [rbind]. rewrite IH. simpl. do 2 f_equal. lia.
Qed.

Lemma add_key_cons (k c : string) (ks : list string) :
  k ≠ c -> add_key (k :: ks) c = k :: add_key ks c.
Proof.
  intros Hne. unfold add_key.
  destruct (decide (c ∈ ks)) as [Hin|Hin].
  - rewrite decide_True; [done|]. by apply elem_of_cons; right.
  - rewrite decide_False; [done|].
    intros [->|?]%elem_of_cons; done.
Qed.

Lemma add_key_head (c : string) (ks : list string) :
  add_key (c :: ks) c = c :: ks.
Proof. unfold add_key. rewrite decide_True; [done|]. apply elem_of_cons; by left. Qed.

Lemma keys_vdict_set {V : Type} (d : vdict V) (ks : list string) (c : string)
    (v : V) :
  map fst d = map VStr ks ->
  map fst (vdict_set d (VStr c) v) = map VStr (add_key ks c).
Proof.
  revert ks. induction d as [|[k' v'] d IH]; intros ks Hk.
  - destruct ks; [|done]. reflexivity.
  - destruct ks as [|k ks]; [done|]. simpl in Hk.
    injection Hk as -> Hk. simpl.
    destruct (String.eqb k c) eqn:He.
    + apply String.eqb_eq in He as ->. rewrite add_key_head. simpl.
      by rewrite Hk.
    + apply String.eqb_neq in He. rewrite add_key_cons by done. simpl.
      by rewrite (IH _ Hk).
Qed.

Lemma add_key_idemp (ks : list string) (c : string) :
  add_key (add_key ks c) c = add_key ks c.
Proof.
  unfold add_key. destruct (decide (c ∈ ks)) as [Hin|Hin].
  - by rewrite decide_True.
  - rewrite decide_True; [done|].
    apply elem_of_app; right. by apply list_elem_of_singleton.
Qed.

Lemma group_loop_keys (items : list pyval) (rows : list (pyval * string * Z))
    (d : vdict (list pyval)) (ks : list string) :
  Forall2 is_item items rows ->
  map fst d = map VStr ks ->
  exists d',
    InventoryReportGenerator.group_loop d items = inr d'
    /\ map fst d'
       = map VStr (foldl add_key ks (map (fun row => snd (fst row)) rows)).
Proof.
  intros Hs. revert d ks.
  induction Hs as [|item row items rows (_ & Hc & _) _ IH]; intros d ks Hk.
  - by exists d.
  - cbn [InventoryReportGenerator.group_loop]. rewrite Hc.
    cbn [rbind hashable]. cbn [map foldl].
    apply IH.
    destruct (vdict_get d (VStr (snd (fst row)))) as [members|] eqn:Hg.
    + by apply keys_vdict_set.
    + rewrite <- add_key_idemp. apply keys_vdict_set. by apply keys_vdict_set.
Qed.

Lemma foldl_add_key_NoDup (ks cs : list string) :
  NoDup ks -> NoDup (foldl add_key ks cs).
Proof.
  revert ks. induction cs as [|c cs IH]; intros ks Hnd; [done|].
  simpl. apply IH. unfold add_key.
  destruct (decide (c ∈ ks)); [done|].
  apply NoDup_app. split; [done|]. split.
  - intros x Hx ->%list_elem_of_singleton. done.
  - apply NoDup_singleton.
Qed.

Lemma foldl_add_key_elem (ks cs : list string) (x : string) :
  x ∈ foldl add_key ks cs <-> x ∈ ks \/ x ∈ cs.
Proof.
  revert ks. induction cs as [|c cs IH]; intros ks.
  - simpl. split; [by left|]. intros [?|?%elem_of_nil]; done.
  - simpl. rewrite IH. unfold add_key.
    destruct (decide (c ∈ ks)) as [Hin|Hin].
    + rewrite elem_of_cons. split; [tauto|].
      intros [?|[->|?]]; tauto.
    + rewrite elem_of_app, list_elem_of_singleton, elem_of_cons. tauto.
Qed.

Lemma length_first_seen (cs : list string) :
  length (foldl add_key [] cs) = distinct cs.
Proof.
  unfold distinct. rewrite <- (size_list_to_set (C := gset string)).
  - f_equal. apply set_eq. intros x.
    rewrite !elem_of_list_to_set, foldl_add_key_elem.
    split; [|by right]. intros [?%elem_of_nil|?]; done.
  - apply foldl_add_key_NoDup. apply NoDup_nil_2.
Qed.

Lemma item_loop_rows `{Runtime} (items : list pyval)
    (rows : list (pyval * string * Z)) (content : string) :
  Forall2 is_item items rows ->
  InventoryReportGenerator.item_loop content items
  = inr (content +:+ item_lines rows).
Proof.
  intros Hs. revert content.
  induction Hs as [|item row items rows (Hn & Hc & Hq) _ IH]; intros content.
  - simpl. by rewrite append_empty_r.
  - cbn [InventoryReportGenerator.item_loop].
    unfold InventoryReportGenerator.item_line. rewrite Hn, Hc, Hq.
    cbn [rbind]. rewrite IH. cbn [item_lines]. unfold item_text.
    by rewrite append_assoc.
Qed.

(** C8.  For an inventory payload whose items each hold a name, a string
    category and an [int] quantity, the report states as total the sum of
    the quantities, which it also stores in the metadata under
    [total_items], and as number of categories the number of distinct
    category strings. *)
Theorem inventory_totals_and_categories `{Runtime} (data : pyval)
    (items : list pyval) (rows : list (pyval * string * Z)) (w : World) :
  getitem data "items" = inr (VList items) ->
  Forall2 is_item items rows ->
  InventoryReportGenerator.generate_report data w
  = (inr (Report.mk
            (inventory_content
               (strftime "%Y-%m-%d %H:%M:%S" (time_at w (reads w))) rows)
            "inventory" "raw" (time_at w (S (reads w)))
            [("total_items", VInt (Z_sum (map snd rows)))]),
     ticked (ticked w)).
Proof.
  intros Hitems Hs.
  destruct (group_loop_keys items rows [] [] Hs eq_refl) as (cats & Hg & Hk).
  unfold InventoryReportGenerator.generate_report, bind, now, lift.
  rewrite Hitems.
  unfold InventoryReportGenerator._calculate_totals, sum. cbn [iter rbind].
  rewrite (sum_from_ints _ _ _ Hs). rewrite Z.add_0_l.
  unfold InventoryReportGenerator._group_by_category. cbn [iter rbind].
  rewrite Hg.
  rewrite (item_loop_rows _ _ _ Hs).
  assert (Hlen : length cats
                 = distinct (map (fun row => snd (fst row)) rows)).
  { rewrite <- length_first_seen, <- (length_map VStr), <- Hk.
    by rewrite length_map. }
  rewrite Hlen.
  unfold Report.init, bind, now, ret, ticked, inventory_content.
  cbn [truthy reads time_at stdout str].
  do 2 f_equal. f_equal.
  rewrite !append_assoc. reflexivity.
Qed.

Lemma inventory_totals_and_categories_witness :
  InventoryReportGenerator.generate_report (H := quoting_runtime)
    inventory_data world0
  = (inr (Report.mk
            (inventory_content (H := quoting_runtime)
               (strftime "%Y-%m-%d %H:%M:%S" (time_at world0 (reads world0)))
               inventory_rows)
            "inventory" "raw" (time_at world0 (S (reads world0)))
            [("total_items", VInt (Z_sum (map snd inventory_rows)))]),
     ticked (ticked world0)).
Proof.
  apply (inventory_totals_and_categories (H := quoting_runtime) inventory_data
           (map inventory_item inventory_rows) inventory_rows world0).
  - reflexivity.
  - repeat constructor.
Defined.

(** The sample has 115 products in 3 categories; categories that differ
    only in case are two categories. *)
Example sample_inventory_totals :
  Z_sum (map snd inventory_rows) = 115
  /\ distinct (map (fun row => snd (fst row)) inventory_rows) = 3%nat
  /\ distinct ["Accesorios"; "accesorios"] = 2%nat.
Proof. repeat split; vm_compute; reflexivity. Qed.

(** *** The sample sales report, end to end *)

(** The default e-mail delivery always answers [True]. *)
Lemma email_deliver_succeeds `{Runtime} (report : string) (metadata : dict)
    (w : World) :
  EmailDelivery.deliver (EmailDelivery.init None) report metadata w
  = (inr true,
     printed w ["📧 Enviando reporte por email...";
                "   Destinatario: admin@company.com"]).
Proof.
  unfold EmailDelivery.deliver. by run_prints.
Qed.

(** C1, as the code has it.  The sample sales payload (four items, total
    1245.48) requested as [pdf] by [email] on a fresh system yields a
    report whose content is the sales text between the PDF markers, the
    e-mail delivery runs, and exactly one entry is added to the history:
    its type is [sales], but its format is [raw], not [pdf], because the
    builder replaces the content of the report and leaves its format as
    the generator set it. *)
Theorem sample_sales_report_logged_as_raw `{Runtime} (w : World) :
  exists (report : Report.t) (sys' : ReportSystem.t) (w' : World),
    ReportSystem.generate_report ReportSystem.init "sales" sales_data "pdf"
      "email" w = (inr report, sys', w')
    /\ Report.content report
       = "[PDF FORMAT]" +:+ nl
         +:+ sales_content
               (strftime "%Y-%m-%d %H:%M:%S" (time_at w (reads w)))
               sale_rows (VStr "Enero 2024")
         +:+ nl +:+ "[END PDF]"
    /\ float_format_2f (float_sum (map snd sale_rows)) = "1245.48"
    /\ stdout w'
       = stdout w
         ++ ["📄 Generando reporte en formato PDF...";
             "📧 Enviando reporte por email...";
             "   Destinatario: admin@company.com";
             nl +:+ "✅ Reporte generado exitosamente" +:+ nl;
             Report.content report;
             nl +:+ str_repeat "=" 60 +:+ nl]
    /\ ReportSystem.report_history sys'
       = [[("type", VStr "sales");
           ("format", VStr "raw");
           ("timestamp",
             VStr (strftime "%Y-%m-%d %H:%M:%S" (time_at w (S (reads w)))));
           ("metadata", VDict [("period", VStr "Enero 2024")])]].
Proof.
  unfold ReportSystem.generate_report, ReportFactory.create_generator.
  unfold ReportSystem.init, ReportFactory.init.
  cbn [ReportSystem.factory ReportFactory._generators
       ReportSystem._format_strategies ReportSystem._delivery_strategies
       ReportSystem.builder].
  rewrite !lookup_insert_ne by done. rewrite lookup_insert_eq.
  rewrite !lookup_insert_ne by done. rewrite lookup_insert_eq.
  rewrite !lookup_insert_ne by done. rewrite lookup_insert_eq.
  change (IReportGenerator.__bool__ SalesReportGenerator.new) with true.
  change (ReportSystem.usable IFormatStrategy.__bool__ (Some PDFFormatter.new))
    with (Some PDFFormatter.new).
  change (ReportSystem.usable IDeliveryStrategy.__bool__
            (Some (EmailDelivery.new None)))
    with (Some (EmailDelivery.new None)).
  cbn [negb]. cbv beta iota zeta.
  unfold ReportBuilder.build.
  change (ReportBuilder.all_components _) with true.
  cbn [negb ReportBuilder.set_data ReportBuilder.set_delivery
       ReportBuilder.set_formatter ReportBuilder.set_generator
       ReportBuilder.init ReportBuilder._generator ReportBuilder._formatter
       ReportBuilder._delivery ReportBuilder._data].
  unfold bind at 1.
  change (IReportGenerator.generate_report SalesReportGenerator.new)
    with SalesReportGenerator.generate_report.
  rewrite (sales_report_of_rows sales_data _ sale_rows (VStr "Enero 2024") w
             eq_refl eq_refl sample_sales_rows).
  change (IFormatStrategy.format PDFFormatter.new) with PDFFormatter.format.
  change (IDeliveryStrategy.deliver (EmailDelivery.new None))
    with (EmailDelivery.deliver (EmailDelivery.init None)).
  cbv [bind PDFFormatter.format print ret].
  rewrite email_deliver_succeeds.
  eexists _, _, _. split; [reflexivity|].
  split; [reflexivity|]. split; [reflexivity|]. split.
  - cbn [stdout printed ticked Report.set_content Report.content Report.get_content].
    rewrite <- !app_assoc. reflexivity.
  - reflexivity.
Qed.

(** ** Further properties of the report system *)

(** *** The request pipeline, for any registered strategies *)

Lemma generate_report_resolved (sys : ReportSystem.t)
    (report_type output_format delivery_method : string) (data : pyval)
    (g : IReportGenerator.t) (f : IFormatStrategy.t) (d : IDeliveryStrategy.t)
    (w : World) :
  ReportFactory.create_generator (ReportSystem.factory sys) report_type
  = inr g ->
  ReportSystem._format_strategies sys !! output_format = Some f ->
  IFormatStrategy.__bool__ f = true ->
  ReportSystem._delivery_strategies sys !! delivery_method = Some d ->
  IDeliveryStrategy.__bool__ d = true ->
  ReportSystem.generate_report sys report_type data output_format
    delivery_method w
  = match ReportBuilder.build
            (ReportBuilder.mk (Some g) (Some f) (Some d) (Some data)) w with
    | (inl e, w') => (inl e, configured sys g f d data, w')
    | (inr report, w') =>
        (inr report,
         ReportSystem._log_report (configured sys g f d data) report, w')
    end.
Proof.
  intros Hg Hf Hfb Hd Hdb.
  unfold ReportSystem.generate_report.
  rewrite Hg, Hf, Hd. unfold ReportSystem.usable. rewrite Hfb, Hdb.
  reflexivity.
Qed.

Lemma build_runs (g : IReportGenerator.t) (f : IFormatStrategy.t)
    (d : IDeliveryStrategy.t) (data : pyval) (w : World) :
  IReportGenerator.__bool__ g = true ->
  IFormatStrategy.__bool__ f = true ->
  IDeliveryStrategy.__bool__ d = true ->
  truthy data = true ->
  ReportBuilder.build (ReportBuilder.mk (Some g) (Some f) (Some d) (Some data)) w
  = match IReportGenerator.generate_report g data w with
    | (inl e, w1) => (inl e, w1)
    | (inr r, w1) =>
        match IFormatStrategy.format f (Report.content r) w1 with
        | (inl e, w2) => (inl e, w2)
        | (inr s, w2) =>
            match IDeliveryStrategy.deliver d s (Report.get_metadata r) w2 with
            | (inl e, w3) => (inl e, w3)
            | (inr _, w3) =>
                (inr (Report.set_content r s), printed w3 (success_lines s))
            end
        end
    end.
Proof.
  intros Hg Hf Hd Ht. unfold ReportBuilder.build, ReportBuilder.all_components.
  cbn [ReportBuilder._generator ReportBuilder._formatter ReportBuilder._delivery
       ReportBuilder._data]. rewrite Hg, Hf, Hd, Ht. cbn [andb negb].
  unfold bind at 1.
  destruct (IReportGenerator.generate_report g data w) as [[e|r] w1]; [done|].
  unfold bind at 1. unfold Report.get_content.
  destruct (IFormatStrategy.format f (Report.content r) w1) as [[e|s] w2]; [done|].
  unfold bind at 1.
  destruct (IDeliveryStrategy.deliver d s (Report.get_metadata r) w2)
    as [[e|b] w3]; [done|].
  unfold success_lines. run_prints. reflexivity.
Qed.

(** X1.  Whatever the request and whatever strategies are registered,
    [ReportSystem.generate_report] never touches the three registries, and
    the history is append-only: a request that raises leaves it as it was,
    a request that returns a report appends exactly one entry, made of the
    type, format, timestamp and metadata of the report returned. *)
Theorem history_grows_by_the_returned_report (sys : ReportSystem.t)
    (report_type output_format delivery_method : string) (data : pyval)
    (w : World) :
  let '(r, sys', _) :=
    ReportSystem.generate_report sys report_type data output_format
      delivery_method w in
  ReportSystem.factory sys' = ReportSystem.factory sys
  /\ ReportSystem._format_strategies sys' = ReportSystem._format_strategies sys
  /\ ReportSystem._delivery_strategies sys'
     = ReportSystem._delivery_strategies sys
  /\ ReportSystem.get_report_history sys'
     = match r with
       | inl _ => ReportSystem.get_report_history sys
       | inr report =>
           ReportSystem.get_report_history sys ++ [history_entry report]
       end.
Proof.
  unfold ReportSystem.generate_report.
  destruct (ReportFactory.create_generator _ _) as [e|g]; [done|].
  cbv beta iota zeta.
  destruct (ReportSystem.usable _ (_ !! output_format)) as [f|]; [|done].
  destruct (ReportSystem.usable _ (_ !! delivery_method)) as [d|]; [|done].
  destruct (ReportBuilder.build _ w) as [[e|r] w']; done.
Qed.

(** X2.  When the three tags resolve (the factory resolves the type to a
    generator, and a truthy formatter and a truthy delivery are
    registered under the other two), the data is truthy and the
    generator, the formatter and the delivery each return, the request
    returns the generator's report with the formatted text as its content
    (type, format, timestamp and metadata as the generator set them), logs
    it, and prints the three closing lines after everything the
    strategies printed.  The boolean the delivery answers is discarded: a
    delivery that returns [False] gives the same report and the same
    history entry as one that returns [True]. *)
Theorem delivery_answer_is_discarded (sys : ReportSystem.t)
    (report_type output_format delivery_method : string) (data : pyval)
    (g : IReportGenerator.t) (f : IFormatStrategy.t) (d : IDeliveryStrategy.t)
    (r : Report.t) (s : string) (b : bool) (w w1 w2 w3 : World) :
  ReportFactory.create_generator (ReportSystem.factory sys) report_type
  = inr g ->
  ReportSystem._format_strategies sys !! output_format = Some f ->
  IFormatStrategy.__bool__ f = true ->
  ReportSystem._delivery_strategies sys !! delivery_method = Some d ->
  IDeliveryStrategy.__bool__ d = true ->
  truthy data = true ->
  IReportGenerator.generate_report g data w = (inr r, w1) ->
  IFormatStrategy.format f (Report.content r) w1 = (inr s, w2) ->
  IDeliveryStrategy.deliver d s (Report.get_metadata r) w2 = (inr b, w3) ->
  ReportSystem.generate_report sys report_type data output_format
    delivery_method w
  = (inr (Report.set_content r s),
     ReportSystem._log_report (configured sys g f d data)
       (Report.set_content r s),
     printed w3 (success_lines s)).
Proof.
  intros Hg Hf Hfb Hd Hdb Ht Hgen Hfmt Hdel.
  rewrite (generate_report_resolved _ _ _ _ _ g f d) by done.
  apply create_generator_resolved in Hg as [_ Hgb].
  rewrite build_runs by done. by rewrite Hgen, Hfmt, Hdel.
Qed.

Lemma delivery_answer_is_discarded_witness :
  exists (r : Report.t) (s : string) (w3 : World),
    IDeliveryStrategy.deliver refusing_delivery s (Report.get_metadata r)
      (printed (ticked (ticked world0)) ["🌐 Generando reporte en formato HTML..."])
    = (inr false, w3)
    /\ ReportSystem.generate_report custom_system "financial" financial_data
         "html" "refuse" world0
       = (inr (Report.set_content r s),
          ReportSystem._log_report
            (configured custom_system FinancialReportGenerator.new
               HTMLFormatter.new refusing_delivery financial_data)
            (Report.set_content r s),
          printed w3 (success_lines s)).
Proof.
  eexists _, _, _. split; [reflexivity|].
  eapply (delivery_answer_is_discarded custom_system "financial" "html"
            "refuse" financial_data FinancialReportGenerator.new
            HTMLFormatter.new refusing_delivery _ _ false world0).
  - reflexivity.
  - reflexivity.
  - reflexivity.
  - reflexivity.
  - reflexivity.
  - reflexivity.
  - vm_compute. reflexivity.
  - vm_compute. reflexivity.
  - reflexivity.
Defined.

(** X3.  When the three tags resolve (the factory resolves the type to a
    generator, and a truthy formatter and a truthy delivery are
    registered under the other two) and the data is truthy, an
    exception raised by the generator, by the formatter or by the delivery
    reaches the caller as it is, with the effects made up to that point
    left in the world; the builder keeps the components of the request and
    nothing is added to the history. *)
Theorem failed_stage_stops_the_request (sys : ReportSystem.t)
    (report_type output_format delivery_method : string) (data : pyval)
    (g : IReportGenerator.t) (f : IFormatStrategy.t) (d : IDeliveryStrategy.t)
    (w : World) :
  ReportFactory.create_generator (ReportSystem.factory sys) report_type
  = inr g ->
  ReportSystem._format_strategies sys !! output_format = Some f ->
  IFormatStrategy.__bool__ f = true ->
  ReportSystem._delivery_strategies sys !! delivery_method = Some d ->
  IDeliveryStrategy.__bool__ d = true ->
  truthy data = true ->
  (forall e w1,
      IReportGenerator.generate_report g data w = (inl e, w1) ->
      ReportSystem.generate_report sys report_type data output_format
        delivery_method w = (inl e, configured sys g f d data, w1))
  /\ (forall r e w1 w2,
        IReportGenerator.generate_report g data w = (inr r, w1) ->
        IFormatStrategy.format f (Report.content r) w1 = (inl e, w2) ->
        ReportSystem.generate_report sys report_type data output_format
          delivery_method w = (inl e, configured sys g f d data, w2))
  /\ (forall r s e w1 w2 w3,
        IReportGenerator.generate_report g data w = (inr r, w1) ->
        IFormatStrategy.format f (Report.content r) w1 = (inr s, w2) ->
        IDeliveryStrategy.deliver d s (Report.get_metadata r) w2 = (inl e, w3) ->
        ReportSystem.generate_report sys report_type data output_format
          delivery_method w = (inl e, configured sys g f d data, w3))
  /\ ReportSystem.get_report_history (configured sys g f d data)
     = ReportSystem.get_report_history sys.
Proof.
  intros Hg Hf Hfb Hd Hdb Ht.
  rewrite (generate_report_resolved _ _ _ _ _ g f d) by done.
  apply create_generator_resolved in Hg as [_ Hgb].
  rewrite build_runs by done.
  repeat split.
  - intros e w1 ->. done.
  - intros r e w1 w2 -> ->. done.
  - intros r s e w1 w2 w3 -> -> ->. done.
Qed.

Lemma failed_stage_stops_the_request_witness :
  exists w3 : World,
    ReportSystem.generate_report custom_system "financial" financial_data
      "html" "broken" world0
    = (inl (KeyError "recipient"),
       configured custom_system FinancialReportGenerator.new HTMLFormatter.new
         broken_delivery financial_data,
       w3)
    /\ stdout w3 = ["🌐 Generando reporte en formato HTML...";
                    "📧 Enviando reporte por email..."].
Proof.
  destruct (failed_stage_stops_the_request custom_system "financial" "html"
              "broken" financial_data FinancialReportGenerator.new
              HTMLFormatter.new broken_delivery world0
              eq_refl eq_refl eq_refl eq_refl eq_refl eq_refl)
    as (_ & _ & Hdel & _).
  eexists. split.
  - eapply Hdel.
    + vm_compute. reflexivity.
    + vm_compute. reflexivity.
    + vm_compute. reflexivity.
  - reflexivity.
Defined.

(** *** The built-in generators *)

Lemma sales_generator_effects `{Runtime} :
  generator_effects "sales" SalesReportGenerator.new.
Proof.
  intros data w.
  change (IReportGenerator.generate_report SalesReportGenerator.new)
    with SalesReportGenerator.generate_report.
  unfold SalesReportGenerator.generate_report.
  unfold bind at 1. unfold now at 1. cbv beta iota zeta.
  repeat step_lift. done.
Qed.

Lemma inventory_generator_effects `{Runtime} :
  generator_effects "inventory" InventoryReportGenerator.new.
Proof.
  intros data w.
  change (IReportGenerator.generate_report InventoryReportGenerator.new)
    with InventoryReportGenerator.generate_report.
  unfold InventoryReportGenerator.generate_report.
  unfold bind at 1. unfold now at 1. cbv beta iota zeta.
  repeat step_lift. done.
Qed.

Lemma financial_generator_effects :
  generator_effects "financial" FinancialReportGenerator.new.
Proof.
  intros data w.
  change (IReportGenerator.generate_report FinancialReportGenerator.new)
    with FinancialReportGenerator.generate_report.
  unfold FinancialReportGenerator.generate_report.
  unfold bind at 1. unfold now at 1. cbv beta iota zeta.
  repeat step_lift. done.
Qed.

Lemma init_generators `{Runtime} (tag : string) (g : IReportGenerator.t) :
  ReportFactory._generators ReportFactory.init !! tag = Some g ->
  generator_effects tag g.
Proof.
  unfold ReportFactory.init. cbn [ReportFactory._generators].
  intros [[<- <-]|[_ Hg]]%lookup_insert_Some;
    [apply financial_generator_effects|].
  apply lookup_insert_Some in Hg as [[<- <-]|[_ Hg]];
    [apply inventory_generator_effects|].
  apply lookup_insert_Some in Hg as [[<- <-]|[_ Hg]];
    [apply sales_generator_effects|].
  done.
Qed.

Lemma init_generators_truthy `{Runtime} (tag : string)
    (g : IReportGenerator.t) :
  ReportFactory._generators ReportFactory.init !! tag = Some g ->
  IReportGenerator.__bool__ g = true.
Proof.
  unfold ReportFactory.init. cbn [ReportFactory._generators].
  intros [[_ <-]|[_ Hg]]%lookup_insert_Some; [done|].
  apply lookup_insert_Some in Hg as [[_ <-]|[_ Hg]]; [done|].
  apply lookup_insert_Some in Hg as [[_ <-]|[_ Hg]]; done.
Qed.

(** X4.  In a system whose factory is the one [ReportFactory.__init__]
    builds, every request that returns a report, whatever formatter and
    delivery served it and whatever [output_format] was asked for, returns
    a report of the requested type whose format is [raw], and logs it with
    format [raw] and with the second reading of the clock as timestamp. *)
Theorem builtin_generators_are_logged_as_raw `{Runtime} (sys sys' : ReportSystem.t)
    (report_type output_format delivery_method : string) (data : pyval)
    (report : Report.t) (w w' : World) :
  ReportSystem.factory sys = ReportFactory.init ->
  ReportSystem.generate_report sys report_type data output_format
    delivery_method w = (inr report, sys', w') ->
  Report.type report = report_type
  /\ Report.format report = "raw"
  /\ ReportSystem.get_report_history sys'
     = ReportSystem.get_report_history sys
       ++ [[("type", VStr report_type);
            ("format", VStr "raw");
            ("timestamp",
              VStr (strftime "%Y-%m-%d %H:%M:%S" (time_at w (S (reads w)))));
            ("metadata", VDict (Report.metadata report))]].
Proof.
  intros Hfac Hrun.
  unfold ReportSystem.generate_report in Hrun.
  destruct (ReportFactory.create_generator (ReportSystem.factory sys)
              report_type) as [e|g] eqn:Hg; [done|].
  apply create_generator_resolved in Hg as [Hg Hgb].
  rewrite Hfac in Hg. apply init_generators in Hg.
  cbv beta iota zeta in Hrun.
  destruct (ReportSystem.usable IFormatStrategy.__bool__
              (ReportSystem._format_strategies sys !! output_format))
    as [f|] eqn:Hf; [|done].
  apply usable_Some in Hf as [_ Hfb].
  destruct (ReportSystem.usable IDeliveryStrategy.__bool__
              (ReportSystem._delivery_strategies sys !! delivery_method))
    as [d|] eqn:Hd; [|done].
  apply usable_Some in Hd as [_ Hdb].
  destruct (truthy data) eqn:Ht.
  - change (ReportBuilder.set_data _ data)
      with (ReportBuilder.mk (Some g) (Some f) (Some d) (Some data)) in Hrun.
    rewrite build_runs in Hrun by done.
    specialize (Hg data w).
    destruct (IReportGenerator.generate_report g data w) as [[e|r] w1]; [done|].
    destruct Hg as (Hty & Hfmt & Hts & _).
    destruct (IFormatStrategy.format f (Report.content r) w1) as [[e|s] w2];
      [done|].
    destruct (IDeliveryStrategy.deliver d s (Report.get_metadata r) w2)
      as [[e|b] w3]; [done|].
    injection Hrun as <- <- <-.
    cbn [Report.set_content Report.type Report.format Report.metadata].
    unfold ReportSystem.get_report_history, ReportSystem._log_report.
    cbn [ReportSystem.report_history ReportSystem.with_builder
         Report.set_content Report.type Report.format Report.metadata
         Report.timestamp].
    by rewrite Hty, Hfmt, Hts.
  - rewrite report_build_incomplete in Hrun; [done|].
    unfold ReportBuilder.all_components.
    cbn [ReportBuilder.set_data ReportBuilder._data]. rewrite Ht.
    by rewrite !andb_false_r.
Qed.

Lemma builtin_generators_are_logged_as_raw_witness :
  exists (report : Report.t) (sys' : ReportSystem.t) (w' : World),
    ReportSystem.generate_report (ReportSystem.init (H := quoting_runtime))
      "financial" financial_data "html" "cloud" world0 = (inr report, sys', w')
    /\ Report.type report = "financial"
    /\ Report.format report = "raw"
    /\ ReportSystem.get_report_history sys'
       = ReportSystem.get_report_history (ReportSystem.init (H := quoting_runtime))
         ++ [[("type", VStr "financial");
              ("format", VStr "raw");
              ("timestamp",
                VStr (strftime "%Y-%m-%d %H:%M:%S"
                        (time_at world0 (S (reads world0)))));
              ("metadata", VDict (Report.metadata report))]].
Proof.
  eexists _, _, _.
  assert (Hrun : ReportSystem.generate_report
                   (ReportSystem.init (H := quoting_runtime))
                   "financial" financial_data "html" "cloud" world0
                 = (inr _, _, _)) by reflexivity.
  split; [exact Hrun|].
  exact (builtin_generators_are_logged_as_raw (H := quoting_runtime)
           (ReportSystem.init (H := quoting_runtime)) _ "financial" "html"
           "cloud" financial_data _ world0 _ eq_refl Hrun).
Defined.

(** *** The financial report *)

Lemma financial_report_of_floats (data : pyval) (income expenses : float)
    (w : World) :
  getitem data "income" = inr (VFloat income) ->
  getitem data "expenses" = inr (VFloat expenses) ->
  FinancialReportGenerator.generate_report data w
  = (inr (Report.mk
            (financial_content
               (strftime "%Y-%m-%d %H:%M:%S" (time_at w (reads w)))
               income expenses)
            "financial" "raw" (time_at w (S (reads w)))
            [("balance", VFloat (PrimFloat.sub income expenses))]),
     ticked (ticked w)).
Proof.
  intros Hi He.
  unfold FinancialReportGenerator.generate_report, bind, now, lift.
  rewrite Hi, He.
  unfold FinancialReportGenerator._calculate_balance.
  change (sub (VFloat income) (VFloat expenses))
    with (inr (A := exn) (VFloat (PrimFloat.sub income expenses))).
  cbn [format_2f as_num rbind].
  unfold Report.init, bind, now, ret, ticked, financial_content.
  cbn [truthy reads time_at stdout].
  do 2 f_equal. f_equal.
  rewrite !append_assoc. reflexivity.
Qed.

(** X5.  For a financial payload whose income and expenses are floats, the
    report lists the income, the expenses and their difference (the
    binary64 subtraction), each rendered with two decimals, and stores the
    difference in its metadata under [balance]; a negative balance is
    rendered with its sign. *)
Theorem financial_balance_is_income_minus_expenses (data : pyval)
    (income expenses : float) (w : World) :
  getitem data "income" = inr (VFloat income) ->
  getitem data "expenses" = inr (VFloat expenses) ->
  FinancialReportGenerator.generate_report data w
  = (inr (Report.mk
            (financial_content
               (strftime "%Y-%m-%d %H:%M:%S" (time_at w (reads w)))
               income expenses)
            "financial" "raw" (time_at w (S (reads w)))
            [("balance", VFloat (PrimFloat.sub income expenses))]),
     ticked (ticked w)).
Proof. apply financial_report_of_floats. Qed.

Lemma financial_balance_is_income_minus_expenses_witness :
  FinancialReportGenerator.generate_report financial_data world0
  = (inr (Report.mk
            (financial_content "2024-01-15 10:30:00" 50000%float 32000%float)
            "financial" "raw" (clock0 1)
            [("balance", VFloat 18000%float)]),
     ticked (ticked world0))
  /\ float_format_2f (PrimFloat.sub 50000%float 32000%float) = "18000.00"
  /\ float_format_2f (PrimFloat.sub 32000%float 50000%float) = "-18000.00".
Proof.
  split; [|split; vm_compute; reflexivity].
  apply (financial_balance_is_income_minus_expenses financial_data
           50000%float 32000%float world0); reflexivity.
Defined.

(** *** Dictionaries *)

Lemma dict_get_set (d : dict) (k k' : string) (v : pyval) :
  dict_get (dict_set d k v) k'
  = if String.eqb k k' then Some v else dict_get d k'.
Proof.
  induction d as [|[k0 v0] d IH]; simpl.
  - done.
  - destruct (String.eqb k0 k) eqn:E0; simpl.
    + apply String.eqb_eq in E0 as ->.
      by destruct (String.eqb k k').
    + destruct (String.eqb k0 k') eqn:E1.
      * apply String.eqb_eq in E1 as ->.
        by rewrite String.eqb_sym, E0.
      * apply IH.
Qed.

Lemma dict_get_update (d1 d2 : dict) (k : string) :
  NoDup (map fst d2) ->
  dict_get (dict_update d1 d2) k
  = match dict_get d2 k with
    | Some v => Some v
    | None => dict_get d1 k
    end.
Proof.
  unfold dict_update. revert d1.
  induction d2 as [|[k0 v0] d2 IH]; intros d1 Hnd; [done|].
  apply NoDup_cons in Hnd as [Hk0 Hnd]. cbn [fold_left fst snd].
  rewrite IH by done. cbn [dict_get].
  destruct (String.eqb k0 k) eqn:E.
  - apply String.eqb_eq in E as ->.
    assert (dict_get d2 k = None) as ->.
    { clear -Hk0. induction d2 as [|[k1 v1] d2 IH]; [done|].
      simpl. destruct (String.eqb k1 k) eqn:E1.
      - apply String.eqb_eq in E1 as ->. exfalso. apply Hk0. simpl. by left.
      - apply IH. intros Hin. apply Hk0. simpl. by right. }
    by rewrite dict_get_set, String.eqb_refl.
  - rewrite dict_get_set. rewrite E. done.
Qed.

Lemma dict_get_update_absent (d1 d2 : dict) (k : string) :
  dict_get d2 k = None ->
  dict_get (dict_update d1 d2) k = dict_get d1 k.
Proof.
  unfold dict_update. revert d1.
  induction d2 as [|[k0 v0] d2 IH]; intros d1 Hk; [done|].
  cbn [dict_get] in Hk. destruct (String.eqb k0 k) eqn:E; [done|].
  cbn [fold_left fst snd]. rewrite IH by done.
  by rewrite dict_get_set, E.
Qed.

(** *** Metadata and delivery strategies *)

(** X6.  [Report.get_metadata] is the report's own metadata laid over the
    three standard keys: looking a key up gives the value the report's
    metadata has for it, and only when it has none the type, the format
    or the formatted timestamp of the report; any other key is absent. *)
Theorem report_metadata_overrides_the_defaults (r : Report.t) (k : string) :
  NoDup (map fst (Report.metadata r)) ->
  dict_get (Report.get_metadata r) k
  = match dict_get (Report.metadata r) k with
    | Some v => Some v
    | None =>
        if String.eqb "type" k then Some (VStr (Report.type r))
        else if String.eqb "format" k then Some (VStr (Report.format r))
        else if String.eqb "timestamp" k then
          Some (VStr (strftime "%Y-%m-%d %H:%M:%S" (Report.timestamp r)))
        else None
    end.
Proof.
  intros Hnd. unfold Report.get_metadata. by rewrite dict_get_update.
Qed.

Lemma report_metadata_overrides_the_defaults_witness :
  dict_get
    (Report.get_metadata
       (Report.mk "c" "sales" "raw" (clock0 1)
          [("period", VStr "Enero 2024"); ("type", VStr "ventas")]))
    "type"
  = Some (VStr "ventas")
  /\ dict_get
       (Report.get_metadata
          (Report.mk "c" "sales" "raw" (clock0 1)
             [("period", VStr "Enero 2024"); ("type", VStr "ventas")]))
       "format"
     = Some (VStr "raw").
Proof.
  split.
  - apply (report_metadata_overrides_the_defaults
             (Report.mk "c" "sales" "raw" (clock0 1)
                [("period", VStr "Enero 2024"); ("type", VStr "ventas")])
             "type").
    refine (bool_decide_unpack _ _). vm_compute. exact I.
  - apply (report_metadata_overrides_the_defaults
             (Report.mk "c" "sales" "raw" (clock0 1)
                [("period", VStr "Enero 2024"); ("type", VStr "ventas")])
             "format").
    refine (bool_decide_unpack _ _). vm_compute. exact I.
Defined.

(** X7.  On the metadata of a report whose own metadata redefines neither
    [type] nor [format], [DownloadDelivery.deliver] never raises: it reads
    the clock once, prints the file name
    [report_<type>_<YYYYmmdd_HHMMSS>.<format>] and its location under the
    download path, and answers [True]. *)
Theorem download_names_the_file_after_the_report `{Runtime}
    (self : DownloadDelivery.t) (report : string) (r : Report.t) (w : World) :
  dict_get (Report.metadata r) "type" = None ->
  dict_get (Report.metadata r) "format" = None ->
  DownloadDelivery.deliver self report (Report.get_metadata r) w
  = (inr true,
     printed (ticked w)
       ["💾 Reporte disponible para descarga: "
        +:+ download_name (Report.type r)
              (strftime "%Y%m%d_%H%M%S" (time_at w (reads w)))
              (Report.format r);
        "   Ubicación: " +:+ DownloadDelivery.download_path self +:+ "/"
        +:+ download_name (Report.type r)
              (strftime "%Y%m%d_%H%M%S" (time_at w (reads w)))
              (Report.format r)]).
Proof.
  intros Hty Hfmt. unfold DownloadDelivery.deliver, getitem, Report.get_metadata.
  rewrite !dict_get_update_absent by done.
  cbn [dict_get String.eqb Ascii.eqb Bool.eqb].
  unfold bind, lift, now, print, ret, printed, ticked, download_name.
  cbn [str time_at reads stdout]. rewrite <- !app_assoc. reflexivity.
Qed.

Lemma download_names_the_file_after_the_report_witness :
  DownloadDelivery.deliver (H := quoting_runtime) (DownloadDelivery.init "./reports")
    "text"
    (Report.get_metadata
       (Report.mk "c" "inventory" "raw" (clock0 1)
          [("total_items", VInt 115)]))
    (ticked (ticked world0))
  = (inr true,
     printed (ticked (ticked (ticked world0)))
       ["💾 Reporte disponible para descarga: report_inventory_20240115_103002.raw";
        "   Ubicación: ./reports/report_inventory_20240115_103002.raw"]).
Proof.
  apply (download_names_the_file_after_the_report (H := quoting_runtime)
           (DownloadDelivery.init "./reports") "text"
           (Report.mk "c" "inventory" "raw" (clock0 1)
              [("total_items", VInt 115)])
           (ticked (ticked world0))); reflexivity.
Defined.

(** X8.  [EmailDelivery]: an empty configuration is replaced by the default
    one, with which [deliver] prints the administrator's address and
    answers [True] whatever the report; with a configuration that has a
    [recipient] it prints that recipient; with a non-empty configuration
    without [recipient] it raises [KeyError('recipient')] after its first
    line has been printed. *)
Theorem email_delivery_needs_a_recipient `{Runtime} :
  EmailDelivery.init (Some []) = EmailDelivery.init None
  /\ (forall (report : string) (metadata : dict) (w : World),
        EmailDelivery.deliver (EmailDelivery.init None) report metadata w
        = (inr true,
           printed w ["📧 Enviando reporte por email...";
                      "   Destinatario: admin@company.com"]))
  /\ (forall (cfg : dict) (recipient : pyval) (report : string)
         (metadata : dict) (w : World),
        dict_get cfg "recipient" = Some recipient ->
        EmailDelivery.deliver (EmailDelivery.init (Some cfg)) report metadata w
        = (inr true,
           printed w ["📧 Enviando reporte por email...";
                      "   Destinatario: " +:+ str recipient]))
  /\ (forall (cfg : dict) (report : string) (metadata : dict) (w : World),
        cfg <> [] ->
        dict_get cfg "recipient" = None ->
        EmailDelivery.deliver (EmailDelivery.init (Some cfg)) report metadata w
        = (inl (KeyError "recipient"),
           printed w ["📧 Enviando reporte por email..."])).
Proof.
  split; [reflexivity|]. split; [apply email_deliver_succeeds|]. split.
  - intros cfg recipient report metadata w Hr.
    assert (Hcfg : EmailDelivery.smtp_config (EmailDelivery.init (Some cfg)) = cfg).
    { destruct cfg; [done|reflexivity]. }
    unfold EmailDelivery.deliver, getitem. rewrite Hcfg, Hr. by run_prints.
  - intros cfg report metadata w Hne Hr.
    assert (Hcfg : EmailDelivery.smtp_config (EmailDelivery.init (Some cfg)) = cfg).
    { destruct cfg; [done|reflexivity]. }
    unfold EmailDelivery.deliver, getitem. rewrite Hcfg, Hr. by run_prints.
Qed.

(** X9.  [CloudDelivery]: an empty configuration is replaced by the default
    one, with which [deliver] prints the URL of the report's type and
    answers [True] on the metadata of any report that does not redefine
    [type]; a non-empty configuration without [base_url] raises
    [KeyError('base_url')], and metadata without [type] raises
    [KeyError('type')], each after the first line has been printed. *)
Theorem cloud_delivery_needs_a_base_url `{Runtime} :
  CloudDelivery.init (Some []) = CloudDelivery.init None
  /\ (forall (report : string) (r : Report.t) (w : World),
        dict_get (Report.metadata r) "type" = None ->
        CloudDelivery.deliver (CloudDelivery.init None) report
          (Report.get_metadata r) w
        = (inr true,
           printed w ["☁️  Subiendo reporte a la nube...";
                      "   URL: https://cloud.company.com/reports/"
                      +:+ Report.type r]))
  /\ (forall (cfg : dict) (report : string) (metadata : dict) (w : World),
        cfg <> [] ->
        dict_get cfg "base_url" = None ->
        CloudDelivery.deliver (CloudDelivery.init (Some cfg)) report metadata w
        = (inl (KeyError "base_url"),
           printed w ["☁️  Subiendo reporte a la nube..."]))
  /\ (forall (cfg : dict) (base_url : pyval) (report : string)
         (metadata : dict) (w : World),
        dict_get cfg "base_url" = Some base_url ->
        dict_get metadata "type" = None ->
        CloudDelivery.deliver (CloudDelivery.init (Some cfg)) report metadata w
        = (inl (KeyError "type"),
           printed w ["☁️  Subiendo reporte a la nube..."])).
Proof.
  split; [reflexivity|]. split; [|split].
  - intros report r w Hty.
    unfold CloudDelivery.deliver, getitem, Report.get_metadata.
    rewrite dict_get_update_absent by done.
    cbn [CloudDelivery.init CloudDelivery.cloud_config dict_get String.eqb
         Ascii.eqb Bool.eqb].
    run_prints. reflexivity.
  - intros cfg report metadata w Hne Hr.
    assert (Hcfg : CloudDelivery.cloud_config (CloudDelivery.init (Some cfg)) = cfg).
    { destruct cfg; [done|reflexivity]. }
    unfold CloudDelivery.deliver, getitem. rewrite Hcfg, Hr. by run_prints.
  - intros cfg base_url report metadata w Hr Hty.
    assert (Hcfg : CloudDelivery.cloud_config (CloudDelivery.init (Some cfg)) = cfg).
    { destruct cfg; [done|reflexivity]. }
    unfold CloudDelivery.deliver, getitem. rewrite Hcfg, Hr, Hty. by run_prints.
Qed.

(** *** Format strategies *)

Lemma append_cons (a : ascii) (x y : string) :
  String a x +:+ y = String a (x +:+ y).
Proof. reflexivity. Qed.

Lemma length_append (x y : string) :
  String.length (x +:+ y) = (String.length x + String.length y)%nat.
Proof.
  induction x as [|a x IH]; [done|].
  rewrite append_cons. simpl. by rewrite IH.
Qed.

Lemma append_inj_l (a x y : string) : a +:+ x = a +:+ y -> x = y.
Proof.
  induction a as [|c a IH]; [done|].
  rewrite !append_cons. intros [= Heq]. by apply IH.
Qed.

Lemma append_inj_r (b x y : string) : x +:+ b = y +:+ b -> x = y.
Proof.
  revert y. induction x as [|c x IH]; intros [|c' y] Heq.
  - done.
  - apply (f_equal String.length) in Heq.
    rewrite !length_append in Heq. simpl in Heq. lia.
  - apply (f_equal String.length) in Heq.
    rewrite !length_append in Heq. simpl in Heq. lia.
  - rewrite !append_cons in Heq. injection Heq as -> Heq. f_equal. by apply IH.
Qed.

(** X10.  Each of the three formatters prints one line, never raises, and
    puts the content between its own markers; the content can be
    recovered from the result (two contents with the same formatted text
    are equal), and the results of two different formatters are never
    equal. *)
Theorem formatters_wrap_without_loss :
  (forall (c : string) (w : World),
      PDFFormatter.format c w
      = (inr ("[PDF FORMAT]" +:+ nl +:+ c +:+ nl +:+ "[END PDF]"),
         printed w ["📄 Generando reporte en formato PDF..."])
      /\ ExcelFormatter.format c w
         = (inr ("[EXCEL FORMAT]" +:+ nl +:+ c +:+ nl +:+ "[END EXCEL]"),
            printed w ["📊 Generando reporte en formato Excel..."])
      /\ HTMLFormatter.format c w
         = (inr ("<html><body><pre>" +:+ c +:+ "</pre></body></html>"),
            printed w ["🌐 Generando reporte en formato HTML..."]))
  /\ (forall (f : IFormatStrategy.t) (c c' : string) (w w' : World),
        f ∈ [PDFFormatter.new; ExcelFormatter.new; HTMLFormatter.new] ->
        fst (IFormatStrategy.format f c w) = fst (IFormatStrategy.format f c' w') ->
        c = c')
  /\ (forall (c c' : string) (w w' : World),
        fst (PDFFormatter.format c w) <> fst (ExcelFormatter.format c' w')
        /\ fst (PDFFormatter.format c w) <> fst (HTMLFormatter.format c' w')
        /\ fst (ExcelFormatter.format c w) <> fst (HTMLFormatter.format c' w')).
Proof.
  split; [done|]. split.
  - intros f c c' w w' Hf Heq.
    apply elem_of_cons in Hf as [->|Hf];
      [|apply elem_of_cons in Hf as [->|Hf];
        [|apply list_elem_of_singleton in Hf as ->]].
    + injection Heq as Heq.
      apply append_inj_l in Heq. by apply append_inj_r in Heq.
    + injection Heq as Heq.
      apply append_inj_l in Heq. by apply append_inj_r in Heq.
    + injection Heq as Heq.
      apply append_inj_l in Heq. by apply append_inj_r in Heq.
  - intros c c' w w'. repeat split; intros Heq; by injection Heq.
Qed.

(** ** Further properties of the order notifier *)

(** *** The loop over the channels *)

Lemma notify_grows_by_at_most_one `{Runtime} (mgr : NotificationManager.t)
    (order : Order.t) (channel : string) (w : World) :
  exists added,
    fst (NotificationManager.notify mgr order channel w)
    = NotificationManager.mk (NotificationManager.factory mgr)
        (builder_for order channel)
        (NotificationRepository.mk
           (NotificationRepository._storage (NotificationManager.repository mgr)
            ++ added))
    /\ (length added <= 1)%nat.
Proof.
  unfold NotificationManager.notify, NotificationManager.attempt,
    NotificationManager._create_notification.
  change (MessageBuilder.set_channel _ channel) with (builder_for order channel).
  assert (Hnil : forall m : NotificationManager.t,
             NotificationManager.with_message_builder m (builder_for order channel)
             = NotificationManager.mk (NotificationManager.factory m)
                 (builder_for order channel)
                 (NotificationRepository.mk
                    (NotificationRepository._storage
                       (NotificationManager.repository m) ++ []))).
  { intros [f b [st]]. unfold NotificationManager.with_message_builder.
    cbn. by rewrite app_nil_r. }
  destruct (MessageBuilder.build (builder_for order channel)) as [e|message].
  { exists []. split; [apply Hnil|simpl; lia]. }
  destruct (Customer.get_contact_info (Order.customer order) channel)
    as [recipient|].
  2: { exists []. split; [apply Hnil|simpl; lia]. }
  destruct (Notification.init channel recipient message (Order.order_id order) w)
    as [[e|n] w1].
  { exists []. split; [apply Hnil|simpl; lia]. }
  destruct (NotificationFactory.create_notifier _ channel) as [e|notifier].
  { exists []. split; [apply Hnil|simpl; lia]. }
  destruct (INotificationStrategy.send notifier n w1) as [[e|[success n']] w2].
  { exists []. split; [apply Hnil|simpl; lia]. }
  exists [n']. split; [|simpl; lia].
  by destruct success.
Qed.

(** X11.  Whatever notifiers are registered and whatever the channels,
    [send_notifications] leaves the registry of notifiers unchanged and
    only appends to the repository: what was stored stays, in order, and
    at most one notification is added per channel. *)
Theorem send_notifications_is_append_only `{Runtime}
    (mgr : NotificationManager.t) (order : Order.t) (channels : list string)
    (w : World) :
  exists added,
    NotificationManager.factory
      (fst (NotificationManager.send_notifications mgr order channels w))
    = NotificationManager.factory mgr
    /\ NotificationRepository._storage
         (NotificationManager.repository
            (fst (NotificationManager.send_notifications mgr order channels w)))
       = NotificationRepository._storage (NotificationManager.repository mgr)
         ++ added
    /\ (length added <= length channels)%nat.
Proof.
  unfold NotificationManager.send_notifications.
  destruct (NotificationManager.header order w) as [r0 w0]. clear r0 w.
  revert mgr w0. induction channels as [|channel rest IH]; intros mgr w.
  - exists []. simpl. by rewrite app_nil_r.
  - cbn [NotificationManager.notify_all].
    destruct (notify_grows_by_at_most_one mgr order channel w)
      as (added1 & Hm & Hlen1).
    destruct (NotificationManager.notify mgr order channel w) as [mgr1 w1].
    cbn [fst] in Hm.
    destruct (IH mgr1 w1) as (added2 & Hf & Hs & Hlen2).
    exists (added1 ++ added2). rewrite Hf, Hs, Hm. cbn.
    rewrite <- app_assoc, length_app. repeat split. lia.
Qed.

Lemma notify_without_contact `{Runtime}
    (mgr : NotificationManager.t) (order : Order.t) (channel : string)
    (w : World) :
  Customer.get_contact_info (Order.customer order) channel = None ->
  NotificationManager.notify mgr order channel w
  = (NotificationManager.mk (NotificationManager.factory mgr)
       (builder_for order channel) (NotificationManager.repository mgr),
     printed w ["❌ Error al enviar por " +:+ channel +:+ ": "
                +:+ contact_error channel +:+ nl]).
Proof.
  intros Hc.
  unfold NotificationManager.notify, NotificationManager.attempt,
    NotificationManager._create_notification.
  change (MessageBuilder.set_channel _ channel) with (builder_for order channel).
  rewrite Hc. unfold contact_error.
  unfold MessageBuilder.build, MessageBuilder.all_components,
    MessageBuilder._apply_template, builder_for.
  cbn [MessageBuilder._order MessageBuilder._customer MessageBuilder._channel
       not_none andb truthy].
  destruct (String.eqb channel "") eqn:He; reflexivity.
Qed.

(** X12.  A channel for which the customer has no contact information
    (a contact that is [None], or a channel [get_contact_info] does not
    know) is skipped, whether or not a notifier is registered for it: the
    turn stores nothing, reads no clock, and prints the error of the
    missing contact (for the empty channel, of the missing message
    data). *)
Theorem channel_without_contact_is_skipped `{Runtime}
    (mgr : NotificationManager.t) (order : Order.t) (channel : string)
    (w : World) :
  Customer.get_contact_info (Order.customer order) channel = None ->
  NotificationManager.notify mgr order channel w
  = (NotificationManager.mk (NotificationManager.factory mgr)
       (builder_for order channel) (NotificationManager.repository mgr),
     printed w ["❌ Error al enviar por " +:+ channel +:+ ": "
                +:+ contact_error channel +:+ nl]).
Proof. apply notify_without_contact. Qed.

Lemma channel_without_contact_is_skipped_witness :
  NotificationManager.notify (H := quoting_runtime)
    (NotificationManager.init (H := quoting_runtime)) order_no_phone "sms" world0
  = (NotificationManager.mk
       (NotificationManager.factory (NotificationManager.init (H := quoting_runtime)))
       (builder_for order_no_phone "sms")
       (NotificationManager.repository
          (NotificationManager.init (H := quoting_runtime))),
     printed world0
       ["❌ Error al enviar por sms: "
        +:+ "No se encontró información de contacto para el canal sms" +:+ nl]).
Proof.
  apply (channel_without_contact_is_skipped (H := quoting_runtime)
           (NotificationManager.init (H := quoting_runtime)) order_no_phone
           "sms" world0).
  reflexivity.
Defined.

Lemma sms_send_valid `{Runtime} (n : Notification.t) (w : World) :
  SMSNotifier._validate_phone (Notification.recipient n) = true ->
  SMSNotifier.send n w
  = (inr (true, Notification.mark_as_sent n),
     printed w
       ["📱 SMS enviado a " +:+ Notification.recipient n;
        "   Mensaje: " +:+ str_take 160 (Notification.message n) +:+ nl]).
Proof.
  intros Hv. unfold SMSNotifier.send, try_except. rewrite Hv. by run_prints.
Qed.

Lemma push_send_invalid `{Runtime} (n : Notification.t) (w : World) :
  PushNotifier._validate_device (Notification.recipient n) = false ->
  PushNotifier.send n w
  = (inr (false, Notification.mark_as_failed n "Device ID inválido"), w).
Proof.
  intros Hv. unfold PushNotifier.send, try_except. by rewrite Hv.
Qed.

Lemma validate_phone_ltb (phone : string) :
  SMSNotifier._validate_phone phone = Nat.ltb 10 (str_len phone).
Proof.
  destruct (Nat.ltb 10 (str_len phone)) eqn:Hl.
  - apply validate_phone_length. by apply Nat.ltb_lt.
  - destruct (SMSNotifier._validate_phone phone) eqn:Hv; [|done].
    apply validate_phone_length, Nat.ltb_lt in Hv. congruence.
Qed.

Lemma contact_channel (c : Customer.t) (channel recipient : string) :
  Customer.get_contact_info c channel = Some recipient ->
  channel = "email" \/ channel = "sms" \/ channel = "push".
Proof.
  unfold Customer.get_contact_info.
  destruct (String.eqb channel "email") eqn:E1;
    [apply String.eqb_eq in E1; auto|].
  destruct (String.eqb channel "sms") eqn:E2;
    [apply String.eqb_eq in E2; auto|].
  destruct (String.eqb channel "push") eqn:E3;
    [apply String.eqb_eq in E3; auto|].
  done.
Qed.

Lemma notify_builtin `{Runtime} (mgr : NotificationManager.t)
    (order : Order.t) (channel recipient : string) (w : World) :
  NotificationManager.factory mgr = NotificationFactory.init ->
  Customer.get_contact_info (Order.customer order) channel = Some recipient ->
  exists n w',
    NotificationManager.notify mgr order channel w
    = (NotificationManager.mk (NotificationManager.factory mgr)
         (builder_for order channel)
         (NotificationRepository.save (NotificationManager.repository mgr) n),
       w')
    /\ Notification.type n = channel
    /\ Notification.recipient n = recipient
    /\ made_for order n /\ settled n.
Proof.
  intros Hf Hc.
  destruct (contact_channel _ _ _ Hc) as [-> | [-> | ->]].
  - eexists _, _. split.
    + eapply (notify_delivers mgr order "email" recipient); [reflexivity|done| | |].
      * rewrite Hf. reflexivity.
      * reflexivity.
      * apply email_send.
    + done.
  - destruct (SMSNotifier._validate_phone recipient) eqn:Hv.
    + eexists _, _. split.
      * eapply (notify_delivers mgr order "sms" recipient); [reflexivity|done| | |].
        -- rewrite Hf. reflexivity.
        -- reflexivity.
        -- by apply sms_send_valid.
      * rewrite validate_phone_ltb in Hv.
        repeat split; try done. unfold settled, accepts.
        cbn -[Nat.ltb str_len String.prefix]. by rewrite Hv.
    + eexists _, _. split.
      * eapply (notify_delivers mgr order "sms" recipient); [reflexivity|done| | |].
        -- rewrite Hf. reflexivity.
        -- reflexivity.
        -- by apply sms_send_invalid.
      * rewrite validate_phone_ltb in Hv.
        repeat split; try done. unfold settled, accepts.
        cbn -[Nat.ltb str_len String.prefix]. by rewrite Hv.
  - destruct (PushNotifier._validate_device recipient) eqn:Hv.
    + eexists _, _. split.
      * eapply (notify_delivers mgr order "push" recipient); [reflexivity|done| | |].
        -- rewrite Hf. reflexivity.
        -- reflexivity.
        -- by apply push_send_valid.
      * rewrite validate_device_prefix in Hv.
        repeat split; try done. unfold settled, accepts.
        cbn -[Nat.ltb str_len String.prefix]. by rewrite Hv.
    + eexists _, _. split.
      * eapply (notify_delivers mgr order "push" recipient); [reflexivity|done| | |].
        -- rewrite Hf. reflexivity.
        -- reflexivity.
        -- by apply push_send_invalid.
      * rewrite validate_device_prefix in Hv.
        repeat split; try done. unfold settled, accepts.
        cbn -[Nat.ltb str_len String.prefix]. by rewrite Hv.
Qed.

(** X13.  With the notifiers [NotificationFactory.__init__] registers, a
    call of [send_notifications] stores exactly one notification for each
    requested channel the customer has a contact for, in the order of the
    request and repeated channels included; each carries the order's id,
    that contact and the channel's message, and is marked sent when the
    notifier accepts the contact (always for email, a phone of more than
    ten characters, a device id starting with DEVICE-) and failed with
    the notifier's error otherwise. *)
Theorem builtin_fan_out `{Runtime} (mgr : NotificationManager.t)
    (order : Order.t) (channels : list string) (w : World) :
  NotificationManager.factory mgr = NotificationFactory.init ->
  exists added,
    NotificationRepository._storage
      (NotificationManager.repository
         (fst (NotificationManager.send_notifications mgr order channels w)))
    = NotificationRepository._storage (NotificationManager.repository mgr)
      ++ added
    /\ map Notification.type added
       = filter
           (fun channel =>
              is_Some (Customer.get_contact_info (Order.customer order) channel))
           channels
    /\ Forall (fun n => made_for order n /\ settled n) added.
Proof.
  intros Hf. unfold NotificationManager.send_notifications.
  destruct (NotificationManager.header order w) as [r0 w0]. clear r0 w.
  revert mgr Hf w0. induction channels as [|channel rest IH]; intros mgr Hf w.
  - exists []. simpl. by rewrite app_nil_r.
  - cbn [NotificationManager.notify_all].
    destruct (Customer.get_contact_info (Order.customer order) channel)
      as [recipient|] eqn:Hc.
    + destruct (notify_builtin mgr order channel recipient w Hf Hc)
        as (n & w' & -> & Hty & Hr & Hm & Hs).
      destruct (IH (NotificationManager.mk (NotificationManager.factory mgr)
                      (builder_for order channel)
                      (NotificationRepository.save
                         (NotificationManager.repository mgr) n)) Hf w')
        as (added & Hst & Hmap & Hall).
      exists (n :: added). split; [|split].
      * rewrite Hst. cbn. by rewrite <- app_assoc.
      * rewrite filter_cons_True by (by rewrite Hc).
        cbn [map]. by rewrite Hty, Hmap.
      * by constructor.
    + rewrite notify_without_contact by done.
      destruct (IH (NotificationManager.mk (NotificationManager.factory mgr)
                      (builder_for order channel)
                      (NotificationManager.repository mgr)) Hf
                  (printed w ["❌ Error al enviar por " +:+ channel +:+ ": "
                              +:+ contact_error channel +:+ nl]))
        as (added & Hst & Hmap & Hall).
      exists added. split; [by rewrite Hst|]. split; [|done].
      rewrite filter_cons_False; [done|]. rewrite Hc. by intros [? ?].
Qed.

Lemma builtin_fan_out_witness :
  exists added,
    NotificationRepository._storage
      (NotificationManager.repository
         (fst (NotificationManager.send_notifications (H := quoting_runtime)
                 (NotificationManager.init (H := quoting_runtime))
                 order_no_phone ["push"; "fax"; "sms"; "email"] world0)))
    = NotificationRepository._storage
        (NotificationManager.repository
           (NotificationManager.init (H := quoting_runtime)))
      ++ added
    /\ map Notification.type added = ["push"; "email"]
    /\ Forall (fun n => made_for order_no_phone n /\ settled n) added.
Proof.
  exact (builtin_fan_out (H := quoting_runtime)
           (NotificationManager.init (H := quoting_runtime)) order_no_phone
           ["push"; "fax"; "sms"; "email"] world0 eq_refl).
Defined.

(** *** Strings: prefixes and substrings *)

Lemma length_str_take (n : nat) (s : string) :
  str_len (str_take n s) = Nat.min n (str_len s).
Proof.
  revert n. induction s as [|c s IH]; intros n; [by destruct n|].
  cbn [str_take str_len]. destruct (is_continuation c) eqn:Hc.
  - cbn [str_len]. by rewrite Hc, IH.
  - destruct n as [|n]; [done|]. cbn [str_len]. by rewrite Hc, IH.
Qed.

Lemma str_take_split (n : nat) (s : string) :
  exists rest, s = str_take n s +:+ rest.
Proof.
  revert n. induction s as [|c s IH]; intros n; [by exists ""|].
  cbn [str_take]. destruct (is_continuation c).
  - destruct (IH n) as (rest & Hr). exists rest.
    rewrite append_cons. by rewrite <- Hr.
  - destruct n as [|n]; [by eexists|].
    destruct (IH n) as (rest & Hr). exists rest.
    rewrite append_cons. by rewrite <- Hr.
Qed.

Lemma str_take_all (n : nat) (s : string) :
  (str_len s <= n)%nat -> str_take n s = s.
Proof.
  revert n. induction s as [|c s IH]; intros n Hl; [done|].
  cbn [str_take str_len] in *. destruct (is_continuation c).
  - by rewrite IH.
  - destruct n as [|n]; [lia|]. rewrite IH; [done|lia].
Qed.

Lemma prefix_split (p s : string) :
  String.prefix p s = true -> exists rest, s = p +:+ rest.
Proof.
  revert s. induction p as [|c p IH]; intros s Hp.
  - by exists s.
  - destruct s as [|c' s]; [done|]. simpl in Hp.
    destruct (ascii_dec c c') as [->|]; [|done].
    destruct (IH s Hp) as (rest & ->). by exists rest.
Qed.

Lemma str_contains_spec (sub s : string) :
  str_contains sub s = true <-> exists a b, s = a +:+ sub +:+ b.
Proof.
  split.
  - induction s as [|c s IH]; cbn [str_contains].
    + rewrite orb_false_r. intros (rest & ->)%prefix_split. by exists "", rest.
    + intros [Hp|Hc]%orb_true_iff.
      * apply prefix_split in Hp as (rest & ->). by exists "", rest.
      * destruct (IH Hc) as (a & b & ->). by exists (String c a), b.
  - intros (a & b & ->). induction a as [|c a IH].
    + change ("" +:+ sub +:+ b) with (sub +:+ b).
      destruct (sub +:+ b) eqn:E; cbn [str_contains];
        rewrite <- ?E, prefix_app; done.
    + rewrite append_cons. cbn [str_contains]. rewrite IH. apply orb_true_r.
Qed.

Lemma str_contains_middle (a sub b : string) :
  str_contains sub (a +:+ sub +:+ b) = true.
Proof. apply str_contains_spec. by exists a, b. Qed.

(** *** The notifiers' texts *)

(** X14.  [SMSNotifier._format_sms] keeps the first 160 characters of the
    message, a character of several bytes counting once: its result is
    a prefix of the message, of [min(160, len(message))] characters, and
    a message of at most 160 characters is left as it is. *)
Theorem sms_text_is_cut_at_160 (message : string) :
  str_len (SMSNotifier._format_sms message) = Nat.min 160 (str_len message)
  /\ (exists rest, message = SMSNotifier._format_sms message +:+ rest)
  /\ ((str_len message <= 160)%nat ->
      SMSNotifier._format_sms message = message).
Proof.
  unfold SMSNotifier._format_sms. split; [apply length_str_take|].
  split; [apply str_take_split|apply str_take_all].
Qed.

(** A message of 160 characters one of which takes two bytes is left as
    it is; of 161 characters, it loses the last one. *)
Example sms_text_of_160_characters :
  str_len (str_repeat "a" 159 +:+ "ñ") = 160%nat
  /\ String.length (str_repeat "a" 159 +:+ "ñ") = 161%nat
  /\ SMSNotifier._format_sms (str_repeat "a" 159 +:+ "ñ")
     = str_repeat "a" 159 +:+ "ñ"
  /\ SMSNotifier._format_sms (str_repeat "a" 159 +:+ "ñ" +:+ "b")
     = str_repeat "a" 159 +:+ "ñ".
Proof. repeat split; vm_compute; reflexivity. Qed.

(** X15.  Whatever the builder held before, after [set_order],
    [set_customer] and [set_channel] with a non-empty channel [build]
    returns a message: for email, sms and push it contains the order id
    after a [#] and the total with two decimals after a [$], for email
    also the customer's name; for any other channel it is the fixed text
    "Pedido confirmado". *)
Theorem message_names_the_order_and_the_total (b : MessageBuilder.t)
    (order : Order.t) (customer : Customer.t) (channel : string) :
  channel <> "" ->
  exists message,
    MessageBuilder.build
      (MessageBuilder.set_channel
         (MessageBuilder.set_customer (MessageBuilder.set_order b order) customer)
         channel)
    = inr message
    /\ (default_channel channel = true ->
        str_contains ("#" +:+ Order.order_id order) message = true
        /\ str_contains ("$" +:+ float_format_2f (Order.total order)) message
           = true)
    /\ (channel = "email" ->
        str_contains (Customer.name customer) message = true)
    /\ (default_channel channel = false -> message = "Pedido confirmado").
Proof.
  intros Hne. apply String.eqb_neq in Hne.
  unfold MessageBuilder.build, MessageBuilder.all_components,
    MessageBuilder._apply_template, MessageBuilder._personalize, default_channel.
  cbn [MessageBuilder.set_channel MessageBuilder.set_customer
       MessageBuilder.set_order MessageBuilder._order MessageBuilder._customer
       MessageBuilder._channel not_none andb truthy].
  rewrite Hne. cbn [negb rbind].
  destruct (String.eqb channel "email") eqn:E1.
  { eexists. split; [reflexivity|]. split; [|split; [|done]].
    - intros _. split.
      + rewrite <- (append_assoc "Estimado " (Customer.name customer)).
        rewrite <- (append_assoc _ ", su pedido ").
        rewrite <- (append_assoc "#" (Order.order_id order)).
        apply str_contains_middle.
      + rewrite <- (append_assoc "Estimado " (Customer.name customer)).
        rewrite <- (append_assoc _ ", su pedido ").
        rewrite <- (append_assoc _ "#").
        rewrite <- (append_assoc _ (Order.order_id order)).
        change (" por $" +:+ ?x) with (" por " +:+ "$" +:+ x).
        rewrite <- (append_assoc _ " por ").
        rewrite <- (append_assoc "$").
        apply str_contains_middle.
    - intros _. apply str_contains_middle. }
  destruct (String.eqb channel "sms") eqn:E2.
  { eexists. split; [reflexivity|]. split; [|split; [by intros ->|done]].
    intros _. split.
    + change ("Pedido #" +:+ ?x) with ("Pedido " +:+ "#" +:+ x).
      rewrite <- (append_assoc "#" (Order.order_id order)).
      apply str_contains_middle.
    + change ("Pedido #" +:+ ?x) with ("Pedido " +:+ "#" +:+ x).
      rewrite <- (append_assoc _ "#").
      rewrite <- (append_assoc _ (Order.order_id order)).
      rewrite <- (append_assoc _ " confirmado. ").
      change ("Total: $" +:+ ?x) with ("Total: " +:+ "$" +:+ x).
      rewrite <- (append_assoc _ "Total: ").
      rewrite <- (append_assoc "$").
      apply str_contains_middle. }
  destruct (String.eqb channel "push") eqn:E3.
  { eexists. split; [reflexivity|]. split; [|split; [by intros ->|done]].
    intros _. split.
    + change ("¡Pedido confirmado! #" +:+ ?x)
        with ("¡Pedido confirmado! " +:+ "#" +:+ x).
      rewrite <- (append_assoc "#" (Order.order_id order)).
      apply str_contains_middle.
    + apply str_contains_spec.
      exists ("¡Pedido confirmado! #" +:+ Order.order_id order +:+ " - "), "".
      rewrite !append_assoc. by rewrite append_empty_r. }
  eexists. split; [reflexivity|]. split; [done|]. split; [by intros ->|done].
Qed.

Lemma message_names_the_order_and_the_total_witness :
  exists message,
    MessageBuilder.build
      (MessageBuilder.set_channel
         (MessageBuilder.set_customer
            (MessageBuilder.set_order MessageBuilder.init order1) ana)
         "sms")
    = inr message
    /\ (default_channel "sms" = true ->
        str_contains ("#" +:+ Order.order_id order1) message = true
        /\ str_contains ("$" +:+ float_format_2f (Order.total order1)) message
           = true)
    /\ ("sms" = "email" -> str_contains (Customer.name ana) message = true)
    /\ (default_channel "sms" = false -> message = "Pedido confirmado").
Proof.
  apply (message_names_the_order_and_the_total MessageBuilder.init order1 ana
           "sms").
  discriminate.
Defined.

(** *** The repository *)

(** X16.  [find_by_order] on an empty repository finds nothing; after
    [save] it returns what it returned before, followed by the saved
    notification when that belongs to the order; and it returns exactly
    the stored notifications of the order. *)
Theorem find_by_order_after_save (repo : NotificationRepository.t)
    (n : Notification.t) (order_id : string) :
  NotificationRepository.find_by_order NotificationRepository.init order_id = []
  /\ NotificationRepository.find_by_order
       (NotificationRepository.save repo n) order_id
     = NotificationRepository.find_by_order repo order_id
       ++ (if String.eqb (Notification.order_id n) order_id then [n] else [])
  /\ (forall m,
        m ∈ NotificationRepository.find_by_order repo order_id
        <-> m ∈ NotificationRepository._storage repo
            /\ Notification.order_id m = order_id).
Proof.
  split; [done|]. split.
  - unfold NotificationRepository.find_by_order, NotificationRepository.save.
    cbn [NotificationRepository._storage]. rewrite filter_app. f_equal.
    destruct (String.eqb (Notification.order_id n) order_id) eqn:E.
    + by rewrite filter_cons_True.
    + rewrite filter_cons_False; [done|]. by rewrite E.
  - intros m. unfold NotificationRepository.find_by_order.
    rewrite list_elem_of_filter, String.eqb_eq. tauto.
Qed.

(** X17.  [find_by_customer] is a substring search on the recipient: it
    returns exactly the stored notifications whose recipient contains the
    text somewhere, hence every stored notification for the empty text,
    and a notification just saved is found by its own recipient. *)
Theorem find_by_customer_is_a_substring_search
    (repo : NotificationRepository.t) (text : string) :
  (forall m,
      m ∈ NotificationRepository.find_by_customer repo text
      <-> m ∈ NotificationRepository._storage repo
          /\ exists a b, Notification.recipient m = a +:+ text +:+ b)
  /\ NotificationRepository.find_by_customer repo ""
     = NotificationRepository._storage repo
  /\ (forall n,
        NotificationRepository.find_by_customer
          (NotificationRepository.save repo n) (Notification.recipient n)
        = NotificationRepository.find_by_customer repo (Notification.recipient n)
          ++ [n]).
Proof.
  unfold NotificationRepository.find_by_customer. split; [|split].
  - intros m. rewrite list_elem_of_filter, str_contains_spec. tauto.
  - induction (NotificationRepository._storage repo) as [|m l IH]; [done|].
    rewrite filter_cons_True; [by rewrite IH|].
    apply str_contains_spec. by exists "", (Notification.recipient m).
  - intros n. unfold NotificationRepository.save.
    cbn [NotificationRepository._storage]. rewrite filter_app. f_equal.
    rewrite filter_cons_True; [done|].
    apply str_contains_spec. exists "", "".
    change ("" +:+ Notification.recipient n +:+ "")
      with (Notification.recipient n +:+ ""). by rewrite append_empty_r.
Qed.

(** *** Customers *)

(** X18.  A customer created without preferences, or with an empty list of
    them, prefers the email channel and no other; created with a
    non-empty list, exactly the channels of the list. *)
Theorem customer_prefers_email_by_default (name : string)
    (email phone device_id : option string) (channel : string) :
  Customer.prefers_channel
    (Customer.init name email phone device_id None) channel
  = String.eqb channel "email"
  /\ Customer.prefers_channel
       (Customer.init name email phone device_id (Some [])) channel
     = String.eqb channel "email"
  /\ (forall preferences : list string,
        preferences <> [] ->
        (Customer.prefers_channel
           (Customer.init name email phone device_id (Some preferences)) channel
         = true
         <-> channel ∈ preferences)).
Proof.
  split; [|split].
  - unfold Customer.prefers_channel. simpl. apply orb_false_r.
  - unfold Customer.prefers_channel. simpl. apply orb_false_r.
  - intros preferences Hne. destruct preferences as [|c cs]; [done|].
    unfold Customer.prefers_channel, Customer.init.
    cbn [Customer.notification_preferences].
    rewrite existsb_exists. split.
    + intros (x & Hin & ->%String.eqb_eq). by apply list_elem_of_In.
    + intros Hin. exists channel. split; [by apply list_elem_of_In|].
      apply String.eqb_refl.
Qed.

(** ** The original script: [Originales/gestor_documentos.py] *)

Lemma original_wrap_returns (output_format report_content : string) (w : World) :
  exists s w',
    Original.ReportSystem.wrap output_format report_content w = (inr s, w')
    /\ (known_format output_format = false -> s = "" /\ w' = w).
Proof.
  unfold Original.ReportSystem.wrap, known_format.
  destruct (String.eqb output_format "pdf"); [by eexists _, _|].
  destruct (String.eqb output_format "excel"); [by eexists _, _|].
  destruct (String.eqb output_format "html"); [by eexists _, _|].
  by eexists _, _.
Qed.

Lemma original_announce_returns (report_type output_format delivery_method : string)
    (w : World) :
  exists w',
    Original.ReportSystem.announce report_type output_format delivery_method w
    = (inr tt, w').
Proof.
  unfold Original.ReportSystem.announce.
  destruct (String.eqb delivery_method "email"); [by eexists|].
  destruct (String.eqb delivery_method "download"); [by eexists|].
  destruct (String.eqb delivery_method "cloud"); by eexists.
Qed.

Lemma original_generate_report_runs `{Runtime}
    (self : Original.ReportSystem.t)
    (report_type output_format delivery_method : string) (data : pyval)
    (w : World) :
  Original.ReportSystem.generate_report self report_type data output_format
    delivery_method w
  = match Original.ReportSystem.content report_type
            (strftime "%Y-%m-%d %H:%M:%S" (time_at w (reads w))) data with
    | inl e => (inl e, self, ticked w)
    | inr report_content =>
        match Original.ReportSystem.wrap output_format report_content
                (ticked w) with
        | (inr formatted_report, w1) =>
            match Original.ReportSystem.announce report_type output_format
                    delivery_method w1 with
            | (inr _, w2) =>
                (inr formatted_report,
                 Original.ReportSystem.mk
                   (Original.ReportSystem.reports_generated self
                    ++ [original_entry report_type output_format
                          delivery_method w]),
                 printed w2 (success_lines formatted_report))
            | (inl e, w2) => (inl e, self, w2)
            end
        | (inl e, w1) => (inl e, self, w1)
        end
    end.
Proof.
  unfold Original.ReportSystem.generate_report, Original.ReportSystem.prepare.
  unfold bind at 1. unfold now at 1. cbv beta iota.
  unfold bind at 1. unfold lift at 1.
  change (mk_World (time_at w) (S (reads w)) (stdout w)) with (ticked w).
  destruct (Original.ReportSystem.content _ _ data) as [e|c]; [done|].
  cbv beta iota. unfold bind at 1.
  destruct (Original.ReportSystem.wrap output_format c (ticked w))
    as [[e|s] w1]; [done|].
  unfold bind at 1.
  destruct (Original.ReportSystem.announce _ _ _ w1) as [[e|[]] w2]; [done|].
  unfold ret at 1. cbv beta iota. unfold success_lines, original_entry.
  run_prints. reflexivity.
Qed.

(** X19.  The original [generate_report] logs a request exactly when it
    returns: a call that raises (while it reads the payload) leaves the
    history as it was, a call that returns appends one entry holding the
    requested type, format and delivery method and, as timestamp, the
    first reading of the clock. *)
Theorem original_logs_what_was_requested `{Runtime}
    (self : Original.ReportSystem.t)
    (report_type output_format delivery_method : string) (data : pyval)
    (w : World) :
  let '(r, self', _) :=
    Original.ReportSystem.generate_report self report_type data output_format
      delivery_method w in
  Original.ReportSystem.get_report_history self'
  = match r with
    | inl _ => Original.ReportSystem.get_report_history self
    | inr _ =>
        Original.ReportSystem.get_report_history self
        ++ [original_entry report_type output_format delivery_method w]
    end.
Proof.
  rewrite original_generate_report_runs.
  destruct (Original.ReportSystem.content _ _ data) as [e|c]; [done|].
  destruct (original_wrap_returns output_format c (ticked w))
    as (s & w1 & -> & _).
  destruct (original_announce_returns report_type output_format
              delivery_method w1) as (w2 & ->).
  done.
Qed.

(** X20.  The original script rejects no tag.  For a type that is none of
    sales, inventory and financial it never reads the payload: it returns
    normally and logs the request, where the refactored system raises
    the unknown-type error; for a format that is none of pdf, excel and
    html it returns the empty text and logs the request. *)
Theorem original_accepts_unknown_tags `{Runtime}
    (self : Original.ReportSystem.t)
    (report_type output_format delivery_method : string) (data : pyval)
    (w : World) :
  (known_type report_type = false ->
   exists text w',
     Original.ReportSystem.generate_report self report_type data output_format
       delivery_method w
     = (inr text,
        Original.ReportSystem.mk
          (Original.ReportSystem.reports_generated self
           ++ [original_entry report_type output_format delivery_method w]),
        w')
     /\ fst (fst (ReportSystem.generate_report ReportSystem.init report_type
                    data output_format delivery_method w))
        = inl (ValueError ("Tipo de reporte no soportado: " +:+ report_type)))
  /\ (known_format output_format = false ->
      forall report_content,
        Original.ReportSystem.content report_type
          (strftime "%Y-%m-%d %H:%M:%S" (time_at w (reads w))) data
        = inr report_content ->
        exists w',
          Original.ReportSystem.generate_report self report_type data
            output_format delivery_method w
          = (inr "",
             Original.ReportSystem.mk
               (Original.ReportSystem.reports_generated self
                ++ [original_entry report_type output_format delivery_method w]),
             w')).
Proof.
  split.
  - intros Hk. rewrite original_generate_report_runs.
    assert (Hc : Original.ReportSystem.content report_type
                   (strftime "%Y-%m-%d %H:%M:%S" (time_at w (reads w))) data
                 = inr "").
    { unfold Original.ReportSystem.content. unfold known_type in Hk.
      destruct (String.eqb report_type "sales"); [done|].
      destruct (String.eqb report_type "inventory"); [done|].
      destruct (String.eqb report_type "financial"); done. }
    rewrite Hc.
    destruct (original_wrap_returns output_format "" (ticked w))
      as (s & w1 & -> & _).
    destruct (original_announce_returns report_type output_format
                delivery_method w1) as (w2 & ->).
    eexists _, _. split; [reflexivity|].
    unfold ReportSystem.generate_report, ReportFactory.create_generator.
    assert (Hn : ReportFactory._generators
                   (ReportSystem.factory ReportSystem.init) !! report_type
                 = None).
    { unfold known_type in Hk.
      apply orb_false_iff in Hk as [[H1 H2]%orb_false_iff H3].
      apply String.eqb_neq in H1, H2, H3.
      unfold ReportSystem.init, ReportFactory.init.
      cbn [ReportSystem.factory ReportFactory._generators].
      by rewrite !lookup_insert_ne by done. }
    by rewrite Hn.
  - intros Hk c Hc. rewrite original_generate_report_runs, Hc.
    destruct (original_wrap_returns output_format c (ticked w))
      as (s & w1 & -> & Hs). destruct (Hs Hk) as [-> ->].
    destruct (original_announce_returns report_type output_format
                delivery_method (ticked w)) as (w2 & ->).
    by eexists.
Qed.

(** *** The refactoring keeps the text of the reports *)

Lemma heading_banner (title timestamp : string) :
  Original.ReportSystem.heading "" title timestamp = banner title timestamp.
Proof.
  unfold Original.ReportSystem.heading, banner.
  change ("" +:+ ?x) with x. by rewrite !append_assoc.
Qed.

Lemma sales_loop_floats `{Runtime} (sales : list pyval)
    (rows : list (pyval * float)) (report_content : string) :
  Forall2 (fun sale row => is_sale sale (fst row) (snd row)) sales rows ->
  Original.ReportSystem.sales_loop report_content sales
  = inr (report_content +:+ sale_lines rows).
Proof.
  intros Hs. revert report_content.
  induction Hs as [|sale row sales rows [Hp Ha] _ IH]; intros report_content.
  - simpl. by rewrite append_empty_r.
  - cbn [Original.ReportSystem.sales_loop]. rewrite Hp, Ha.
    cbn [rbind format_2f as_num]. rewrite IH.
    cbn [sale_lines]. unfold sale_line. by rewrite append_assoc.
Qed.

Lemma original_sales_content `{Runtime} (data : pyval) (sales : list pyval)
    (rows : list (pyval * float)) (period : pyval) (timestamp : string) :
  getitem data "sales" = inr (VList sales) ->
  getitem data "period" = inr period ->
  Forall2 (fun sale row => is_sale sale (fst row) (snd row)) sales rows ->
  Original.ReportSystem.content "sales" timestamp data
  = inr (sales_content timestamp rows period).
Proof.
  intros Hsales Hperiod Hs.
  destruct (calculate_totals_floats sales rows Hs) as (total & Ht & Hf).
  change (SalesReportGenerator._calculate_totals (VList sales))
    with (sum (fun item => getitem item "amount") sales) in Ht.
  unfold Original.ReportSystem.content. cbn [String.eqb Ascii.eqb Bool.eqb].
  unfold Original.ReportSystem.sales_branch.
  rewrite heading_banner, Hsales. cbn [rbind iter len].
  rewrite Ht. cbn [rbind]. rewrite Hf. cbn [rbind].
  rewrite Hperiod. cbn [rbind].
  rewrite (sales_loop_floats _ _ _ Hs).
  rewrite (Forall2_length _ _ _ Hs).
  unfold sales_content. f_equal. by rewrite !append_assoc.
Qed.

Lemma items_loop_rows `{Runtime} (items : list pyval)
    (rows : list (pyval * string * Z)) (report_content : string) :
  Forall2 is_item items rows ->
  Original.ReportSystem.items_loop report_content items
  = inr (report_content +:+ item_lines rows).
Proof.
  intros Hs. revert report_content.
  induction Hs as [|item row items rows (Hn & Hc & Hq) _ IH];
    intros report_content.
  - simpl. by rewrite append_empty_r.
  - cbn [Original.ReportSystem.items_loop]. rewrite Hn, Hc, Hq.
    cbn [rbind]. rewrite IH. cbn [item_lines]. unfold item_text.
    by rewrite append_assoc.
Qed.

Lemma category_set_keys (items : list pyval) (rows : list (pyval * string * Z))
    (seen : vdict unit) (ks : list string) :
  Forall2 is_item items rows ->
  map fst seen = map VStr ks ->
  exists seen',
    Original.ReportSystem.category_set seen items = inr seen'
    /\ map fst seen'
       = map VStr (foldl add_key ks (map (fun row => snd (fst row)) rows)).
Proof.
  intros Hs. revert seen ks.
  induction Hs as [|item row items rows (_ & Hc & _) _ IH]; intros seen ks Hk.
  - by exists seen.
  - cbn [Original.ReportSystem.category_set]. rewrite Hc.
    cbn [rbind hashable]. cbn [map foldl].
    apply IH. by apply keys_vdict_set.
Qed.

Lemma original_inventory_content `{Runtime} (data : pyval) (items : list pyval)
    (rows : list (pyval * string * Z)) (timestamp : string) :
  getitem data "items" = inr (VList items) ->
  Forall2 is_item items rows ->
  Original.ReportSystem.content "inventory" timestamp data
  = inr (inventory_content timestamp rows).
Proof.
  intros Hitems Hs.
  destruct (category_set_keys items rows [] [] Hs eq_refl) as (cats & Hg & Hk).
  unfold Original.ReportSystem.content. cbn [String.eqb Ascii.eqb Bool.eqb].
  unfold Original.ReportSystem.inventory_branch.
  rewrite heading_banner, Hitems. cbn [rbind iter].
  unfold sum. rewrite (sum_from_ints _ _ _ Hs). rewrite Z.add_0_l.
  cbn [rbind]. rewrite Hg. cbn [rbind].
  rewrite (items_loop_rows _ _ _ Hs).
  assert (Hlen : length cats
                 = distinct (map (fun row => snd (fst row)) rows)).
  { rewrite <- length_first_seen, <- (length_map VStr), <- Hk.
    by rewrite length_map. }
  rewrite Hlen. unfold inventory_content. cbn [str].
  f_equal. by rewrite !append_assoc.
Qed.

Lemma original_financial_content `{Runtime} (data : pyval)
    (income expenses : float) (timestamp : string) :
  getitem data "income" = inr (VFloat income) ->
  getitem data "expenses" = inr (VFloat expenses) ->
  Original.ReportSystem.content "financial" timestamp data
  = inr (financial_content timestamp income expenses).
Proof.
  intros Hi He.
  unfold Original.ReportSystem.content. cbn [String.eqb Ascii.eqb Bool.eqb].
  unfold Original.ReportSystem.financial_branch.
  rewrite heading_banner, Hi, He. cbn [rbind format_2f as_num].
  change (sub (VFloat income) (VFloat expenses))
    with (inr (A := exn) (VFloat (PrimFloat.sub income expenses))).
  cbn [rbind format_2f as_num].
  unfold financial_content. f_equal. by rewrite !append_assoc.
Qed.

Lemma inventory_report_of_rows `{Runtime} (data : pyval)
    (items : list pyval) (rows : list (pyval * string * Z)) (w : World) :
  getitem data "items" = inr (VList items) ->
  Forall2 is_item items rows ->
  InventoryReportGenerator.generate_report data w
  = (inr (Report.mk
            (inventory_content
               (strftime "%Y-%m-%d %H:%M:%S" (time_at w (reads w))) rows)
            "inventory" "raw" (time_at w (S (reads w)))
            [("total_items", VInt (Z_sum (map snd rows)))]),
     ticked (ticked w)).
Proof.
  intros Hitems Hs.
  destruct (group_loop_keys items rows [] [] Hs eq_refl) as (cats & Hg & Hk).
  unfold InventoryReportGenerator.generate_report, bind, now, lift.
  rewrite Hitems.
  unfold InventoryReportGenerator._calculate_totals, sum. cbn [iter rbind].
  rewrite (sum_from_ints _ _ _ Hs). rewrite Z.add_0_l.
  unfold InventoryReportGenerator._group_by_category. cbn [iter rbind].
  rewrite Hg.
  rewrite (item_loop_rows _ _ _ Hs).
  assert (Hlen : length cats
                 = distinct (map (fun row => snd (fst row)) rows)).
  { rewrite <- length_first_seen, <- (length_map VStr), <- Hk.
    by rewrite length_map. }
  rewrite Hlen.
  unfold Report.init, bind, now, ret, ticked, inventory_content.
  cbn [truthy reads time_at stdout str].
  do 2 f_equal. f_equal.
  rewrite !append_assoc. reflexivity.
Qed.

(** The registered formatters and deliveries do what the branches of the
    original do. *)
Lemma default_formatter_is_the_original_wrap `{Runtime} (output_format : string) :
  output_format ∈ ["pdf"; "excel"; "html"] ->
  exists f,
    ReportSystem._format_strategies ReportSystem.init !! output_format = Some f
    /\ IFormatStrategy.__bool__ f = true
    /\ forall (report_content : string) (w : World),
         IFormatStrategy.format f report_content w
         = Original.ReportSystem.wrap output_format report_content w.
Proof.
  intros Hin.
  apply elem_of_cons in Hin as [->|Hin];
    [|apply elem_of_cons in Hin as [->|Hin];
      [|apply list_elem_of_singleton in Hin as ->]].
  - exists PDFFormatter.new. split; [|split]; reflexivity.
  - exists ExcelFormatter.new. split; [|split]; reflexivity.
  - exists HTMLFormatter.new. split; [|split]; reflexivity.
Qed.

Lemma download_deliver_report `{Runtime} (self : DownloadDelivery.t)
    (report : string) (r : Report.t) (w : World) :
  dict_get (Report.metadata r) "type" = None ->
  dict_get (Report.metadata r) "format" = None ->
  DownloadDelivery.deliver self report (Report.get_metadata r) w
  = (inr true,
     printed (ticked w)
       ["💾 Reporte disponible para descarga: "
        +:+ download_name (Report.type r)
              (strftime "%Y%m%d_%H%M%S" (time_at w (reads w)))
              (Report.format r);
        "   Ubicación: " +:+ DownloadDelivery.download_path self +:+ "/"
        +:+ download_name (Report.type r)
              (strftime "%Y%m%d_%H%M%S" (time_at w (reads w)))
              (Report.format r)]).
Proof.
  intros Hty Hfmt. unfold DownloadDelivery.deliver, getitem, Report.get_metadata.
  rewrite !dict_get_update_absent by done.
  cbn [dict_get String.eqb Ascii.eqb Bool.eqb].
  unfold bind, lift, now, print, ret, printed, ticked, download_name.
  cbn [str time_at reads stdout]. rewrite <- !app_assoc. reflexivity.
Qed.

Lemma cloud_deliver_report `{Runtime} (report : string) (r : Report.t)
    (w : World) :
  dict_get (Report.metadata r) "type" = None ->
  CloudDelivery.deliver (CloudDelivery.init None) report
    (Report.get_metadata r) w
  = (inr true,
     printed w ["☁️  Subiendo reporte a la nube...";
                "   URL: https://cloud.company.com/reports/"
                +:+ Report.type r]).
Proof.
  intros Hty.
  unfold CloudDelivery.deliver, getitem, Report.get_metadata.
  rewrite dict_get_update_absent by done.
  cbn [CloudDelivery.init CloudDelivery.cloud_config dict_get String.eqb
       Ascii.eqb Bool.eqb].
  run_prints. reflexivity.
Qed.

Lemma default_delivery_is_the_original_announce `{Runtime}
    (output_format delivery_method : string) :
  delivery_method ∈ ["email"; "download"; "cloud"] ->
  exists d,
    ReportSystem._delivery_strategies ReportSystem.init !! delivery_method
    = Some d
    /\ IDeliveryStrategy.__bool__ d = true
    /\ forall (report : string) (r : Report.t) (w : World),
         dict_get (Report.metadata r) "type" = None ->
         dict_get (Report.metadata r) "format" = None ->
         exists w',
           IDeliveryStrategy.deliver d report (Report.get_metadata r) w
           = (inr true, w')
           /\ (delivery_method <> "download" ->
               Original.ReportSystem.announce (Report.type r) output_format
                 delivery_method w = (inr tt, w')).
Proof.
  intros Hin.
  apply elem_of_cons in Hin as [->|Hin];
    [|apply elem_of_cons in Hin as [->|Hin];
      [|apply list_elem_of_singleton in Hin as ->]].
  - exists (EmailDelivery.new None). split; [reflexivity|].
    split; [reflexivity|]. intros report r w _ _. eexists. split.
    + apply email_deliver_succeeds.
    + intros _. unfold Original.ReportSystem.announce.
      cbn [String.eqb Ascii.eqb Bool.eqb]. by run_prints.
  - exists DownloadDelivery.new. split; [reflexivity|].
    split; [reflexivity|]. intros report r w Hty Hfmt. eexists. split.
    + by apply download_deliver_report.
    + done.
  - exists (CloudDelivery.new None). split; [reflexivity|].
    split; [reflexivity|]. intros report r w Hty _. eexists. split.
    + by apply cloud_deliver_report.
    + intros _. unfold Original.ReportSystem.announce.
      cbn [String.eqb Ascii.eqb Bool.eqb]. by run_prints.
Qed.

Lemma same_report_text `{Runtime} (old : Original.ReportSystem.t)
    (g : IReportGenerator.t)
    (report_type output_format delivery_method : string) (data : pyval)
    (c : string) (md : dict) (w : World) :
  ReportFactory._generators ReportFactory.init !! report_type = Some g ->
  truthy data = true ->
  Original.ReportSystem.content report_type
    (strftime "%Y-%m-%d %H:%M:%S" (time_at w (reads w))) data = inr c ->
  IReportGenerator.generate_report g data w
  = (inr (Report.mk c report_type "raw" (time_at w (S (reads w))) md),
     ticked (ticked w)) ->
  dict_get md "type" = None ->
  dict_get md "format" = None ->
  output_format ∈ ["pdf"; "excel"; "html"] ->
  delivery_method ∈ ["email"; "download"; "cloud"] ->
  exists (text : string) (report : Report.t) (old' : Original.ReportSystem.t)
    (sys' : ReportSystem.t) (w1 w2 : World),
    Original.ReportSystem.generate_report old report_type data output_format
      delivery_method w = (inr text, old', w1)
    /\ ReportSystem.generate_report ReportSystem.init report_type data
         output_format delivery_method w = (inr report, sys', w2)
    /\ Report.content report = text
    /\ (delivery_method <> "download" -> stdout w2 = stdout w1).
Proof.
  intros Hg Ht Hc Hgen Hty Hfmt Hf Hd.
  destruct (default_formatter_is_the_original_wrap output_format Hf)
    as (f & Hlf & Hfb & Hwrap).
  destruct (default_delivery_is_the_original_announce output_format
              delivery_method Hd) as (d & Hld & Hdb & Hann).
  pose proof (init_generators_truthy report_type g Hg) as Hgb.
  assert (Hcg : ReportFactory.create_generator ReportFactory.init report_type
                = inr g) by (by apply create_generator_resolved).
  rewrite original_generate_report_runs, Hc.
  rewrite (generate_report_resolved ReportSystem.init report_type output_format
             delivery_method data g f d w Hcg Hlf Hfb Hld Hdb).
  rewrite build_runs by done. rewrite Hgen. cbn [Report.content].
  rewrite Hwrap.
  destruct (original_wrap_returns output_format c (ticked w))
    as (s & w1 & Hw & _).
  (* the clock of the formatter: the generator has read it once more *)
  assert (Hw2 : exists w1',
             Original.ReportSystem.wrap output_format c (ticked (ticked w))
             = (inr s, w1')
             /\ stdout w1' = stdout w1
             /\ time_at w1' = time_at w1).
  { revert Hw. unfold Original.ReportSystem.wrap.
    destruct (String.eqb output_format "pdf");
      [intros [= <- <-]; by eexists|].
    destruct (String.eqb output_format "excel");
      [intros [= <- <-]; by eexists|].
    destruct (String.eqb output_format "html");
      [intros [= <- <-]; by eexists|].
    intros [= <- <-]; by eexists. }
  destruct Hw2 as (w1' & Hw' & Hout & Htime). rewrite Hw, Hw'.
  destruct (Hann s (Report.mk c report_type "raw" (time_at w (S (reads w))) md)
              w1' Hty Hfmt) as (w2' & Hdel & Hsame).
  rewrite Hdel.
  destruct (original_announce_returns report_type output_format
              delivery_method w1) as (w2 & Ha). rewrite Ha.
  eexists _, _, _, _, _, _. split; [reflexivity|]. split; [reflexivity|].
  split; [reflexivity|].
  intros Hnd. specialize (Hsame Hnd). cbn [Report.type] in Hsame.
  cbn [printed stdout]. f_equal.
  (* both announcements print the same lines after the same console *)
  revert Ha Hsame. unfold Original.ReportSystem.announce.
  destruct (String.eqb delivery_method "email").
  { unfold bind, print. cbn. intros [= <-] [= <-]. cbn. by rewrite Hout. }
  destruct (String.eqb delivery_method "download") eqn:E.
  { by apply String.eqb_eq in E. }
  destruct (String.eqb delivery_method "cloud").
  { unfold bind, print. cbn. intros [= <-] [= <-]. cbn. by rewrite Hout. }
  unfold ret. intros [= <-] [= <-]. done.
Qed.

Lemma getitem_truthy (data : pyval) (k : string) (v : pyval) :
  getitem data k = inr v -> truthy data = true.
Proof. by destruct data as [| | | | | |[|kv d]]. Qed.

(** X21.  For a sales payload whose items each hold a product and a float
    amount, and for each of the three formats and the three delivery
    methods, the original script and the refactored system with its default
    registries, started in the same world, both return normally and the
    content of the refactored system's report is the very text the
    original returns; for the email and cloud deliveries the two also
    leave the same lines on the console. *)
Theorem refactoring_preserves_the_sales_text `{Runtime}
    (old : Original.ReportSystem.t) (data : pyval) (sales : list pyval)
    (rows : list (pyval * float)) (period : pyval)
    (output_format delivery_method : string) (w : World) :
  getitem data "sales" = inr (VList sales) ->
  getitem data "period" = inr period ->
  Forall2 (fun sale row => is_sale sale (fst row) (snd row)) sales rows ->
  output_format ∈ ["pdf"; "excel"; "html"] ->
  delivery_method ∈ ["email"; "download"; "cloud"] ->
  exists (text : string) (report : Report.t) (old' : Original.ReportSystem.t)
    (sys' : ReportSystem.t) (w1 w2 : World),
    Original.ReportSystem.generate_report old "sales" data output_format
      delivery_method w = (inr text, old', w1)
    /\ ReportSystem.generate_report ReportSystem.init "sales" data
         output_format delivery_method w = (inr report, sys', w2)
    /\ Report.content report = text
    /\ (delivery_method <> "download" -> stdout w2 = stdout w1).
Proof.
  intros Hsales Hperiod Hs Hf Hd.
  apply (same_report_text old SalesReportGenerator.new "sales" output_format
           delivery_method data
           (sales_content (strftime "%Y-%m-%d %H:%M:%S" (time_at w (reads w)))
              rows period)
           [("period", period)] w); try done.
  - by apply (getitem_truthy data "sales" (VList sales)).
  - by apply (original_sales_content data sales).
  - by apply (sales_report_of_rows data sales).
Qed.

Lemma refactoring_preserves_the_sales_text_witness :
  exists (text : string) (report : Report.t) (old' : Original.ReportSystem.t)
    (sys' : ReportSystem.t) (w1 w2 : World),
    Original.ReportSystem.generate_report (H := quoting_runtime)
      Original.ReportSystem.init "sales" sales_data "pdf" "email" world0
    = (inr text, old', w1)
    /\ ReportSystem.generate_report (ReportSystem.init (H := quoting_runtime))
         "sales" sales_data "pdf" "email" world0 = (inr report, sys', w2)
    /\ Report.content report = text
    /\ ("email" <> "download" -> stdout w2 = stdout w1).
Proof.
  apply (refactoring_preserves_the_sales_text (H := quoting_runtime)
           Original.ReportSystem.init sales_data (map sale_item sale_rows)
           sale_rows (VStr "Enero 2024") "pdf" "email" world0).
  - reflexivity.
  - reflexivity.
  - exact sample_sales_rows.
  - repeat constructor.
  - repeat constructor.
Defined.

(** X22.  For an inventory payload whose items each hold a name, a string
    category and an int quantity, and for each of the three formats and
    the three delivery methods, the original script and the refactored system with its default
    registries, started in the same world, both return normally and the
    content of the refactored system's report is the very text the
    original returns; for the email and cloud deliveries the two also
    leave the same lines on the console.
    In particular counting the categories with a [set] and counting the
    groups of [_group_by_category] agree. *)
Theorem refactoring_preserves_the_inventory_text `{Runtime}
    (old : Original.ReportSystem.t) (data : pyval) (items : list pyval)
    (rows : list (pyval * string * Z))
    (output_format delivery_method : string) (w : World) :
  getitem data "items" = inr (VList items) ->
  Forall2 is_item items rows ->
  output_format ∈ ["pdf"; "excel"; "html"] ->
  delivery_method ∈ ["email"; "download"; "cloud"] ->
  exists (text : string) (report : Report.t) (old' : Original.ReportSystem.t)
    (sys' : ReportSystem.t) (w1 w2 : World),
    Original.ReportSystem.generate_report old "inventory" data output_format
      delivery_method w = (inr text, old', w1)
    /\ ReportSystem.generate_report ReportSystem.init "inventory" data
         output_format delivery_method w = (inr report, sys', w2)
    /\ Report.content report = text
    /\ (delivery_method <> "download" -> stdout w2 = stdout w1).
Proof.
  intros Hitems Hs Hf Hd.
  apply (same_report_text old InventoryReportGenerator.new "inventory"
           output_format delivery_method data
           (inventory_content
              (strftime "%Y-%m-%d %H:%M:%S" (time_at w (reads w))) rows)
           [("total_items", VInt (Z_sum (map snd rows)))] w); try done.
  - by apply (getitem_truthy data "items" (VList items)).
  - by apply (original_inventory_content data items).
  - by apply (inventory_report_of_rows data items).
Qed.

Lemma refactoring_preserves_the_inventory_text_witness :
  exists (text : string) (report : Report.t) (old' : Original.ReportSystem.t)
    (sys' : ReportSystem.t) (w1 w2 : World),
    Original.ReportSystem.generate_report (H := quoting_runtime)
      Original.ReportSystem.init "inventory" inventory_data "excel" "download"
      world0
    = (inr text, old', w1)
    /\ ReportSystem.generate_report (ReportSystem.init (H := quoting_runtime))
         "inventory" inventory_data "excel" "download" world0
       = (inr report, sys', w2)
    /\ Report.content report = text
    /\ ("download" <> "download" -> stdout w2 = stdout w1).
Proof.
  apply (refactoring_preserves_the_inventory_text (H := quoting_runtime)
           Original.ReportSystem.init inventory_data
           (map inventory_item inventory_rows) inventory_rows "excel"
           "download" world0).
  - reflexivity.
  - repeat constructor.
  - repeat constructor.
  - repeat constructor.
Defined.

(** X23.  For a financial payload with float income and expenses, and for
    each of the three formats and the three delivery methods, the original script and the refactored system with its default
    registries, started in the same world, both return normally and the
    content of the refactored system's report is the very text the
    original returns; for the email and cloud deliveries the two also
    leave the same lines on the console. *)
Theorem refactoring_preserves_the_financial_text `{Runtime}
    (old : Original.ReportSystem.t) (data : pyval) (income expenses : float)
    (output_format delivery_method : string) (w : World) :
  getitem data "income" = inr (VFloat income) ->
  getitem data "expenses" = inr (VFloat expenses) ->
  output_format ∈ ["pdf"; "excel"; "html"] ->
  delivery_method ∈ ["email"; "download"; "cloud"] ->
  exists (text : string) (report : Report.t) (old' : Original.ReportSystem.t)
    (sys' : ReportSystem.t) (w1 w2 : World),
    Original.ReportSystem.generate_report old "financial" data output_format
      delivery_method w = (inr text, old', w1)
    /\ ReportSystem.generate_report ReportSystem.init "financial" data
         output_format delivery_method w = (inr report, sys', w2)
    /\ Report.content report = text
    /\ (delivery_method <> "download" -> stdout w2 = stdout w1).
Proof.
  intros Hi He Hf Hd.
  apply (same_report_text old FinancialReportGenerator.new "financial"
           output_format delivery_method data
           (financial_content
              (strftime "%Y-%m-%d %H:%M:%S" (time_at w (reads w)))
              income expenses)
           [("balance", VFloat (PrimFloat.sub income expenses))] w); try done.
  - by apply (getitem_truthy data "income" (VFloat income)).
  - by apply original_financial_content.
  - by apply financial_report_of_floats.
Qed.

Lemma refactoring_preserves_the_financial_text_witness :
  exists (text : string) (report : Report.t) (old' : Original.ReportSystem.t)
    (sys' : ReportSystem.t) (w1 w2 : World),
    Original.ReportSystem.generate_report (H := quoting_runtime)
      Original.ReportSystem.init "financial" financial_data "html" "cloud"
      world0
    = (inr text, old', w1)
    /\ ReportSystem.generate_report (ReportSystem.init (H := quoting_runtime))
         "financial" financial_data "html" "cloud" world0
       = (inr report, sys', w2)
    /\ Report.content report = text
    /\ ("cloud" <> "download" -> stdout w2 = stdout w1).
Proof.
  apply (refactoring_preserves_the_financial_text (H := quoting_runtime)
           Original.ReportSystem.init financial_data 50000%float 32000%float
           "html" "cloud" world0).
  - reflexivity.
  - reflexivity.
  - repeat constructor.
  - repeat constructor.
Defined.

(** ** A sale without an amount *)

Lemma sum_from_stops_at_a_bad_sale (good : list pyval)
    (rows : list (pyval * float)) (bad : pyval) (rest : list pyval) (e : exn)
    (acc : pyval) :
  Forall2 (fun sale row => is_sale sale (fst row) (snd row)) good rows ->
  getitem bad "amount" = inl e ->
  acc = VInt 0 \/ (exists a, acc = VFloat a) ->
  sum_from (fun item => getitem item "amount") acc (good ++ bad :: rest)
  = inl e.
Proof.
  intros Hs Hbad. revert acc.
  induction Hs as [|sale row good rows [_ Ha] _ IH]; intros acc Hacc.
  - cbn [app sum_from]. by rewrite Hbad.
  - cbn [app sum_from]. rewrite Ha. cbn [rbind].
    destruct Hacc as [->|[a ->]].
    + change (add (VInt 0) (VFloat (snd row)))
        with (inr (A := exn) (VFloat (0 + snd row)%float)).
      cbn [rbind]. apply IH. right. by eexists.
    + change (add (VFloat a) (VFloat (snd row)))
        with (inr (A := exn) (VFloat (a + snd row)%float)).
      cbn [rbind]. apply IH. right. by eexists.
Qed.

(** X24.  When the list of sales holds, after items with a product and a
    float amount, an item whose [amount] cannot be read (a dictionary
    without that key, or a value that is not a dictionary), the sales
    generator raises the error of that first bad item, whatever follows
    it, having read the clock once and made no report; a system that
    resolves the three tags of the request (the sales generator, a truthy
    formatter, a truthy delivery) passes the error on and adds nothing to
    its history. *)
Theorem first_bad_sale_stops_the_report `{Runtime} (data : pyval)
    (good : list pyval) (rows : list (pyval * float)) (bad : pyval)
    (rest : list pyval) (e : exn) (w : World) :
  getitem data "sales" = inr (VList (good ++ bad :: rest)) ->
  Forall2 (fun sale row => is_sale sale (fst row) (snd row)) good rows ->
  getitem bad "amount" = inl e ->
  SalesReportGenerator.generate_report data w = (inl e, ticked w)
  /\ forall (sys : ReportSystem.t) (output_format delivery_method : string)
       (f : IFormatStrategy.t) (d : IDeliveryStrategy.t),
       ReportFactory._generators (ReportSystem.factory sys) !! "sales"
       = Some SalesReportGenerator.new ->
       ReportSystem._format_strategies sys !! output_format = Some f ->
       IFormatStrategy.__bool__ f = true ->
       ReportSystem._delivery_strategies sys !! delivery_method = Some d ->
       IDeliveryStrategy.__bool__ d = true ->
       ReportSystem.generate_report sys "sales" data output_format
         delivery_method w
       = (inl e, configured sys SalesReportGenerator.new f d data, ticked w)
       /\ ReportSystem.get_report_history
            (configured sys SalesReportGenerator.new f d data)
          = ReportSystem.get_report_history sys.
Proof.
  intros Hsales Hs Hbad.
  assert (Hgen : SalesReportGenerator.generate_report data w = (inl e, ticked w)).
  { unfold SalesReportGenerator.generate_report, bind, now, lift.
    rewrite Hsales.
    unfold SalesReportGenerator._calculate_totals, sum. cbn [iter rbind].
    rewrite (sum_from_stops_at_a_bad_sale good rows bad rest e (VInt 0));
      auto. }
  split; [done|].
  intros sys output_format delivery_method f d Hg Hf Hfb Hd Hdb.
  assert (Hcg : ReportFactory.create_generator (ReportSystem.factory sys) "sales"
                = inr SalesReportGenerator.new)
    by (by apply create_generator_resolved).
  rewrite (generate_report_resolved _ _ _ _ _ _ f d w Hcg Hf Hfb Hd Hdb).
  rewrite build_runs
    by (try done; by apply (getitem_truthy data "sales" _ Hsales)).
  change (IReportGenerator.generate_report SalesReportGenerator.new)
    with SalesReportGenerator.generate_report.
  by rewrite Hgen.
Qed.

Lemma first_bad_sale_stops_the_report_witness :
  SalesReportGenerator.generate_report (H := quoting_runtime)
    (VDict [("period", VStr "Enero 2024");
            ("sales",
              VList ([sale_item (VStr "Laptop HP", 899.99%float)]
                     ++ VDict [("product", VStr "Mouse Logitech")]
                     :: [VInt 3]))])
    world0
  = (inl (KeyError "amount"), ticked world0).
Proof.
  apply (first_bad_sale_stops_the_report (H := quoting_runtime)
           (VDict [("period", VStr "Enero 2024");
                   ("sales",
                     VList ([sale_item (VStr "Laptop HP", 899.99%float)]
                            ++ VDict [("product", VStr "Mouse Logitech")]
                            :: [VInt 3]))])
           [sale_item (VStr "Laptop HP", 899.99%float)]
           [(VStr "Laptop HP", 899.99%float)]
           (VDict [("product", VStr "Mouse Logitech")]) [VInt 3]
           (KeyError "amount") world0).
  - reflexivity.
  - repeat constructor.
  - reflexivity.
Defined.
